(** * Sensor Hub: registry, sensor contract and health aggregation

    A shallow embedding of [sensors/base.py], [sensors/dht22.py], [app.py]
    (the Flask front end) and [main.py] (the FastAPI front end), and the
    properties of the plugin registry, of the sensor contract and of the
    health roll-up that hold of that code.

    Conventions.
    - A Python call either returns a value or raises: [Result].  Every
      exception of the model is an instance of [Exception]; [BaseException]
      outside [Exception] ([KeyboardInterrupt], [SystemExit]) is outside the
      model.
    - Effects are explicit: a computation is a function of the [World], which
      holds the hardware (how the driver answers, given the calls made so
      far), the calls made on the driver, and the records handed to
      [logging].
    - A Python [dict] keeps insertion order: [PyDict] is an association list
      whose assignment replaces in place or appends.
    - A Python [float] is a binary64 number with the arithmetic of IEEE 754
      ([SpecFloat]).
    - A handler's answer is the JSON document its front end writes: Flask's
      [jsonify] sorts the keys of every dict and fails on keys that do not
      compare, FastAPI's [JSONResponse] keeps their order and refuses a
      float that is not finite. *)

From Stdlib Require Import Ascii ZArith SpecFloat.
From stdpp Require Import base strings pretty list.

Local Open Scope string_scope.
Local Open Scope list_scope.

(** ** Python values *)

(** The scalar values a YAML document gives that the code handles: [null],
    booleans and strings.  On these [==] and [hash] agree with structural
    equality, so they can key a [dict] as they are.  Numbers, on which Python
    identifies [True] and [1], and collections are left out. *)
Inductive PyVal : Type :=
  | VNone
  | VBool (b : bool)
  | VStr (s : string).

#[global] Instance PyVal_eq_dec : EqDecision PyVal.
Proof. solve_decision. Defined.

(** [bool(v)]: the truth value [not v] tests. *)
Definition truthy (v : PyVal) : bool :=
  match v with
  | VNone => false
  | VBool b => b
  | VStr s => negb (String.eqb s "")
  end.

(** [str(v)], as an f-string formats [v]. *)
Definition py_str (v : PyVal) : string :=
  match v with
  | VNone => "None"
  | VBool true => "True"
  | VBool false => "False"
  | VStr s => s
  end.

(** [type(v).__name__] *)
Definition type_name (v : PyVal) : string :=
  match v with
  | VNone => "NoneType"
  | VBool _ => "bool"
  | VStr _ => "str"
  end.

(** [repr(s)] of a string without quotes or escapes in it. *)
Definition py_repr (s : string) : string := "'" +:+ s +:+ "'".

(** [str.lower] on ASCII letters.  The two module names the code can resolve
    are pure ASCII, and no character outside ASCII lowers to an ASCII letter
    of those names, so bytes above 127 may stay as they are. *)
Definition lower_ascii (c : ascii) : ascii :=
  let n := nat_of_ascii c in
  if (65 <=? n)%nat && (n <=? 90)%nat then ascii_of_nat (n + 32) else c.

Fixpoint lower (s : string) : string :=
  match s with
  | EmptyString => EmptyString
  | String c s' => String (lower_ascii c) (lower s')
  end.

(** ** Floats

    A Python [float] is an IEEE 754 binary64 number: [spec_float] at
    precision 53, with the operations of that format, rounding to nearest,
    ties to even. *)
Definition PyFloat : Type := spec_float.

Definition prec : Z := 53.
Definition emax : Z := 1024.

(** [float(n)], the conversion an [int] operand of a float operation
    undergoes. *)
Definition float_of_int (n : Z) : PyFloat := binary_normalize prec emax n 0 false.

Definition float_mul (x y : PyFloat) : PyFloat := SFmul prec emax x y.
Definition float_add (x y : PyFloat) : PyFloat := SFadd prec emax x y.
Definition float_div (x y : PyFloat) : PyFloat := SFdiv prec emax x y.

(** [a / b] of two [int]s that are exact as floats (below [2 ^ 53]): the
    true quotient, rounded once. *)
Definition int_truediv (a b : Z) : PyFloat :=
  float_div (float_of_int a) (float_of_int b).

(** [math.isfinite(x)] *)
Definition isfinite (x : PyFloat) : bool :=
  match x with
  | S754_zero _ | S754_finite _ _ _ => true
  | S754_infinity _ | S754_nan => false
  end.

(** The integer nearest to [a / b], for [b > 0]; a tie goes to the even
    one. *)
Definition half_even (a b : Z) : Z :=
  let q := (a / b)%Z in
  let r := (a mod b)%Z in
  match (2 * r ?= b)%Z with
  | Lt => q
  | Gt => (q + 1)%Z
  | Eq => if Z.even q then q else (q + 1)%Z
  end.

(** The number of tenths nearest to [m * 2 ^ e], a tie to the even one. *)
Definition tenths (m : positive) (e : Z) : Z :=
  match e with
  | Zneg k => half_even (10 * Zpos m) (2 ^ Zpos k)
  | _ => (10 * Zpos m * 2 ^ e)%Z
  end.

(** [round(x, 1)] of a float (CPython's [double_round]): the exact value of
    [x] is rounded to one decimal, a tie to the even digit, and the float
    nearest to that decimal is returned; the sign of [x] is kept, infinities
    and NaN round to themselves. *)
Definition round1 (x : PyFloat) : PyFloat :=
  match x with
  | S754_finite s m e =>
      match tenths m e with
      | Z0 => S754_zero s
      | n =>
          let '(q, e', l) := SFdiv_core_binary prec emax n 0 10 0 in
          binary_round_aux prec emax s q e' l
      end
  | _ => x
  end.

(** The float a decimal literal with one digit after the point denotes:
    [float_of_tenths 215] is [21.5]. *)
Definition float_of_tenths (n : Z) : PyFloat := int_truediv n 10.

(** ** Exceptions *)

(** What the handlers of the code look at in an exception: whether it is an
    instance of [RuntimeError] (the first [except] clause of
    [DHT22Sensor.read]), whether it is an HTTP abort and with which status,
    its [args] tuple (each element as [str] shows it) and [str(e)].  A
    subclass may define [__str__], so [exc_str] is a field of its own. *)
Inductive ExcClass : Type :=
  | RuntimeErrorClass                (* RuntimeError or a subclass of it *)
  | HTTPExceptionClass (code : nat)  (* werkzeug / starlette HTTPException *)
  | ExceptionClass (name : string).  (* any other subclass of Exception *)

Record PyExc : Type := mkExc {
  exc_class : ExcClass;
  exc_args : list string;
  exc_str : string
}.

Definition is_RuntimeError (e : PyExc) : bool :=
  match exc_class e with RuntimeErrorClass => true | _ => false end.

Definition KeyError (key : string) : PyExc :=
  mkExc (ExceptionClass "KeyError") [key] (py_repr key).
Definition IndexError (msg : string) : PyExc :=
  mkExc (ExceptionClass "IndexError") [msg] msg.
Definition AttributeError (msg : string) : PyExc :=
  mkExc (ExceptionClass "AttributeError") [msg] msg.
Definition TypeError (msg : string) : PyExc :=
  mkExc (ExceptionClass "TypeError") [msg] msg.
Definition ValueError (msg : string) : PyExc :=
  mkExc (ExceptionClass "ValueError") [msg] msg.
(** [parent] is the module the name was looked up in when that module is not
    a package. *)
Definition ModuleNotFoundError (module_name : string) (parent : option string)
  : PyExc :=
  let msg := "No module named " +:+ py_repr module_name +:+
             match parent with
             | Some p => "; " +:+ py_repr p +:+ " is not a package"
             | None => ""
             end in
  mkExc (ExceptionClass "ModuleNotFoundError") [msg] msg.
(** [abort(code)] of Flask and [HTTPException(status_code=code, detail=...)]
    of FastAPI. *)
Definition HTTPException (code : nat) (detail : string) : PyExc :=
  mkExc (HTTPExceptionClass code) [detail] detail.

(** ** Results *)

Inductive Result (A : Type) : Type :=
  | Returns (a : A)
  | Raises (e : PyExc).
Arguments Returns {A} a.
Arguments Raises {A} e.

Definition returned {A} (r : Result A) : bool :=
  match r with Returns _ => true | Raises _ => false end.

(** ** Ordered dictionaries *)

Section PyDict.
Context {K V : Type} `{EqDecision K}.

Definition PyDict : Type := list (K * V).

(** [d.get(k)] *)
Fixpoint dict_get (d : PyDict) (k : K) : option V :=
  match d with
  | [] => None
  | (k', v) :: d' => if decide (k' = k) then Some v else dict_get d' k
  end.

(** [d[k] = v]: a key already present keeps its place and takes the new
    value, a new key goes to the end. *)
Fixpoint dict_set (d : PyDict) (k : K) (v : V) : PyDict :=
  match d with
  | [] => [(k, v)]
  | (k', v') :: d' =>
      if decide (k' = k) then (k', v) :: d' else (k', v') :: dict_set d' k v
  end.

(** [k in d] *)
Definition dict_contains (d : PyDict) (k : K) : bool :=
  match dict_get d k with Some _ => true | None => false end.

(** [d.get(k, default)] *)
Definition dict_get_default (d : PyDict) (k : K) (default : V) : V :=
  match dict_get d k with Some v => v | None => default end.

Definition dict_keys (d : PyDict) : list K := d.*1.
Definition dict_values (d : PyDict) : list V := d.*2.
End PyDict.
Arguments PyDict : clear implicits.

(** ** The world: hardware, driver calls, log *)

(** A DHT22 device object is named by the number of driver calls made before
    the call that created it. *)
Definition Device : Type := nat.

(** The calls the code makes on [board] / [adafruit_dht]. *)
Inductive HwCall : Type :=
  | ImportDriver                      (* executing sensors/dht22.py: import board, adafruit_dht *)
  | OpenDHT22 (pin_name : string)     (* adafruit_dht.DHT22(pin) *)
  | GetTemperature (dev : Device)     (* dev.temperature *)
  | GetHumidity (dev : Device)        (* dev.humidity *)
  | ExitDevice (dev : Device).        (* dev.exit() *)

(** The hardware is not part of the repository: it is whatever answers the
    calls.  [hw_pin] says which attributes the [board] module has;
    [hw_answer history call] is what [call] returns or raises after the calls
    of [history].  A measurement is a float or [None], as the DHT22 driver
    gives it. *)
Record Hardware : Type := mkHardware {
  hw_pin : string -> bool;
  hw_answer : list HwCall -> HwCall -> Result (option PyFloat)
}.

Inductive Level : Type := INFO | WARNING | ERROR.

(** One constructor per [logger] call of the sources. *)
Inductive LogRecord : Type :=
  | LogSkipping (sensor_id : PyVal)                   (* app.py:41, main.py:56 *)
  | LogLoaded (sensor_id : PyVal) (sensor_type : string)  (* app.py:63, main.py:78 *)
  | LogFailedToLoad (sensor_id : PyVal) (e : PyExc)   (* app.py:66, main.py:81 *)
  | LogHubInitialized (n : nat)                       (* app.py:69, main.py:97 *)
  | LogShutdownComplete                               (* main.py:105 *)
  | LogInitializing (name sensor_id : PyVal)          (* base.py:26 *)
  | LogDHT22Initialized (pin_name : string)           (* dht22.py:24 *)
  | LogDHT22ReadError (arg0 : string)                 (* dht22.py:50 *)
  | LogDHT22Unexpected (e : PyExc)                    (* dht22.py:57 *)
  | LogDHT22CleanedUp (sensor_id : PyVal)             (* dht22.py:92 *)
  | LogDHT22CleanupError (e : PyExc).                 (* dht22.py:94 *)

Definition log_level (r : LogRecord) : Level :=
  match r with
  | LogFailedToLoad _ _ | LogDHT22Unexpected _ | LogDHT22CleanupError _ => ERROR
  | LogDHT22ReadError _ => WARNING
  | _ => INFO
  end.

(** The text of each record, as its f-string builds it. *)
Definition log_message (r : LogRecord) : string :=
  match r with
  | LogSkipping sensor_id => "Skipping disabled sensor: " +:+ py_str sensor_id
  | LogLoaded sensor_id sensor_type =>
      "Loaded sensor: " +:+ py_str sensor_id +:+ " (" +:+ sensor_type +:+ ")"
  | LogFailedToLoad sensor_id e =>
      "Failed to load sensor " +:+ py_str sensor_id +:+ ": " +:+ exc_str e
  | LogHubInitialized n =>
      "Sensor Hub initialized with " +:+ pretty n +:+ " sensor(s)"
  | LogShutdownComplete => "Sensor Hub shutdown complete"
  | LogInitializing name sensor_id =>
      "Initializing sensor: " +:+ py_str name +:+ " (" +:+ py_str sensor_id +:+ ")"
  | LogDHT22Initialized pin_name =>
      "DHT22 sensor initialized on pin " +:+ pin_name
  | LogDHT22ReadError arg0 => "DHT22 read error: " +:+ arg0
  | LogDHT22Unexpected e => "DHT22 unexpected error: " +:+ exc_str e
  | LogDHT22CleanedUp sensor_id =>
      "DHT22 sensor " +:+ py_str sensor_id +:+ " cleaned up"
  | LogDHT22CleanupError e => "Error cleaning up DHT22 sensor: " +:+ exc_str e
  end.

Record World : Type := mkWorld {
  hardware : Hardware;
  calls : list HwCall;
  log : list LogRecord
}.

(** ** Computations *)

Definition M (A : Type) : Type := World -> Result A * World.

Definition ret {A} (a : A) : M A := fun w => (Returns a, w).

Definition bind {A B} (m : M A) (k : A -> M B) : M B :=
  fun w =>
    match m w with
    | (Returns a, w') => k a w'
    | (Raises e, w') => (Raises e, w')
    end.

Definition raise {A} (e : PyExc) : M A := fun w => (Raises e, w).

(** [try: body  except Exception as e: handler e] *)
Definition try_except {A} (body : M A) (handler : PyExc -> M A) : M A :=
  fun w =>
    match body w with
    | (Returns a, w') => (Returns a, w')
    | (Raises e, w') => handler e w'
    end.

Definition lift {A} (r : Result A) : M A := fun w => (r, w).

Notation "x <- m ;; k" := (bind m (fun x => k))
  (at level 100, m at next level, right associativity).
Notation "m ;; k" := (bind m (fun _ => k))
  (at level 100, right associativity).

(** [logger.info(...)], [logger.warning(...)], [logger.error(...)] *)
Definition logger (r : LogRecord) : M unit :=
  fun w => (Returns tt, mkWorld (hardware w) (calls w) (log w ++ [r])).

(** A call on the driver: the hardware answers, the call is recorded. *)
Definition hw_call (c : HwCall) : M (option PyFloat) :=
  fun w =>
    (hw_answer (hardware w) (calls w) c,
     mkWorld (hardware w) (calls w ++ [c]) (log w)).

(** The device a successful [OpenDHT22] creates. *)
Definition hw_open (pin_name : string) : M Device :=
  fun w =>
    match hw_call (OpenDHT22 pin_name) w with
    | (Returns _, w') => (Returns (length (calls w)), w')
    | (Raises e, w') => (Raises e, w')
    end.

(** ** Configuration *)

(** One entry of the [sensors] list of config.yaml. *)
Definition SensorConfig : Type := PyDict string PyVal.

(** The keys of config.yaml the code reads ([cors_origins] is only handed to
    the CORS middleware). *)
Record Config : Type := mkConfig {
  config_sensors : option (list SensorConfig);
  config_api_key : option PyVal
}.

(** [d[k]] *)
Definition getitem (d : SensorConfig) (k : string) : Result PyVal :=
  match dict_get d k with
  | Some v => Returns v
  | None => Raises (KeyError k)
  end.

(** ** The sensor contract *)

(** What [read] returns: [{'success': True, 'data': ...}] or
    [{'success': False, 'error': ...}]. *)
Inductive ReadResult : Type :=
  | Success (data : PyDict string PyFloat)
  | Failure (error : string).

Definition success (result : ReadResult) : bool :=
  match result with Success _ => true | Failure _ => false end.

(** What [get_info] returns. *)
Record SensorInfo : Type := mkInfo {
  info_sensor_id : PyVal;
  info_name : PyVal;
  info_type : string;
  info_description : string;
  info_measurements : PyDict string (PyDict string string);
  info_pin : PyVal;
  info_enabled : PyVal
}.

(** The interface of [BaseSensor]: what the front ends call on the objects
    of the registry. *)
Class Sensor (S : Type) : Type := {
  read : S -> M ReadResult;
  get_info : S -> M SensorInfo;
  cleanup : S -> M unit
}.

(** ** sensors/base.py *)

Module BaseSensor.

Record t : Type := mk {
  sensor_id : PyVal;
  name : PyVal;
  config : SensorConfig;
  enabled : PyVal
}.

(** [__init__], lines 13-26 *)
Definition init (sensor_id name : PyVal) (config : SensorConfig) : M t :=
  let self := mk sensor_id name config
                 (dict_get_default config "enabled" (VBool true)) in
  logger (LogInitializing name sensor_id) ;;
  ret self.

(** [cleanup], lines 48-50: [pass] *)
Definition cleanup (self : t) : M unit := ret tt.

End BaseSensor.

(** ** sensors/dht22.py *)

Module DHT22Sensor.

(** The attributes of an instance: those [BaseSensor.__init__] sets, and
    [self.sensor], which is missing ([None] here) on an object whose
    [__init__] raised before line 23. *)
Record t : Type := mk {
  base : BaseSensor.t;
  sensor : option Device
}.

Definition sensor_id (self : t) : PyVal := BaseSensor.sensor_id (base self).
Definition name (self : t) : PyVal := BaseSensor.name (base self).
Definition config (self : t) : SensorConfig := BaseSensor.config (base self).
Definition enabled (self : t) : PyVal := BaseSensor.enabled (base self).

(** [getattr(board, pin_name)] *)
Definition getattr_board (pin_name : PyVal) : M string :=
  match pin_name with
  | VStr s =>
      fun w =>
        if hw_pin (hardware w) s then (Returns s, w)
        else (Raises (AttributeError
                ("module 'board' has no attribute " +:+ py_repr s)), w)
  | _ => raise (TypeError ("attribute name must be string, not " +:+
                         py_repr (type_name pin_name)))
  end.

(** [__init__], lines 16-24 *)
Definition init (sensor_id name : PyVal) (config : SensorConfig) : M t :=
  self <- BaseSensor.init sensor_id name config ;;
  let pin_name := dict_get_default config "pin" (VStr "D4") in
  pin <- getattr_board pin_name ;;
  dev <- hw_open pin ;;
  logger (LogDHT22Initialized pin) ;;
  ret (mk self (Some dev)).

(** [self.sensor] *)
Definition get_sensor (self : t) : M Device :=
  match sensor self with
  | Some dev => ret dev
  | None => raise (AttributeError
              "'DHT22Sensor' object has no attribute 'sensor'")
  end.

(** [error.args[0]] *)
Definition args_0 (error : PyExc) : Result string :=
  match exc_args error with
  | a :: _ => Returns a
  | [] => Raises (IndexError "tuple index out of range")
  end.

(** [read], lines 26-61 *)
Definition read (self : t) : M ReadResult :=
  try_except
    (dev <- get_sensor self ;;
     temperature_c <- hw_call (GetTemperature dev) ;;
     humidity <- hw_call (GetHumidity dev) ;;
     match humidity, temperature_c with
     | Some humidity, Some temperature_c =>
         let temperature_f :=
           float_add (float_mul temperature_c (int_truediv 9 5))
                     (float_of_int 32) in
         ret (Success [("temperature_c", round1 temperature_c);
                       ("temperature_f", round1 temperature_f);
                       ("humidity", round1 humidity)])
     | _, _ => ret (Failure "Failed to retrieve data from sensor")
     end)
    (fun error =>
       if is_RuntimeError error then
         (* the f-strings of lines 50 and 53 index [error.args] *)
         arg0 <- lift (args_0 error) ;;
         logger (LogDHT22ReadError arg0) ;;
         ret (Failure ("RuntimeError: " +:+ arg0))
       else
         logger (LogDHT22Unexpected error) ;;
         ret (Failure ("Exception: " +:+ exc_str error))).

(** [get_info], lines 63-86 *)
Definition get_info (self : t) : SensorInfo :=
  {| info_sensor_id := sensor_id self;
     info_name := name self;
     info_type := "DHT22";
     info_description := "Temperature and humidity sensor";
     info_measurements :=
       [("temperature_c", [("unit", "°C");
                           ("description", "Temperature in Celsius")]);
        ("temperature_f", [("unit", "°F");
                           ("description", "Temperature in Fahrenheit")]);
        ("humidity", [("unit", "%");
                      ("description", "Relative humidity")])];
     info_pin := dict_get_default (config self) "pin" (VStr "D4");
     info_enabled := enabled self |}.

(** [cleanup], lines 88-94 *)
Definition cleanup (self : t) : M unit :=
  try_except
    (dev <- get_sensor self ;;
     hw_call (ExitDevice dev) ;;
     logger (LogDHT22CleanedUp (sensor_id self)))
    (fun e => logger (LogDHT22CleanupError e)).

End DHT22Sensor.

#[global] Instance DHT22Sensor_Sensor : Sensor DHT22Sensor.t := {
  read := DHT22Sensor.read;
  get_info := fun self => ret (DHT22Sensor.get_info self);
  cleanup := DHT22Sensor.cleanup
}.

(** ** Registry construction

    [load_sensors] has the same text in app.py (lines 37-66) and in main.py
    (lines 52-81); it is embedded once.  The registry is the module-level
    [sensors] dict, passed explicitly. *)

Definition Registry : Type := PyDict PyVal DHT22Sensor.t.

(** The modules of the [sensors] package of the repository. *)
Inductive PyModule : Type := sensors_base | sensors_dht22.

(** The classes those modules define. *)
Inductive SensorClass : Type := BaseSensorClass | DHT22SensorClass.

(** [sensor_type.lower()] *)
Definition str_lower (v : PyVal) : Result string :=
  match v with
  | VStr s => Returns (lower s)
  | VNone => Raises (AttributeError "'NoneType' object has no attribute 'lower'")
  | VBool _ => Raises (AttributeError "'bool' object has no attribute 'lower'")
  end.

(** [s.partition('.')]: the text before the first dot and, when there is a
    dot, the text after it. *)
Fixpoint partition_dot (s : string) : string * option string :=
  match s with
  | EmptyString => (EmptyString, None)
  | String c s' =>
      if Ascii.eqb c "." then (EmptyString, Some s')
      else let '(head, tail) := partition_dot s' in (String c head, tail)
  end.

(** [s.removeprefix(p)], when [s] starts with [p]. *)
Fixpoint strip_prefix (p s : string) : option string :=
  match p, s with
  | EmptyString, _ => Some s
  | String a p', String b s' =>
      if Ascii.eqb a b then strip_prefix p' s' else None
  | String _ _, EmptyString => None
  end.

(** [import_module(module_name)].  The code asks only for names that start
    with [sensors.]; the [sensors] package holds base.py and dht22.py.
    Loading sensors/dht22.py executes its imports of [board] and
    [adafruit_dht]; whether that works, and whether a later import finds the
    module already loaded, is the hardware's answer.  A dotted name is
    imported parent first: below [sensors.base] or [sensors.dht22] the
    parent is loaded and turns out not to be a package; elsewhere the parent
    itself is not found. *)
Definition import_module (module_name : string) : M PyModule :=
  match strip_prefix "sensors." module_name with
  | None => raise (ModuleNotFoundError module_name None)
  | Some submodule =>
      let '(head, tail) := partition_dot submodule in
      match tail with
      | None =>
          if String.eqb head "base" then ret sensors_base
          else if String.eqb head "dht22" then
            hw_call ImportDriver ;; ret sensors_dht22
          else raise (ModuleNotFoundError ("sensors." +:+ head) None)
      | Some tail =>
          let child := (partition_dot tail).1 in
          if String.eqb head "base" then
            raise (ModuleNotFoundError ("sensors.base." +:+ child)
                     (Some "sensors.base"))
          else if String.eqb head "dht22" then
            hw_call ImportDriver ;;
            raise (ModuleNotFoundError ("sensors.dht22." +:+ child)
                     (Some "sensors.dht22"))
          else raise (ModuleNotFoundError ("sensors." +:+ head) None)
      end
  end.

(** [module.__name__] *)
Definition name_of_module (module : PyModule) : string :=
  match module with
  | sensors_base => "sensors.base"
  | sensors_dht22 => "sensors.dht22"
  end.

(** [getattr(module, class_name)], for a name that ends in [Sensor]:
    dht22.py binds [BaseSensor] (imported) and [DHT22Sensor], base.py binds
    [BaseSensor]. *)
Definition getattr_module (module : PyModule) (class_name : string)
  : Result SensorClass :=
  let missing := Raises (AttributeError
                   ("module " +:+ py_repr (name_of_module module) +:+
                    " has no attribute " +:+ py_repr class_name)) in
  match module with
  | sensors_base =>
      if String.eqb class_name "BaseSensor" then Returns BaseSensorClass
      else missing
  | sensors_dht22 =>
      if String.eqb class_name "DHT22Sensor" then Returns DHT22SensorClass
      else if String.eqb class_name "BaseSensor" then Returns BaseSensorClass
      else missing
  end.

(** [sensor_class(sensor_id=..., name=..., config=...)]; [BaseSensor] has
    abstract methods and cannot be instantiated. *)
Definition instantiate (sensor_class : SensorClass) (sensor_id name : PyVal)
    (config : SensorConfig) : M DHT22Sensor.t :=
  match sensor_class with
  | BaseSensorClass =>
      raise (TypeError
        "Can't instantiate abstract class BaseSensor with abstract methods get_info, read")
  | DHT22SensorClass => DHT22Sensor.init sensor_id name config
  end.

(** Lines 45-60 of app.py (60-75 of main.py): from the spec to the
    instance.  Returns [sensor_id], [sensor_type] and [sensor_instance]. *)
Definition construct (sensor_config : SensorConfig)
  : M (PyVal * string * DHT22Sensor.t) :=
  sensor_type <- lift (getitem sensor_config "type") ;;
  sensor_id <- lift (getitem sensor_config "id") ;;
  lowered <- lift (str_lower sensor_type) ;;
  let module_name := "sensors." +:+ lowered in
  let class_name := py_str sensor_type +:+ "Sensor" in
  module <- import_module module_name ;;
  sensor_class <- lift (getattr_module module class_name) ;;
  sensor_instance <- instantiate sensor_class sensor_id
                       (dict_get_default sensor_config "name" sensor_id)
                       sensor_config ;;
  ret (sensor_id, py_str sensor_type, sensor_instance).

(** [sensor_config.get('enabled', True)] *)
Definition enabled_flag (sensor_config : SensorConfig) : PyVal :=
  dict_get_default sensor_config "enabled" (VBool true).

(** The body of the [for] loop, lines 40-66 of app.py. *)
Definition load_sensor (sensor_config : SensorConfig) (sensors : Registry)
  : M Registry :=
  if negb (truthy (enabled_flag sensor_config)) then
    sensor_id <- lift (getitem sensor_config "id") ;;
    logger (LogSkipping sensor_id) ;;
    ret sensors
  else
    try_except
      (built <- construct sensor_config ;;
       let '(sensor_id, sensor_type, sensor_instance) := built in
       let sensors := dict_set sensors sensor_id sensor_instance in
       logger (LogLoaded sensor_id sensor_type) ;;
       ret sensors)
      (fun e =>
         logger (LogFailedToLoad (dict_get_default sensor_config "id" VNone) e) ;;
         ret sensors).

(** [for x in l: st = body x st] *)
Fixpoint for_each {A St : Type} (body : A -> St -> M St) (l : list A) (st : St)
  : M St :=
  match l with
  | [] => ret st
  | x :: l' => st' <- body x st ;; for_each body l' st'
  end.

(** [config.get('sensors', [])] *)
Definition sensor_configs (config : Config) : list SensorConfig :=
  default [] (config_sensors config).

Definition load_sensors (config : Config) (sensors : Registry) : M Registry :=
  for_each load_sensor (sensor_configs config) sensors.

(** [API_KEY = os.getenv('API_KEY', config.get('api_key', 'Bearer your_secret_api_key'))] *)
Definition API_KEY (env_API_KEY : option string) (config : Config) : PyVal :=
  match env_API_KEY with
  | Some s => VStr s
  | None => default (VStr "Bearer your_secret_api_key") (config_api_key config)
  end.

(** ** Requests and responses *)

(** Of a request the handlers read the [Authorization] header (absent:
    [None]) and the [sensor_id] of the path. *)
Record Request : Type := mkRequest {
  authorization : option string
}.

(** [request.headers.get('Authorization')] *)
Definition header_value (h : option string) : PyVal :=
  match h with Some s => VStr s | None => VNone end.

Record HealthReport : Type := mkReport {
  status : string;
  sensor_status : PyDict PyVal string;
  total : nat;
  healthy : nat;
  unhealthy : nat
}.

Inductive Body : Type :=
  | HealthBody (report : HealthReport)
  | SensorListBody (sensors : list SensorInfo) (count : nat)
  | DataBody (data : PyDict string PyFloat)
  | InfoBody (info : SensorInfo)
  | ErrorBody (error : string).

Record Response : Type := mkResponse {
  status_code : nat;
  body : Body
}.

(** What the client sees of a handler: the response it returns, the status
    of an HTTP exception it raises, 500 for any other exception. *)
Definition http_status (r : Result Response) : nat :=
  match r with
  | Returns resp => status_code resp
  | Raises e =>
      match exc_class e with
      | HTTPExceptionClass code => code
      | _ => 500
      end
  end.

(** ** JSON

    Both front ends answer in JSON.  A [Body] is the document, the members
    of an object in the order they are written.  Flask's [jsonify] writes
    the keys of every dict sorted ([sort_keys], the default of its JSON
    provider); FastAPI's [JSONResponse] writes them in the order of the dict
    and refuses a float that is not finite ([allow_nan=False]). *)

(** [a < b] on two keys is defined when both are [str] or both are [bool];
    else it raises [TypeError]. *)
Definition comparable (a b : PyVal) : bool :=
  match a, b with
  | VStr _, VStr _ | VBool _, VBool _ => true
  | _, _ => false
  end.

(** [a <= b] on two comparable keys: strings by code point, [False] before
    [True]. *)
Definition key_leb (a b : PyVal) : bool :=
  match a, b with
  | VStr s, VStr t => String.leb s t
  | VBool x, VBool y => implb x y
  | _, _ => true
  end.

Section Sorting.
Context {K V : Type} (leb : K -> K -> bool).

Fixpoint insert_item (x : K * V) (l : list (K * V)) : list (K * V) :=
  match l with
  | [] => [x]
  | y :: l' => if leb x.1 y.1 then x :: l else y :: insert_item x l'
  end.

(** The items in the order of their keys; items whose keys are equal stay
    in the order they had. *)
Definition sort_items (l : list (K * V)) : list (K * V) :=
  foldr insert_item [] l.
End Sorting.

(** [sorted(d.items())] of a dict keyed by identifiers, as [json.dumps]
    computes it under [sort_keys].  No two keys of a dict are equal, so the
    order is that of the keys.  [list.sort] takes the items from the left:
    the first key that cannot be compared with the keys before it raises,
    and the message names its type and theirs.  (From 64 items on
    [list.sort] works run by run, and the two names can come the other way
    round.) *)
Definition sorted_items {V : Type} (d : PyDict PyVal V)
  : Result (PyDict PyVal V) :=
  match d with
  | [] => Returns []
  | (k0, _) :: rest =>
      match List.find (fun p : PyVal * V => negb (comparable p.1 k0)) rest with
      | Some (k, _) =>
          Raises (TypeError
            ("'<' not supported between instances of " +:+
             py_repr (type_name k) +:+ " and " +:+ py_repr (type_name k0)))
      | None => Returns (sort_items key_leb d)
      end
  end.

(** The same for a dict keyed by strings, which always compare. *)
Definition sort_keys {V : Type} (d : PyDict string V) : PyDict string V :=
  sort_items String.leb d.

Definition sort_info (info : SensorInfo) : SensorInfo :=
  {| info_sensor_id := info_sensor_id info;
     info_name := info_name info;
     info_type := info_type info;
     info_description := info_description info;
     info_measurements :=
       sort_keys ((fun p : string * PyDict string string =>
                     (p.1, sort_keys p.2)) <$> info_measurements info);
     info_pin := info_pin info;
     info_enabled := info_enabled info |}.

(** Flask's [jsonify(content)]: the document with the keys of every dict
    sorted.  Only the per-sensor dict of the health report has keys that may
    fail to compare. *)
Definition jsonify (content : Body) : Result Body :=
  match content with
  | HealthBody report =>
      match sorted_items (sensor_status report) with
      | Returns sorted =>
          Returns (HealthBody (mkReport (status report) sorted (total report)
                                 (healthy report) (unhealthy report)))
      | Raises e => Raises e
      end
  | SensorListBody sensors count =>
      Returns (SensorListBody (sort_info <$> sensors) count)
  | DataBody data => Returns (DataBody (sort_keys data))
  | InfoBody info => Returns (InfoBody (sort_info info))
  | ErrorBody error => Returns (ErrorBody error)
  end.

(** Starlette's [JSONResponse(content, status_code)], which FastAPI also
    wraps around the dict a handler returns: the dicts as they are; a float
    that is infinite or NaN raises [ValueError]. *)
Definition JSONResponse (status_code : nat) (content : Body) : Result Response :=
  match content with
  | DataBody data =>
      if forallb (fun p : string * PyFloat => isfinite p.2) data
      then Returns (mkResponse status_code content)
      else Raises (ValueError
                     "Out of range float values are not JSON compliant")
  | _ => Returns (mkResponse status_code content)
  end.

(** The routes of both front ends. *)
Inductive Endpoint : Type :=
  | Health                             (* GET / and GET /health *)
  | ListSensors                        (* GET /api/sensors *)
  | SensorData (sensor_id : string)    (* GET /api/sensors/<sensor_id> *)
  | SensorInfoOf (sensor_id : string)  (* GET /api/sensors/<sensor_id>/info *)
  | Legacy.                            (* GET /api/temp-and-humid-sensor *)

(** ** The health pass

    Lines 76-93 of app.py and 112-129 of main.py have the same text. *)

Section HealthPass.
Context {S : Type} `{Sensor S}.

(** The counters and the per-sensor dict of the loop. *)
Definition Tally : Type := nat * nat * PyDict PyVal string.

(** One turn of the loop, lines 81-91. *)
Definition health_step (item : PyVal * S) (acc : Tally) : M Tally :=
  let '(sensor_id, sensor) := item in
  let '(healthy_count, unhealthy_count, sensor_status) := acc in
  try_except
    (result <- read sensor ;;
     if success result then
       ret (healthy_count + 1, unhealthy_count,
            dict_set sensor_status sensor_id "healthy")
     else
       ret (healthy_count, unhealthy_count + 1,
            dict_set sensor_status sensor_id "unhealthy"))
    (fun e =>
       ret (healthy_count, unhealthy_count + 1,
            dict_set sensor_status sensor_id ("error: " +:+ exc_str e))).

(** Line 93. *)
Definition overall_status (healthy_count unhealthy_count : nat) : string :=
  if (unhealthy_count =? 0)%nat then "healthy"
  else if (0 <? healthy_count)%nat then "degraded"
  else "unhealthy".

(** Lines 76-103 of app.py, 112-142 of main.py: the loop, the reduction,
    the content of the report and the status code.  Each front end then
    hands the two to its JSON writer. *)
Definition health (sensors : PyDict PyVal S) : M Response :=
  acc <- for_each health_step sensors (0, 0, []) ;;
  let '(healthy_count, unhealthy_count, sensor_status) := acc in
  let overall := overall_status healthy_count unhealthy_count in
  ret (mkResponse
         (if String.eqb overall "healthy" then 200 else 503)
         (HealthBody (mkReport overall sensor_status (length sensors)
                        healthy_count unhealthy_count))).
End HealthPass.

(** ** app.py: the Flask front end *)

Module App.
Section Handlers.
Context {S : Type} `{Sensor S}.
(** The module-level names the handlers read. *)
Variable API_KEY : PyVal.
Variable sensors : PyDict PyVal S.

(** [return jsonify(content), code] *)
Definition respond (code : nat) (content : Body) : M Response :=
  body <- lift (jsonify content) ;;
  ret (mkResponse code body).

(** Lines 72-103.  Flask hands the request to every handler through the
    global [request]; this one never looks at it. *)
Definition check_health (request : Request) : M Response :=
  report <- health sensors ;;
  respond (status_code report) (body report).

(** Lines 109-111, 126-128, 145-147, 160-162:
    [if api_key != API_KEY: abort(401)] *)
Definition check_api_key (request : Request) : M unit :=
  let api_key := header_value (authorization request) in
  if decide (api_key = API_KEY) then ret tt
  else raise (HTTPException 401 "Unauthorized").

(** Lines 106-120. *)
Definition list_sensors (request : Request) : M Response :=
  check_api_key request ;;
  sensor_list <- for_each
    (fun (item : PyVal * S) (sensor_list : list SensorInfo) =>
       info <- get_info item.2 ;; ret (sensor_list ++ [info]))
    sensors [] ;;
  respond 200 (SensorListBody sensor_list (length sensor_list)).

(** Lines 123-139. *)
Definition get_sensor_data (sensor_id : string) (request : Request)
  : M Response :=
  check_api_key request ;;
  match dict_get sensors (VStr sensor_id) with
  | None =>
      respond 404 (ErrorBody ("Sensor " +:+ sensor_id +:+ " not found"))
  | Some sensor =>
      result <- read sensor ;;
      match result with
      | Success data => respond 200 (DataBody data)
      | Failure error => respond 500 (ErrorBody error)
      end
  end.

(** Lines 142-153. *)
Definition get_sensor_info (sensor_id : string) (request : Request)
  : M Response :=
  check_api_key request ;;
  match dict_get sensors (VStr sensor_id) with
  | None =>
      respond 404 (ErrorBody ("Sensor " +:+ sensor_id +:+ " not found"))
  | Some sensor =>
      info <- get_info sensor ;;
      respond 200 (InfoBody info)
  end.

(** Lines 166-170: the first sensor whose info has type DHT22. *)
Fixpoint find_dht22 (items : PyDict PyVal S) : M (option S) :=
  match items with
  | [] => ret None
  | (_, sensor) :: items' =>
      info <- get_info sensor ;;
      if String.eqb (info_type info) "DHT22" then ret (Some sensor)
      else find_dht22 items'
  end.

(** Lines 157-180. *)
Definition get_sensor_data_legacy (request : Request) : M Response :=
  check_api_key request ;;
  dht22_sensor <- find_dht22 sensors ;;
  match dht22_sensor with
  | None => respond 404 (ErrorBody "No DHT22 sensor configured")
  | Some sensor =>
      result <- read sensor ;;
      match result with
      | Success data => respond 200 (DataBody data)
      | Failure error => respond 500 (ErrorBody error)
      end
  end.

(** The [@app.route] decorators. *)
Definition route (endpoint : Endpoint) : Request -> M Response :=
  match endpoint with
  | Health => check_health
  | ListSensors => list_sensors
  | SensorData sensor_id => get_sensor_data sensor_id
  | SensorInfoOf sensor_id => get_sensor_info sensor_id
  | Legacy => get_sensor_data_legacy
  end.

(** Lines 186-189: [for sensor in sensors.values(): sensor.cleanup()] *)
Definition shutdown : M unit :=
  for_each (fun (item : PyVal * S) (_ : unit) => cleanup item.2) sensors tt.
End Handlers.

(** Lines 35 and 68-69: the module starts from an empty registry. *)
Definition startup (config : Config) : M Registry :=
sensors <- load_sensors config [] ;;
logger (LogHubInitialized (length sensors)) ;;
ret sensors.

End App.

(** ** main.py: the FastAPI front end *)

Module Main.
Section Handlers.
Context {S : Type} `{Sensor S}.
Variable API_KEY : PyVal.
Variable sensors : PyDict PyVal S.

(** Lines 84-90. *)
Definition verify_api_key (authorization : option string) : M unit :=
  if decide (header_value authorization = API_KEY) then ret tt
  else raise (HTTPException 401 "Invalid or missing API key").

(** Lines 108-143.  The function takes no header parameter. *)
Definition health_check (request : Request) : M Response :=
  report <- health sensors ;;
  lift (JSONResponse (status_code report) (body report)).

(** Lines 146-158. *)
Definition list_sensors (request : Request) : M Response :=
  verify_api_key (authorization request) ;;
  sensor_list <- for_each
    (fun (item : PyVal * S) (sensor_list : list SensorInfo) =>
       info <- get_info item.2 ;; ret (sensor_list ++ [info]))
    sensors [] ;;
  lift (JSONResponse 200 (SensorListBody sensor_list (length sensor_list))).

(** Lines 161-181. *)
Definition get_sensor_data (sensor_id : string) (request : Request)
  : M Response :=
  verify_api_key (authorization request) ;;
  match dict_get sensors (VStr sensor_id) with
  | None =>
      raise (HTTPException 404 ("Sensor " +:+ sensor_id +:+ " not found"))
  | Some sensor =>
      result <- read sensor ;;
      match result with
      | Success data => lift (JSONResponse 200 (DataBody data))
      | Failure error => raise (HTTPException 500 error)
      end
  end.

(** Lines 184-196. *)
Definition get_sensor_info (sensor_id : string) (request : Request)
  : M Response :=
  verify_api_key (authorization request) ;;
  match dict_get sensors (VStr sensor_id) with
  | None =>
      raise (HTTPException 404 ("Sensor " +:+ sensor_id +:+ " not found"))
  | Some sensor =>
      info <- get_info sensor ;;
      lift (JSONResponse 200 (InfoBody info))
  end.

(** Lines 200-226. *)
Definition get_sensor_data_legacy (request : Request) : M Response :=
  verify_api_key (authorization request) ;;
  dht22_sensor <- App.find_dht22 sensors ;;
  match dht22_sensor with
  | None => raise (HTTPException 404 "No DHT22 sensor configured")
  | Some sensor =>
      result <- read sensor ;;
      match result with
      | Success data => lift (JSONResponse 200 (DataBody data))
      | Failure error => raise (HTTPException 500 error)
      end
  end.

(** The [@app.get] decorators. *)
Definition route (endpoint : Endpoint) : Request -> M Response :=
  match endpoint with
  | Health => health_check
  | ListSensors => list_sensors
  | SensorData sensor_id => get_sensor_data sensor_id
  | SensorInfoOf sensor_id => get_sensor_info sensor_id
  | Legacy => get_sensor_data_legacy
  end.

(** Lines 100-105. *)
Definition shutdown_event : M unit :=
  for_each (fun (item : PyVal * S) (_ : unit) => cleanup item.2) sensors tt ;;
  logger LogShutdownComplete.
End Handlers.

(** Lines 49 and 93-97. *)
Definition startup_event (config : Config) : M Registry :=
sensors <- load_sensors config [] ;;
logger (LogHubInitialized (length sensors)) ;;
ret sensors.

End Main.

(** ** Observations

    What the properties below speak of, read off the code above. *)

(** The results of running [f] on the elements of [l] one after the other,
    each in the world the one before left, whether it returned or raised. *)
Fixpoint outcomes {A B : Type} (f : A -> M B) (l : list A) (w : World)
  : list (Result B) :=
  match l with
  | [] => []
  | x :: l' => (f x w).1 :: outcomes f l' (f x w).2
  end.

(** The world after those runs. *)
Fixpoint world_after {A B : Type} (f : A -> M B) (l : list A) (w : World)
  : World :=
  match l with
  | [] => w
  | x :: l' => world_after f l' (f x w).2
  end.

(** The reads of one health pass over [sensors], in registry order. *)
Definition reads {S : Type} `{Sensor S} (sensors : PyDict PyVal S) (w : World)
  : list (Result ReadResult) :=
  outcomes (fun item : PyVal * S => read item.2) sensors w.

(** A read that returned [{'success': True, ...}]. *)
Definition read_ok (r : Result ReadResult) : bool :=
  match r with
  | Returns (Success _) => true
  | _ => false
  end.

Definition count_if {A : Type} (p : A -> bool) (l : list A) : nat :=
  length (List.filter p l).

(** The per-sensor status of lines 85, 88 and 91 of app.py. *)
Definition verdict (r : Result ReadResult) : string :=
  match r with
  | Returns (Success _) => "healthy"
  | Returns (Failure _) => "unhealthy"
  | Raises e => "error: " +:+ exc_str e
  end.

(** The per-sensor dict after the verdicts of [rs] are filed under [keys],
    in order, into [st]. *)
Definition filed (st : PyDict PyVal string) (keys : list PyVal)
    (rs : list (Result ReadResult)) : PyDict PyVal string :=
  foldl (fun st (p : PyVal * Result ReadResult) => dict_set st p.1 (verdict p.2))
        st (zip keys rs).

(** The overall status a health response reports. *)
Definition reported_status (r : Result Response) : option string :=
  match r with
  | Returns (mkResponse _ (HealthBody report)) => Some (status report)
  | _ => None
  end.

(** The world with one more record in its log. *)
Definition logged (w : World) (r : LogRecord) : World :=
  mkWorld (hardware w) (calls w) (log w ++ [r]).

(** What the constructor gave at each turn of the loop of [load_sensors]:
    nothing for a spec that was skipped, else the result of lines 45-60 in
    the world the loop had reached. *)
Fixpoint attempts (specs : list SensorConfig) (w : World)
  : list (option (Result (PyVal * string * DHT22Sensor.t))) :=
  match specs with
  | [] => []
  | c :: specs' =>
      (if truthy (enabled_flag c) then Some (construct c w).1 else None)
      :: attempts specs' (load_sensor c [] w).2
  end.

(** What an attempt says of its spec. *)
Definition attempt_of (c : SensorConfig)
    (a : option (Result (PyVal * string * DHT22Sensor.t))) : Prop :=
  match a with
  | Some (Returns (sensor_id, _, inst)) =>
      truthy (enabled_flag c) = true
      /\ dict_get c "id" = Some sensor_id
      /\ DHT22Sensor.base inst
        = BaseSensor.mk sensor_id (dict_get_default c "name" sensor_id) c
            (enabled_flag c)
  | Some (Raises _) => truthy (enabled_flag c) = true
  | None => truthy (enabled_flag c) = false
  end.

(** The entry a turn of the loop assigns, when its constructor returned. *)
Definition entry_of (a : option (Result (PyVal * string * DHT22Sensor.t)))
  : option (PyVal * DHT22Sensor.t) :=
  match a with
  | Some (Returns (sensor_id, _, sensor_instance)) =>
      Some (sensor_id, sensor_instance)
  | _ => None
  end.

(** The assignments of line 62, in order. *)
Definition assign_all (sensors : Registry)
    (entries : list (PyVal * DHT22Sensor.t)) : Registry :=
  foldl (fun sensors p => dict_set sensors p.1 p.2) sensors entries.

(** Did this turn of the loop end in the [except] clause? *)
Definition failed (a : option (Result (PyVal * string * DHT22Sensor.t))) : bool :=
  match a with
  | Some (Raises _) => true
  | _ => false
  end.

(** The positions, counted from [start], of the turns that failed. *)
Fixpoint failed_from (start : nat)
    (l : list (option (Result (PyVal * string * DHT22Sensor.t)))) : list nat :=
  match l with
  | [] => []
  | a :: l' =>
      if failed a then start :: failed_from (S start) l'
      else failed_from (S start) l'
  end.

(** The positions in [specs] of the specs that failed to instantiate. *)
Definition failed_indices (specs : list SensorConfig) (w : World) : list nat :=
  failed_from 0 (attempts specs w).

(** The identifiers of the specs that have one. *)
Definition spec_ids (specs : list SensorConfig) : list PyVal :=
  omap (fun c : SensorConfig => dict_get c "id") specs.

(** Line 41 reads [sensor_config['id']] of a spec it skips. *)
Definition skips_cleanly (c : SensorConfig) : bool :=
  truthy (enabled_flag c) || dict_contains c "id".

(** The records [load_sensors] itself writes, one per turn of its loop. *)
Definition is_loop_record (r : LogRecord) : bool :=
  match r with
  | LogSkipping _ | LogLoaded _ _ | LogFailedToLoad _ _ => true
  | _ => false
  end.

(** How the record of a turn answers to its spec: a skip for a falsy flag,
    else a load or a failure. *)
Definition turn_matches (c : SensorConfig) (r : LogRecord) : Prop :=
  if truthy (enabled_flag c) then
    match r with
    | LogLoaded sensor_id _ => dict_get c "id" = Some sensor_id
    | LogFailedToLoad sensor_id _ => sensor_id = dict_get_default c "id" VNone
    | _ => False
    end
  else
    match r with
    | LogSkipping sensor_id => dict_get c "id" = Some sensor_id
    | _ => False
    end.

(** A computation that writes none of the records of the loop of
    [load_sensors]: whatever it logs, the log only grows, by records of the
    sensor classes. *)
Definition quiet {A : Type} (m : M A) : Prop :=
  forall w : World,
    exists ls : list LogRecord,
      log (m w).2 = log w ++ ls /\ List.filter is_loop_record ls = [].

(** ** Test doubles and sample inputs *)

(** A sensor whose [read] gives a fixed result; [get_info] and [cleanup] do
    nothing of interest. *)
Record StubSensor : Type := mkStub {
  stub_read : Result ReadResult
}.

#[global] Instance StubSensor_Sensor : Sensor StubSensor := {
  read := fun self => lift (stub_read self);
  get_info := fun self =>
    ret (mkInfo VNone VNone "Stub" "" [] VNone (VBool true));
  cleanup := fun self => ret tt
}.

(** Hardware on which everything works and every measurement is 21.5. *)
Definition hw_fine : Hardware :=
  mkHardware (fun _ => true) (fun _ _ => Returns (Some (float_of_tenths 215))).

(** Hardware whose temperature read raises [RuntimeError()] with no
    argument. *)
Definition hw_bare_runtime_error : Hardware :=
  mkHardware (fun _ => true)
    (fun _ c =>
       match c with
       | GetTemperature _ => Raises (mkExc RuntimeErrorClass [] "")
       | _ => Returns (Some (float_of_tenths 215))
       end).

Definition fresh_world (hw : Hardware) : World := mkWorld hw [] [].

Definition spec (id type : string) : SensorConfig :=
  [("id", VStr id); ("type", VStr type)].

Definition spec_on (id type pin : string) : SensorConfig :=
  [("id", VStr id); ("type", VStr type); ("pin", VStr pin)].

Definition disabled_spec (id type : string) : SensorConfig :=
  [("id", VStr id); ("type", VStr type); ("enabled", VBool false)].

Definition config_of (specs : list SensorConfig) : Config :=
  mkConfig (Some specs) None.

(** An opened DHT22 instance, as [DHT22Sensor("t1", "t1", spec)] leaves it. *)
Definition dht22_t1 : DHT22Sensor.t :=
  DHT22Sensor.mk
    (BaseSensor.mk (VStr "t1") (VStr "t1") (spec "t1" "DHT22") (VBool true))
    (Some 0%nat).

Definition stub_registry : PyDict PyVal StubSensor :=
  [(VStr "a", mkStub (Raises (mkExc (ExceptionClass "OSError") ["bus"] "bus")));
   (VStr "b", mkStub (Returns (Success [("x", float_of_int 1)])));
   (VStr "c", mkStub (Returns (Failure "no data")))].

(** ** Further observations and sample inputs *)

(** The exception the driver raises while [dev] is read, if it raises: on
    the temperature, or else on the humidity. *)
Definition first_fault (dev : Device) (w : World) : option PyExc :=
  match hw_answer (hardware w) (calls w) (GetTemperature dev) with
  | Raises e => Some e
  | Returns _ =>
      match hw_answer (hardware w) (calls w ++ [GetTemperature dev])
              (GetHumidity dev) with
      | Raises e => Some e
      | Returns _ => None
      end
  end.

(** Hardware whose temperature read fails the way a DHT22 often does. *)
Definition hw_checksum : Hardware :=
  mkHardware (fun _ => true)
    (fun _ c =>
       match c with
       | GetTemperature _ =>
           Raises (mkExc RuntimeErrorClass
                     ["Checksum did not validate. Try again."]
                     "Checksum did not validate. Try again.")
       | _ => Returns (Some (float_of_tenths 215))
       end).

(** Hardware on which everything works and every measurement is 0.25. *)
Definition hw_quarter : Hardware :=
  mkHardware (fun _ => true) (fun _ _ => Returns (Some (int_truediv 1 4))).

(** A computation that leaves the hardware as it is and only adds to the
    calls made on the driver. *)
Definition steady {A : Type} (m : M A) : Prop :=
  forall w : World,
    hardware (m w).2 = hardware w
    /\ exists cs : list HwCall, calls (m w).2 = calls w ++ cs.

(** What is true of an instance the loop has registered, [w] being the world
    before the load and [w'] the world after it. *)
Definition opened_in (w w' : World) (p : PyVal * DHT22Sensor.t) : Prop :=
  exists (dev : Device) (pin : string),
    DHT22Sensor.sensor p.2 = Some dev
    /\ calls w' !! dev = Some (OpenDHT22 pin)
    /\ (length (calls w) < dev)%nat
    /\ info_pin (DHT22Sensor.get_info p.2) = VStr pin
    /\ hw_pin (hardware w) pin = true
    /\ truthy (info_enabled (DHT22Sensor.get_info p.2)) = true
    /\ dict_get (DHT22Sensor.config p.2) "type" = Some (VStr "DHT22").

(** Can [sorted] order these keys?  The first one decides the kind of all
    of them, and a key that is [None] compares with no other. *)
Definition sortable (keys : list PyVal) : bool :=
  match keys with
  | [] => true
  | k0 :: rest => forallb (fun k => comparable k k0) rest
  end.

(** A registry whose two identifiers are [None] and a string, as
    [id: null] and [id: a] in config.yaml give them; both sensors read
    well. *)
Definition mixed_registry : PyDict PyVal StubSensor :=
  [(VNone, mkStub (Returns (Success [("x", float_of_int 1)])));
   (VStr "a", mkStub (Returns (Success [("x", float_of_int 1)])))].

(** One turn of registry construction as the specification words it, on
    the registry and the world the loop has reached.  A spec whose [enabled]
    flag is falsy is skipped: a log record, and nothing else.  On any other
    spec the constructor is run, in that world: its instance is bound to its
    identifier, or else its failure is logged and the registry is left as it
    was.  Either way the loop goes on. *)
Definition spec_turn (st : Registry * World) (c : SensorConfig)
  : Registry * World :=
  if truthy (enabled_flag c) then
    match construct c st.2 with
    | (Returns (sensor_id, sensor_type, sensor_instance), w1) =>
        (dict_set st.1 sensor_id sensor_instance,
         logged w1 (LogLoaded sensor_id sensor_type))
    | (Raises e, w1) =>
        (st.1, logged w1 (LogFailedToLoad (dict_get_default c "id" VNone) e))
    end
  else
    (st.1, logged st.2 (LogSkipping (dict_get_default c "id" VNone))).

(** * Properties *)

(** ** Ordered dictionaries *)

Section PyDictFacts.
Context {K V : Type} `{EqDecision K}.
Implicit Types (d : PyDict K V) (k : K) (v : V).

Lemma dict_get_set_eq d k v : dict_get (dict_set d k v) k = Some v.
Proof.
  induction d as [|[k' v'] d IH]; simpl.
  - by rewrite decide_True.
  - destruct (decide (k' = k)) as [->|Hne]; simpl.
    + by rewrite decide_True.
    + by rewrite decide_False.
Qed.

Lemma dict_get_set_ne d k k' v :
  k ≠ k' → dict_get (dict_set d k v) k' = dict_get d k'.
Proof.
  intros Hne. induction d as [|[k0 v0] d IH]; simpl.
  - by rewrite decide_False.
  - destruct (decide (k0 = k)) as [->|Hk0]; simpl.
    + by rewrite !decide_False.
    + by rewrite IH.
Qed.

Lemma dict_get_None d k : dict_get d k = None ↔ k ∉ dict_keys d.
Proof.
  unfold dict_keys. induction d as [|[k' v'] d IH]; simpl.
  - split; [intros _; apply not_elem_of_nil | done].
  - rewrite not_elem_of_cons. destruct (decide (k' = k)) as [->|Hne].
    + split; [done | intros [? _]; done].
    + rewrite IH. split; [intros ?; split; [congruence | done] | tauto].
Qed.

Lemma dict_get_Some_elem d k v : dict_get d k = Some v → (k, v) ∈ d.
Proof.
  induction d as [|[k' v'] d IH]; simpl; [done|].
  destruct (decide (k' = k)) as [->|Hne].
  - intros [= ->]. apply elem_of_cons; by left.
  - intros Hg. apply elem_of_cons; right; auto.
Qed.

(** Assigning to a new key appends. *)
Lemma dict_set_fresh d k v :
  dict_get d k = None → dict_set d k v = d ++ [(k, v)].
Proof.
  induction d as [|[k' v'] d IH]; simpl; [done|].
  destruct (decide (k' = k)); [done|]. intros Hg. by rewrite IH.
Qed.

(** Assigning to a key already there keeps the keys as they are. *)
Lemma dict_set_keys_present d k v :
  dict_get d k ≠ None → dict_keys (dict_set d k v) = dict_keys d.
Proof.
  unfold dict_keys.
  induction d as [|[k' v'] d IH]; simpl; [done|].
  destruct (decide (k' = k)); [done|].
  intros Hg. rewrite !fmap_cons. f_equal. by apply IH.
Qed.

Lemma dict_set_keys_NoDup d k v :
  NoDup (dict_keys d) → NoDup (dict_keys (dict_set d k v)).
Proof.
  intros Hnd. destruct (dict_get d k) as [old|] eqn:Hg.
  - rewrite dict_set_keys_present; [done | congruence].
  - rewrite dict_set_fresh by done. unfold dict_keys in *.
    rewrite fmap_app. apply NoDup_app. split; [done|]. split.
    + intros x Hx. simpl. rewrite list_elem_of_singleton. intros ->.
      by apply dict_get_None in Hg.
    + simpl. apply NoDup_singleton.
Qed.
End PyDictFacts.

(** ** Computations *)

Lemma for_each_app {A St : Type} (body : A -> St -> M St) (l1 l2 : list A)
    (st : St) (w : World) :
  for_each body (l1 ++ l2) st w =
  match for_each body l1 st w with
  | (Returns st', w') => for_each body l2 st' w'
  | (Raises e, w') => (Raises e, w')
  end.
Proof.
  revert st w. induction l1 as [|x l1 IH]; intros st w; simpl; [done|].
  unfold bind. destruct (body x st w) as [[st'|e] w']; [apply IH | done].
Qed.

Lemma outcomes_length {A B : Type} (f : A -> M B) (l : list A) (w : World) :
  length (outcomes f l w) = length l.
Proof. revert w. induction l as [|x l IH]; intros w; simpl; [done|]. by rewrite IH. Qed.

Lemma count_if_split {A : Type} (p : A -> bool) (l : list A) :
  count_if p l + count_if (fun x => negb (p x)) l = length l.
Proof.
  unfold count_if. induction l as [|x l IH]; simpl; [done|].
  destruct (p x); simpl; lia.
Qed.

(** ** The health pass *)

Section HealthFacts.
Context {S : Type} `{Sensor S}.
Implicit Types (sensors : PyDict PyVal S) (w : World).

(** One turn of the loop never raises: it reads the sensor once and files
    the verdict of that read. *)
Lemma health_step_eq (sensor_id : PyVal) (sensor : S) (h u : nat)
    (st : PyDict PyVal string) w :
  health_step (sensor_id, sensor) (h, u, st) w =
  (Returns (if read_ok (read sensor w).1 then h + 1 else h,
            if read_ok (read sensor w).1 then u else u + 1,
            dict_set st sensor_id (verdict (read sensor w).1)),
   (read sensor w).2).
Proof.
  unfold health_step, try_except, bind.
  destruct (read sensor w) as [[[data|error]|e] w']; reflexivity.
Qed.

Lemma health_loop sensors (h u : nat) (st : PyDict PyVal string) w :
  for_each health_step sensors (h, u, st) w =
  (Returns (h + count_if read_ok (reads sensors w),
            u + count_if (fun r => negb (read_ok r)) (reads sensors w),
            filed st (dict_keys sensors) (reads sensors w)),
   world_after (fun item : PyVal * S => read item.2) sensors w).
Proof.
  revert h u st w. unfold reads, filed, count_if.
  induction sensors as [|[sensor_id sensor] sensors IH]; intros h u st w.
  - simpl. unfold ret. by rewrite !Nat.add_0_r.
  - cbn [for_each]. unfold bind at 1. rewrite health_step_eq. rewrite IH.
    cbn [outcomes world_after dict_keys fmap list_fmap zip zip_with foldl
         List.filter fst snd].
    unfold dict_keys.
    destruct (read_ok (read sensor w).1); cbn [negb length];
      by rewrite Nat.add_1_r, Nat.add_succ_comm.
Qed.
End HealthFacts.

Section HealthReport.
Context {S : Type} `{Sensor S}.
Implicit Types (sensors : PyDict PyVal S) (w : World).

(** Filing under keys that are new and distinct appends, in order. *)
Lemma filed_fresh (st : PyDict PyVal string) (keys : list PyVal)
    (rs : list (Result ReadResult)) :
  NoDup (dict_keys st ++ keys) →
  filed st keys rs = st ++ zip keys (verdict <$> rs).
Proof.
  unfold filed. revert st rs.
  induction keys as [|k keys IH]; intros st rs Hnd; simpl.
  - by rewrite app_nil_r.
  - destruct rs as [|r rs]; simpl; [by rewrite app_nil_r|].
    rewrite IH.
    + rewrite dict_set_fresh.
      * by rewrite <- app_assoc.
      * apply dict_get_None. apply NoDup_app in Hnd as (_ & Hdis & _).
        intros Hin. apply (Hdis k Hin). apply elem_of_cons; by left.
    + rewrite dict_set_fresh.
      * unfold dict_keys in *. rewrite fmap_app. simpl.
        by rewrite <- app_assoc.
      * apply dict_get_None. apply NoDup_app in Hnd as (_ & Hdis & _).
        intros Hin. apply (Hdis k Hin). apply elem_of_cons; by left.
Qed.

(** The whole of [health]: it returns, and the report is a function of
    the reads. *)
Lemma health_eq sensors w :
  let rs := reads sensors w in
  let h := count_if read_ok rs in
  let u := count_if (fun r => negb (read_ok r)) rs in
  health sensors w =
  (Returns (mkResponse
              (if String.eqb (overall_status h u) "healthy" then 200 else 503)
              (HealthBody (mkReport (overall_status h u)
                             (filed [] (dict_keys sensors) rs)
                             (length sensors) h u))),
   world_after (fun item : PyVal * S => read item.2) sensors w).
Proof.
  intros rs h u. unfold health, bind. by rewrite health_loop.
Qed.
End HealthReport.

(** ** Sorted keys *)

Lemma insert_item_Permutation {K V : Type} (leb : K -> K -> bool)
    (x : K * V) (l : list (K * V)) :
  insert_item leb x l ≡ₚ x :: l.
Proof.
  induction l as [|y l IH]; simpl; [done|].
  destruct (leb x.1 y.1); [done|]. rewrite IH. apply Permutation_swap.
Qed.

(** Sorting moves the items and neither adds nor drops one. *)
Lemma sort_items_Permutation {K V : Type} (leb : K -> K -> bool)
    (l : list (K * V)) :
  sort_items leb l ≡ₚ l.
Proof.
  unfold sort_items. induction l as [|x l IH]; simpl; [done|].
  by rewrite insert_item_Permutation, IH.
Qed.

Lemma sorted_items_sortable {V : Type} (d : PyDict PyVal V) :
  sortable (dict_keys d) = true →
  sorted_items d = Returns (sort_items key_leb d).
Proof.
  destruct d as [|[k0 v0] rest]; [done|].
  unfold sortable, sorted_items, dict_keys. rewrite fmap_cons. cbn [fst].
  intros Hall.
  destruct (List.find _ rest) as [[k v]|] eqn:Hfind; [|done].
  apply List.find_some in Hfind as [Hin Hk]. simpl in Hk.
  rewrite forallb_forall in Hall.
  rewrite (Hall k) in Hk; [done|].
  apply list_elem_of_In. apply list_elem_of_fmap. exists (k, v).
  split; [done|]. by apply list_elem_of_In.
Qed.

Lemma sorted_items_unsortable {V : Type} (d : PyDict PyVal V) :
  sortable (dict_keys d) = false →
  ∃ msg : string, sorted_items d = Raises (TypeError msg).
Proof.
  destruct d as [|[k0 v0] rest]; [done|].
  unfold sortable, sorted_items, dict_keys. rewrite fmap_cons. cbn [fst].
  intros Hall.
  destruct (List.find _ rest) as [[k v]|] eqn:Hfind; [eauto|].
  exfalso. rewrite <- not_true_iff_false in Hall. apply Hall.
  apply forallb_forall. intros k Hk.
  apply list_elem_of_In, list_elem_of_fmap in Hk as [[k' v] [-> Hin]].
  apply list_elem_of_In in Hin.
  pose proof (List.find_none _ _ Hfind _ Hin) as Hc. simpl in *.
  by destruct (comparable k' k0).
Qed.

(** Strings always sort. *)
Lemma sortable_strings (keys : list PyVal) :
  (∀ k : PyVal, k ∈ keys → ∃ s : string, k = VStr s) →
  sortable keys = true.
Proof.
  destruct keys as [|k0 rest]; [done|]. intros Hstr. simpl.
  apply forallb_forall. intros k Hk. apply list_elem_of_In in Hk.
  destruct (Hstr k0) as [s0 ->]; [apply elem_of_cons; by left|].
  destruct (Hstr k) as [s ->]; [apply elem_of_cons; by right|]. done.
Qed.

Lemma dict_set_keys_elem {K V : Type} `{EqDecision K} (d : PyDict K V)
    (k k' : K) (v : V) :
  k' ∈ dict_keys (dict_set d k v) → k' ∈ dict_keys d ∨ k' = k.
Proof.
  destruct (dict_get d k) as [old|] eqn:Hg.
  - rewrite dict_set_keys_present by congruence. by left.
  - rewrite dict_set_fresh by done. unfold dict_keys. rewrite fmap_app.
    rewrite elem_of_app. simpl. rewrite list_elem_of_singleton. tauto.
Qed.

(** The per-sensor dict holds no key that is not in the registry. *)
Lemma filed_keys (st : PyDict PyVal string) (keys : list PyVal)
    (rs : list (Result ReadResult)) (k : PyVal) :
  k ∈ dict_keys (filed st keys rs) → k ∈ dict_keys st ∨ k ∈ keys.
Proof.
  unfold filed. revert st rs.
  induction keys as [|k0 keys IH]; intros st rs; simpl; [by left|].
  destruct rs as [|r rs]; simpl; [by left|].
  intros Hk. apply IH in Hk as [Hk|Hk].
  - apply dict_set_keys_elem in Hk as [Hk | ->]; [by left|].
    right. apply elem_of_cons; by left.
  - right. apply elem_of_cons; by right.
Qed.

(** What [jsonify] does to a health report: the same report with its
    per-sensor dict sorted, or the [TypeError] of the sort. *)
Lemma jsonify_health (report : HealthReport) :
  if sortable (dict_keys (sensor_status report)) then
    jsonify (HealthBody report)
    = Returns (HealthBody
                 (mkReport (status report)
                    (sort_items key_leb (sensor_status report))
                    (total report) (healthy report) (unhealthy report)))
  else ∃ msg : string, jsonify (HealthBody report) = Raises (TypeError msg).
Proof.
  destruct (sortable _) eqn:Hs; simpl.
  - by rewrite sorted_items_sortable.
  - destruct (sorted_items_unsortable _ Hs) as [msg ->]. eauto.
Qed.

Section FrontEndsHealth.
Context {S : Type} `{Sensor S}.
Implicit Types (sensors : PyDict PyVal S) (w : World).

(** The two handlers are the pass followed by the JSON writer of each
    front end; FastAPI's writes a health report as it is. *)
Lemma health_handlers_eq sensors (request : Request) w :
  let rs := reads sensors w in
  let h := count_if read_ok rs in
  let u := count_if (fun r => negb (read_ok r)) rs in
  let code := if String.eqb (overall_status h u) "healthy" then 200 else 503 in
  let report := mkReport (overall_status h u)
                  (filed [] (dict_keys sensors) rs) (length sensors) h u in
  let w' := world_after (fun item : PyVal * S => read item.2) sensors w in
  App.check_health sensors request w = App.respond code (HealthBody report) w'
  ∧ Main.health_check sensors request w
    = (Returns (mkResponse code (HealthBody report)), w').
Proof.
  intros rs h u code report w'.
  unfold App.check_health, Main.health_check, bind. rewrite health_eq.
  split; reflexivity.
Qed.

(** What [respond] gives on a health report. *)
Lemma respond_health (code : nat) (report : HealthReport) w :
  (App.respond code (HealthBody report) w).2 = w
  ∧ if sortable (dict_keys (sensor_status report)) then
      (App.respond code (HealthBody report) w).1
      = Returns (mkResponse code
                   (HealthBody
                      (mkReport (status report)
                         (sort_items key_leb (sensor_status report))
                         (total report) (healthy report) (unhealthy report))))
    else ∃ msg : string,
      (App.respond code (HealthBody report) w).1 = Raises (TypeError msg).
Proof.
  unfold App.respond, bind, lift.
  pose proof (jsonify_health report) as Hj.
  destruct (sortable _).
  - by rewrite Hj.
  - destruct Hj as [msg ->]. eauto.
Qed.

(** What the client sees of it. *)
Lemma respond_health_status (code : nat) (report : HealthReport) w :
  if sortable (dict_keys (sensor_status report)) then
    http_status (App.respond code (HealthBody report) w).1 = code
    ∧ reported_status (App.respond code (HealthBody report) w).1
      = Some (status report)
  else
    http_status (App.respond code (HealthBody report) w).1 = 500
    ∧ reported_status (App.respond code (HealthBody report) w).1 = None.
Proof.
  destruct (respond_health code report w) as [_ Hr].
  destruct (sortable _).
  - by rewrite Hr.
  - by destruct Hr as [msg ->].
Qed.
End FrontEndsHealth.

(** C1.  The health aggregation of both front ends reduces the reads of a
    pass to the overall status.  With [h] the number of sensors whose read
    returned a success and [u] the number of the others (a failure result or
    an exception), the report that lines 76-102 of app.py and 112-142 of
    main.py build counts [h] healthy and [u] unhealthy out of [h + u], and
    its status is [healthy] when [u = 0], [degraded] when [h > 0] and
    [u > 0], [unhealthy] when [h = 0] and [u > 0]; this for every registry.
    FastAPI answers with that report.  Flask hands it to [jsonify]: for
    every registry whose identifiers are strings (what the code declares
    them to be) it answers with the same report, the per-sensor dict sorted
    by identifier; in general it does so whenever the identifiers can be
    sorted, and when they cannot, [jsonify] raises [TypeError] after the
    pass and the client gets a 500. *)
Theorem health_status_reduction :
  ∀ (S : Type) (HS : Sensor S) (sensors : PyDict PyVal S) (request : Request)
    (w : World),
    let rs := reads sensors w in
    let h := count_if read_ok rs in
    let u := count_if (fun r => negb (read_ok r)) rs in
    ∃ (code : nat) (report : HealthReport) (w' : World),
      health sensors w = (Returns (mkResponse code (HealthBody report)), w')
      ∧ Main.health_check sensors request w
        = (Returns (mkResponse code (HealthBody report)), w')
      ∧ (App.check_health sensors request w).2 = w'
      ∧ (if sortable (dict_keys (sensor_status report)) then
           (App.check_health sensors request w).1
           = Returns (mkResponse code
                        (HealthBody
                           (mkReport (status report)
                              (sort_items key_leb (sensor_status report))
                              (total report) (healthy report)
                              (unhealthy report))))
         else
           ∃ msg : string,
             (App.check_health sensors request w).1 = Raises (TypeError msg)
             ∧ http_status (App.check_health sensors request w).1 = 500)
      ∧ ((∀ k : PyVal, k ∈ dict_keys sensors → ∃ s : string, k = VStr s) →
         ∃ sorted : PyDict PyVal string,
           (App.check_health sensors request w).1
           = Returns (mkResponse code
                        (HealthBody
                           (mkReport (status report) sorted (total report)
                              (healthy report) (unhealthy report))))
           ∧ sorted ≡ₚ sensor_status report)
      ∧ healthy report = h ∧ unhealthy report = u
      ∧ total report = h + u
      ∧ ((u = 0 ∧ status report = "healthy")
         ∨ (0 < h ∧ 0 < u ∧ status report = "degraded")
         ∨ (h = 0 ∧ 0 < u ∧ status report = "unhealthy")).
Proof.
  intros S HS sensors request w rs h u.
  destruct (health_handlers_eq sensors request w) as [Happ Hmain].
  rewrite Happ, Hmain, health_eq. fold rs h u.
  eexists _, _, _. split; [reflexivity|]. split; [reflexivity|].
  match goal with
  | |- context [App.respond ?c (HealthBody ?r) ?w'] =>
      destruct (respond_health c r w') as [Hw Hr]
  end.
  split; [exact Hw|]. split.
  { destruct (sortable _); [exact Hr|].
    destruct Hr as [msg Hr]. exists msg. split; [exact Hr|]. by rewrite Hr. }
  split.
  { intros Hstr. rewrite sortable_strings in Hr.
    - eexists. split; [exact Hr|]. apply sort_items_Permutation.
    - cbn [sensor_status]. intros k Hk.
      apply filed_keys in Hk as [Hk|Hk]; [|by apply Hstr].
      by apply elem_of_nil in Hk. }
  cbn [healthy unhealthy total status].
  split; [done|]. split; [done|]. split.
  - subst h u. rewrite count_if_split. unfold rs, reads.
    by rewrite outcomes_length.
  - unfold overall_status. destruct u as [|u']; simpl; [by left|].
    destruct h as [|h']; simpl.
    + right; right. repeat split; lia.
    + right; left. repeat split; lia.
Qed.

(** On a registry whose identifiers are [None] and a string, both sensors
    reading well, FastAPI answers 200 and [healthy]; Flask computes the same
    report, and [jsonify] fails to sort its two keys. *)
Lemma health_status_reduction_witness :
  let sensors := mixed_registry in
  let request := mkRequest None in
  let w := fresh_world hw_fine in
  (let rs := reads sensors w in
   let h := count_if read_ok rs in
   let u := count_if (fun r => negb (read_ok r)) rs in
   ∃ (code : nat) (report : HealthReport) (w' : World),
     health sensors w = (Returns (mkResponse code (HealthBody report)), w')
     ∧ Main.health_check sensors request w
       = (Returns (mkResponse code (HealthBody report)), w')
     ∧ (App.check_health sensors request w).2 = w'
     ∧ (if sortable (dict_keys (sensor_status report)) then
          (App.check_health sensors request w).1
          = Returns (mkResponse code
                       (HealthBody
                          (mkReport (status report)
                             (sort_items key_leb (sensor_status report))
                             (total report) (healthy report)
                             (unhealthy report))))
        else
          ∃ msg : string,
            (App.check_health sensors request w).1 = Raises (TypeError msg)
            ∧ http_status (App.check_health sensors request w).1 = 500)
     ∧ ((∀ k : PyVal, k ∈ dict_keys sensors → ∃ s : string, k = VStr s) →
        ∃ sorted : PyDict PyVal string,
          (App.check_health sensors request w).1
          = Returns (mkResponse code
                       (HealthBody
                          (mkReport (status report) sorted (total report)
                             (healthy report) (unhealthy report))))
          ∧ sorted ≡ₚ sensor_status report)
     ∧ healthy report = h ∧ unhealthy report = u
     ∧ total report = h + u
     ∧ ((u = 0 ∧ status report = "healthy")
        ∨ (0 < h ∧ 0 < u ∧ status report = "degraded")
        ∨ (h = 0 ∧ 0 < u ∧ status report = "unhealthy")))
  ∧ Main.health_check sensors request w
    = (Returns (mkResponse 200
                  (HealthBody
                     (mkReport "healthy"
                        [(VNone, "healthy"); (VStr "a", "healthy")] 2 2 0))),
       w)
  ∧ App.check_health sensors request w
    = (Raises (TypeError
         "'<' not supported between instances of 'str' and 'NoneType'"), w).
Proof.
  intros sensors request w. split.
  - apply (health_status_reduction StubSensor _ sensors request w).
  - split; reflexivity.
Defined.

(** C2, as stated, fails: on the empty registry the pass reports
    [healthy], not [unhealthy]. *)
Lemma empty_registry_is_not_unhealthy :
  reported_status
    (App.check_health ([] : PyDict PyVal DHT22Sensor.t) (mkRequest None)
       (fresh_world hw_fine)).1
  ≠ Some "unhealthy"
  ∧ reported_status
      (Main.health_check ([] : PyDict PyVal DHT22Sensor.t) (mkRequest None)
         (fresh_world hw_fine)).1
    ≠ Some "unhealthy".
Proof. split; vm_compute; discriminate. Qed.

(** C2, amended.  On the empty registry both counters are zero, the first
    test of the reduction ([unhealthy_count == 0]) holds, and the health
    aggregation of both front ends answers [healthy] with status 200, an
    empty per-sensor dict and a summary of zeros; the world is untouched. *)
Theorem empty_registry_is_healthy :
  ∀ (S : Type) (HS : Sensor S) (request : Request) (w : World),
    App.check_health ([] : PyDict PyVal S) request w
      = (Returns (mkResponse 200 (HealthBody (mkReport "healthy" [] 0 0 0))), w)
    ∧ Main.health_check ([] : PyDict PyVal S) request w
      = (Returns (mkResponse 200 (HealthBody (mkReport "healthy" [] 0 0 0))), w).
Proof. intros S HS request w. split; reflexivity. Qed.

(** C3.  A sensor whose [read] raises does not stop the pass.  For every
    registry (its keys distinct, as those of a dict are) the loop of both
    front ends reads every sensor once, in order, and leaves the world
    those reads leave; the per-sensor dict it has built has one entry per
    sensor, in registry order, holding the verdict of that sensor's own
    read; a read that raised [e] is filed as [error: <str(e)>] and counted
    unhealthy.  FastAPI answers with that report.  Flask answers with what
    [jsonify] makes of it, the same report with its keys sorted; whether
    [jsonify] can write it depends on the identifiers alone (it can when
    they are strings), not on what the reads did: a read that raises never
    makes the handler raise. *)
Theorem health_tolerates_raising_reads :
  ∀ (S : Type) (HS : Sensor S) (sensors : PyDict PyVal S) (request : Request)
    (w : World),
    NoDup (dict_keys sensors) →
    let rs := reads sensors w in
    let w' := world_after (fun item : PyVal * S => read item.2) sensors w in
    ∃ (code : nat) (report : HealthReport),
      health sensors w = (Returns (mkResponse code (HealthBody report)), w')
      ∧ Main.health_check sensors request w
        = (Returns (mkResponse code (HealthBody report)), w')
      ∧ App.check_health sensors request w
        = (match jsonify (HealthBody report) with
           | Returns body => Returns (mkResponse code body)
           | Raises e => Raises e
           end, w')
      ∧ returned (jsonify (HealthBody report)) = sortable (dict_keys sensors)
      ∧ ((∀ k : PyVal, k ∈ dict_keys sensors → ∃ s : string, k = VStr s) →
         returned (jsonify (HealthBody report)) = true)
      ∧ (∀ body : Body,
           jsonify (HealthBody report) = Returns body →
           ∃ sorted : PyDict PyVal string,
             body = HealthBody (mkReport (status report) sorted (total report)
                                  (healthy report) (unhealthy report))
             ∧ sorted ≡ₚ sensor_status report)
      ∧ sensor_status report = zip (dict_keys sensors) (verdict <$> rs)
      ∧ length (sensor_status report) = length sensors
      ∧ healthy report = count_if read_ok rs
      ∧ unhealthy report = count_if (fun r => negb (read_ok r)) rs
      ∧ (∀ (i : nat) (e : PyExc),
           rs !! i = Some (Raises e) →
           read_ok (Raises e) = false
           ∧ ∃ sensor_id : PyVal,
               dict_keys sensors !! i = Some sensor_id
               ∧ dict_get (sensor_status report) sensor_id
                 = Some ("error: " +:+ exc_str e)).
Proof.
  intros S HS sensors request w Hnd rs w'.
  destruct (health_handlers_eq sensors request w) as [Happ Hmain].
  rewrite Happ, Hmain, health_eq. fold rs w'.
  eexists _, _. split; [reflexivity|]. split; [reflexivity|].
  assert (Hlen : length rs = length sensors)
    by (unfold rs, reads; apply outcomes_length).
  assert (Hfiled : filed [] (dict_keys sensors) rs
                   = zip (dict_keys sensors) (verdict <$> rs))
    by (rewrite filed_fresh; [done | by simpl]).
  assert (Hkeys : dict_keys (zip (dict_keys sensors) (verdict <$> rs))
                  = dict_keys sensors).
  { unfold dict_keys at 1. apply fst_zip.
    rewrite length_fmap, Hlen. unfold dict_keys. by rewrite length_fmap. }
  rewrite Hfiled.
  split; [unfold App.respond, bind, lift, ret; by destruct (jsonify _)|].
  match goal with
  | |- context [jsonify (HealthBody ?r)] =>
      pose proof (jsonify_health r) as Hj
  end.
  cbn [sensor_status healthy unhealthy status total] in *.
  rewrite Hkeys in Hj.
  split.
  { destruct (sortable (dict_keys sensors)).
    - by rewrite Hj.
    - by destruct Hj as [msg ->]. }
  split.
  { intros Hstr. rewrite (sortable_strings _ Hstr) in Hj. by rewrite Hj. }
  split.
  { intros body Hbody. destruct (sortable (dict_keys sensors)).
    - rewrite Hj in Hbody. injection Hbody as <-.
      eexists. split; [reflexivity|]. apply sort_items_Permutation.
    - destruct Hj as [msg Hj]. by rewrite Hj in Hbody. }
  split; [done|]. split.
  { rewrite length_zip, length_fmap. unfold dict_keys.
    rewrite length_fmap. lia. }
  split; [done|]. split; [done|].
  intros i e Hi. split; [done|].
  destruct (lookup_lt_is_Some_2 (dict_keys sensors) i) as [sensor_id Hid].
  { unfold dict_keys. rewrite length_fmap, <- Hlen.
    by apply lookup_lt_Some in Hi. }
  exists sensor_id. split; [done|].
  assert (Hin : zip (dict_keys sensors) (verdict <$> rs) !! i
                = Some (sensor_id, "error: " +:+ exc_str e)).
  { apply lookup_zip_with_Some. exists sensor_id, ("error: " +:+ exc_str e).
    split; [done|]. split; [done|]. rewrite list_lookup_fmap, Hi. done. }
  clear Hfiled Hkeys Hj Happ Hmain.
  revert Hin Hid Hnd. generalize (verdict <$> rs). generalize (dict_keys sensors).
  clear. intros keys. revert i.
  induction keys as [|k keys IH]; intros i vs Hin Hid Hnd; [done|].
  destruct vs as [|v vs]; [done|]. apply NoDup_cons in Hnd as [Hk Hnd].
  destruct i as [|i]; simpl in *.
  - injection Hin as -> ->. by rewrite decide_True.
  - rewrite decide_False.
    + by apply (IH i vs).
    + intros ->. apply Hk. by apply list_elem_of_lookup_2 in Hid.
Qed.

Lemma health_tolerates_raising_reads_witness :
  let sensors := stub_registry in
  let w := fresh_world hw_fine in
  let request := mkRequest None in
  let rs := reads sensors w in
  let w' := world_after (fun item : PyVal * StubSensor => read item.2) sensors w in
  ∃ (code : nat) (report : HealthReport),
    health sensors w = (Returns (mkResponse code (HealthBody report)), w')
    ∧ Main.health_check sensors request w
      = (Returns (mkResponse code (HealthBody report)), w')
    ∧ App.check_health sensors request w
      = (match jsonify (HealthBody report) with
         | Returns body => Returns (mkResponse code body)
         | Raises e => Raises e
         end, w')
    ∧ returned (jsonify (HealthBody report)) = sortable (dict_keys sensors)
    ∧ ((∀ k : PyVal, k ∈ dict_keys sensors → ∃ s : string, k = VStr s) →
       returned (jsonify (HealthBody report)) = true)
    ∧ (∀ body : Body,
         jsonify (HealthBody report) = Returns body →
         ∃ sorted : PyDict PyVal string,
           body = HealthBody (mkReport (status report) sorted (total report)
                                (healthy report) (unhealthy report))
           ∧ sorted ≡ₚ sensor_status report)
    ∧ sensor_status report = zip (dict_keys sensors) (verdict <$> rs)
    ∧ length (sensor_status report) = length sensors
    ∧ healthy report = count_if read_ok rs
    ∧ unhealthy report = count_if (fun r => negb (read_ok r)) rs
    ∧ (∀ (i : nat) (e : PyExc),
         rs !! i = Some (Raises e) →
         read_ok (Raises e) = false
         ∧ ∃ sensor_id : PyVal,
             dict_keys sensors !! i = Some sensor_id
             ∧ dict_get (sensor_status report) sensor_id
               = Some ("error: " +:+ exc_str e)).
Proof.
  intros sensors w request.
  apply (health_tolerates_raising_reads StubSensor _ sensors request w).
  refine (bool_decide_unpack _ _). vm_compute. exact I.
Defined.

(** ** The sensor contract on the DHT22 *)

(** C5.  The claim holds of every fault but one kind: when the driver raises
    a [RuntimeError] whose [args] is empty, the handler of line 48 indexes
    [error.args[0]] and the [IndexError] leaves [read]. *)
Lemma dht22_read_bare_runtime_error_escapes :
  DHT22Sensor.read dht22_t1 (fresh_world hw_bare_runtime_error)
  = (Raises (IndexError "tuple index out of range"),
     mkWorld hw_bare_runtime_error [GetTemperature 0] []).
Proof. reflexivity. Qed.

(** Apart from that, [read] contains every fault: on hardware whose
    [RuntimeError]s carry an argument it always returns a tagged result. *)
Lemma dht22_read_returns (self : DHT22Sensor.t) (w : World) :
  (∀ (history : list HwCall) (c : HwCall) (e : PyExc),
     hw_answer (hardware w) history c = Raises e →
     is_RuntimeError e = true → exc_args e ≠ []) →
  ∃ (result : ReadResult) (w' : World),
    DHT22Sensor.read self w = (Returns result, w').
Proof.
  intros Hargs.
  unfold DHT22Sensor.read, try_except, bind, DHT22Sensor.get_sensor,
    hw_call, ret, raise, lift, logger.
  destruct (DHT22Sensor.sensor self) as [dev|]; simpl; [|eauto].
  destruct (hw_answer (hardware w) (calls w) (GetTemperature dev))
    as [t|e] eqn:Ht; simpl.
  - destruct (hw_answer (hardware w) (calls w ++ [GetTemperature dev])
                (GetHumidity dev)) as [hm|e] eqn:Hh; simpl.
    + destruct hm, t; simpl; eauto.
    + destruct (is_RuntimeError e) eqn:Hr; simpl; [|eauto].
      specialize (Hargs _ _ _ Hh Hr). unfold DHT22Sensor.args_0.
      destruct (exc_args e); [done|]. simpl. eauto.
  - destruct (is_RuntimeError e) eqn:Hr; simpl; [|eauto].
    specialize (Hargs _ _ _ Ht Hr). unfold DHT22Sensor.args_0.
    destruct (exc_args e); [done|]. simpl. eauto.
Qed.

(** C6, as stated, fails: on an opened DHT22 a second [cleanup] calls the
    device's [exit()] a second time and writes a second log record. *)
Lemma dht22_cleanup_twice_differs_from_once :
  let once := (DHT22Sensor.cleanup dht22_t1 (fresh_world hw_fine)).2 in
  let twice := (DHT22Sensor.cleanup dht22_t1 once).2 in
  calls once = [ExitDevice 0]
  ∧ calls twice = [ExitDevice 0; ExitDevice 0]
  ∧ calls twice ≠ calls once
  ∧ log twice ≠ log once.
Proof. vm_compute. repeat split; discriminate. Qed.

(** C6, amended.  [cleanup] never raises, whatever the state of the device
    and of the instance.  [BaseSensor.cleanup] does nothing.
    [DHT22Sensor.cleanup] keeps no record of having run: each call makes one
    [exit()] call on the device of an opened instance (none on an instance
    that has no device) and writes one log record, a success or the error it
    caught. *)
Theorem cleanup_never_raises :
  ∀ (b : BaseSensor.t) (self : DHT22Sensor.t) (w : World),
    BaseSensor.cleanup b w = (Returns tt, w)
    ∧ ∃ r : LogRecord,
        cleanup self w
        = (Returns tt,
           mkWorld (hardware w)
             (calls w ++ match DHT22Sensor.sensor self with
                         | Some dev => [ExitDevice dev]
                         | None => []
                         end)
             (log w ++ [r]))
        ∧ (r = LogDHT22CleanedUp (DHT22Sensor.sensor_id self)
           ∨ ∃ e : PyExc, r = LogDHT22CleanupError e).
Proof.
  intros b self w. split; [reflexivity|].
  cbn [cleanup DHT22Sensor_Sensor].
  unfold DHT22Sensor.cleanup, try_except, bind, DHT22Sensor.get_sensor.
  destruct (DHT22Sensor.sensor self) as [dev|]; simpl.
  - destruct (hw_answer (hardware w) (calls w) (ExitDevice dev)) as [?|e]; simpl.
    + eexists. split; [reflexivity | by left].
    + eexists. split; [reflexivity | right; eauto].
  - rewrite app_nil_r. eexists. split; [reflexivity | right; eauto].
Qed.

(** ** The authorization gate *)

(** C8.  On every route but the health check, of both front ends, a request
    whose [Authorization] header differs from [API_KEY] (or is absent while
    the key is a string) gets the 401 of the first statement of the handler:
    the world is left as it was, so no driver call was made and nothing was
    logged, and the outcome does not depend on the registry.  The health
    check reads neither the header nor the key: it is the health pass,
    whatever the request, handed to the JSON writer of the front end; it
    answers 200 or 503, and never 401 (Flask's [jsonify] can make it a
    500). *)
Theorem data_routes_check_the_key_first :
  ∀ (S : Type) (HS : Sensor S) (API_KEY : PyVal) (sensors : PyDict PyVal S)
    (endpoint : Endpoint) (request : Request) (w : World),
    endpoint ≠ Health →
    header_value (authorization request) ≠ API_KEY →
    (App.route API_KEY sensors endpoint request w
       = (Raises (HTTPException 401 "Unauthorized"), w)
     ∧ http_status (App.route API_KEY sensors endpoint request w).1 = 401)
    ∧ (Main.route API_KEY sensors endpoint request w
         = (Raises (HTTPException 401 "Invalid or missing API key"), w)
       ∧ http_status (Main.route API_KEY sensors endpoint request w).1 = 401)
    ∧ App.route API_KEY sensors Health request w
      = (report <- health sensors ;;
         App.respond (status_code report) (body report)) w
    ∧ Main.route API_KEY sensors Health request w = health sensors w
    ∧ (http_status (health sensors w).1 = 200
       ∨ http_status (health sensors w).1 = 503)
    ∧ (http_status (App.route API_KEY sensors Health request w).1
         = http_status (health sensors w).1
       ∨ http_status (App.route API_KEY sensors Health request w).1 = 500).
Proof.
  intros S HS API_KEY sensors endpoint request w Hep Hkey.
  assert (Happ : App.check_api_key API_KEY request w
                 = (Raises (HTTPException 401 "Unauthorized"), w)).
  { unfold App.check_api_key. by rewrite decide_False. }
  assert (Hmain : Main.verify_api_key API_KEY (authorization request) w
                  = (Raises (HTTPException 401 "Invalid or missing API key"), w)).
  { unfold Main.verify_api_key. by rewrite decide_False. }
  split; [|split].
  - assert (Hr : App.route API_KEY sensors endpoint request w
                 = (Raises (HTTPException 401 "Unauthorized"), w)).
    { destruct endpoint; [done| | | |]; simpl;
        unfold App.list_sensors, App.get_sensor_data, App.get_sensor_info,
          App.get_sensor_data_legacy, bind; by rewrite Happ. }
    by rewrite Hr.
  - assert (Hr : Main.route API_KEY sensors endpoint request w
                 = (Raises (HTTPException 401 "Invalid or missing API key"), w)).
    { destruct endpoint; [done| | | |]; simpl;
        unfold Main.list_sensors, Main.get_sensor_data, Main.get_sensor_info,
          Main.get_sensor_data_legacy, bind; by rewrite Hmain. }
    by rewrite Hr.
  - split; [reflexivity|].
    destruct (health_handlers_eq sensors request w) as [Hflask Hfast].
    cbn [App.route Main.route]. rewrite Hflask, Hfast, health_eq.
    split; [reflexivity|]. cbn [fst http_status status_code].
    split; [destruct (String.eqb _ "healthy"); [by left | by right]|].
    match goal with
    | |- context [App.respond ?c (HealthBody ?r) ?w'] =>
        destruct (respond_health c r w') as [_ Hr]
    end.
    destruct (sortable _).
    + left. by rewrite Hr.
    + right. destruct Hr as [msg ->]. done.
Qed.

Lemma data_routes_check_the_key_first_witness :
  let sensors := stub_registry in
  let w := fresh_world hw_fine in
  let request := mkRequest (Some "guess") in
  (App.route (VStr "key") sensors (SensorData "b") request w
     = (Raises (HTTPException 401 "Unauthorized"), w)
   ∧ http_status (App.route (VStr "key") sensors (SensorData "b") request w).1
     = 401)
  ∧ (Main.route (VStr "key") sensors (SensorData "b") request w
       = (Raises (HTTPException 401 "Invalid or missing API key"), w)
     ∧ http_status (Main.route (VStr "key") sensors (SensorData "b") request w).1
       = 401)
  ∧ App.route (VStr "key") sensors Health request w
    = (report <- health sensors ;;
       App.respond (status_code report) (body report)) w
  ∧ Main.route (VStr "key") sensors Health request w = health sensors w
  ∧ (http_status (health sensors w).1 = 200
     ∨ http_status (health sensors w).1 = 503)
  ∧ (http_status (App.route (VStr "key") sensors Health request w).1
       = http_status (health sensors w).1
     ∨ http_status (App.route (VStr "key") sensors Health request w).1 = 500).
Proof.
  intros sensors w request.
  apply (data_routes_check_the_key_first StubSensor _ (VStr "key")
           sensors (SensorData "b") request w).
  - discriminate.
  - vm_compute. discriminate.
Defined.

(** ** Registry construction *)

Lemma bind_Returns {A B : Type} (m : M A) (k : A -> M B) (w w' : World) (b : B) :
  bind m k w = (Returns b, w') →
  ∃ (a : A) (w1 : World), m w = (Returns a, w1) ∧ k a w1 = (Returns b, w').
Proof.
  unfold bind. destruct (m w) as [[a|e] w1]; [eauto | done].
Qed.

Lemma lift_Returns {A : Type} (r : Result A) (w w' : World) (a : A) :
  lift r w = (Returns a, w') → r = Returns a ∧ w' = w.
Proof. unfold lift. intros [= -> ->]. done. Qed.

Ltac inv_bind H :=
  let a := fresh "a" in
  let w1 := fresh "w" in
  let H1 := fresh "H" in
  apply bind_Returns in H as (a & w1 & H1 & H).

Lemma DHT22Sensor_init_Returns (sensor_id name : PyVal) (c : SensorConfig)
    (w w' : World) (inst : DHT22Sensor.t) :
  DHT22Sensor.init sensor_id name c w = (Returns inst, w') →
  DHT22Sensor.base inst = BaseSensor.mk sensor_id name c (enabled_flag c)
  ∧ DHT22Sensor.sensor inst ≠ None.
Proof.
  unfold DHT22Sensor.init. intros Hi.
  inv_bind Hi. inv_bind Hi. inv_bind Hi. inv_bind Hi.
  unfold BaseSensor.init in H. inv_bind H.
  unfold ret in *. simplify_eq. done.
Qed.

(** An instance the constructor returns carries the identifier, the name
    and the whole spec it was built from. *)
Lemma construct_Returns (c : SensorConfig) (w w' : World) (sensor_id : PyVal)
    (sensor_type : string) (inst : DHT22Sensor.t) :
  construct c w = (Returns (sensor_id, sensor_type, inst), w') →
  dict_get c "id" = Some sensor_id
  ∧ DHT22Sensor.base inst
    = BaseSensor.mk sensor_id (dict_get_default c "name" sensor_id) c
        (enabled_flag c).
Proof.
  unfold construct. intros Hc.
  inv_bind Hc. inv_bind Hc. inv_bind Hc. inv_bind Hc. inv_bind Hc. inv_bind Hc.
  apply lift_Returns in H0 as [Hid ->].
  unfold ret in Hc. simplify_eq.
  unfold getitem in Hid. destruct (dict_get c "id") as [v|] eqn:Hg; [|done].
  simplify_eq. split; [done|].
  unfold instantiate in H4. destruct a3; [done|].
  by apply DHT22Sensor_init_Returns in H4 as [? _].
Qed.

(** *** What the loop writes to the log *)

Lemma quiet_ret {A : Type} (a : A) : quiet (ret a).
Proof. intros w. exists []. by rewrite app_nil_r. Qed.

Lemma quiet_raise {A : Type} (e : PyExc) : quiet (raise (A:=A) e).
Proof. intros w. exists []. by rewrite app_nil_r. Qed.

Lemma quiet_lift {A : Type} (r : Result A) : quiet (lift r).
Proof. intros w. exists []. by rewrite app_nil_r. Qed.

Lemma quiet_bind {A B : Type} (m : M A) (k : A -> M B) :
  quiet m → (∀ a, quiet (k a)) → quiet (bind m k).
Proof.
  intros Hm Hk w. unfold bind. destruct (Hm w) as (ls & Hls & Hf).
  destruct (m w) as [[a|e] w1]; simpl in *.
  - destruct (Hk a w1) as (ls' & Hls' & Hf'). exists (ls ++ ls').
    rewrite Hls', Hls, app_assoc. split; [done|].
    by rewrite List.filter_app, Hf, Hf'.
  - eauto.
Qed.

Lemma quiet_logger (r : LogRecord) : is_loop_record r = false → quiet (logger r).
Proof. intros Hr w. exists [r]. simpl. by rewrite Hr. Qed.

Lemma quiet_hw_call (c : HwCall) : quiet (hw_call c).
Proof. intros w. exists []. by rewrite app_nil_r. Qed.

Lemma quiet_hw_open (pin_name : string) : quiet (hw_open pin_name).
Proof.
  intros w. exists []. rewrite app_nil_r. unfold hw_open, hw_call. simpl.
  by destruct (hw_answer _ _ _).
Qed.

Lemma quiet_getattr_board (pin_name : PyVal) :
  quiet (DHT22Sensor.getattr_board pin_name).
Proof.
  intros w. exists []. rewrite app_nil_r.
  destruct pin_name; simpl; try done. by destruct (hw_pin _ _).
Qed.

Lemma quiet_import_module (module_name : string) : quiet (import_module module_name).
Proof.
  unfold import_module.
  repeat case_match;
    repeat (apply quiet_bind; [|intros ?]);
    auto using quiet_ret, quiet_raise, quiet_hw_call.
Qed.

Lemma quiet_init (sensor_id name : PyVal) (c : SensorConfig) :
  quiet (DHT22Sensor.init sensor_id name c).
Proof.
  unfold DHT22Sensor.init, BaseSensor.init.
  repeat (apply quiet_bind; [|intros ?]);
    auto using quiet_ret, quiet_logger, quiet_getattr_board, quiet_hw_open.
Qed.

Lemma quiet_construct (c : SensorConfig) : quiet (construct c).
Proof.
  unfold construct.
  repeat (apply quiet_bind; [|intros ?]);
    auto using quiet_ret, quiet_lift, quiet_import_module.
  unfold instantiate. case_match; auto using quiet_raise, quiet_init.
Qed.

(** *** One turn of the loop *)

Lemma load_sensor_enabled (c : SensorConfig) (sensors : Registry) (w : World) :
  truthy (enabled_flag c) = true →
  load_sensor c sensors w =
  match construct c w with
  | (Returns (sensor_id, sensor_type, inst), w1) =>
      (Returns (dict_set sensors sensor_id inst),
       logged w1 (LogLoaded sensor_id sensor_type))
  | (Raises e, w1) =>
      (Returns sensors,
       logged w1 (LogFailedToLoad (dict_get_default c "id" VNone) e))
  end.
Proof.
  intros He. unfold load_sensor. rewrite He. simpl.
  unfold try_except, bind.
  destruct (construct c w) as [[[[sensor_id sensor_type] inst]|e] w1]; done.
Qed.

Lemma load_sensor_skipped (c : SensorConfig) (sensors : Registry) (w : World) :
  truthy (enabled_flag c) = false →
  load_sensor c sensors w =
  match dict_get c "id" with
  | Some sensor_id => (Returns sensors, logged w (LogSkipping sensor_id))
  | None => (Raises (KeyError "id"), w)
  end.
Proof.
  intros He. unfold load_sensor. rewrite He. simpl.
  unfold bind, lift, getitem. by destruct (dict_get c "id").
Qed.

(** A turn that does not stop the loop returns the registry with the entry
    of its attempt, if any, assigned; the world it leaves does not depend on
    the registry. *)
Lemma load_sensor_eq (c : SensorConfig) (sensors : Registry) (w : World) :
  skips_cleanly c = true →
  load_sensor c sensors w =
  (Returns
     (match entry_of (if truthy (enabled_flag c)
                      then Some (construct c w).1 else None) with
      | Some p => dict_set sensors p.1 p.2
      | None => sensors
      end),
   (load_sensor c [] w).2).
Proof.
  unfold skips_cleanly. intros Hs.
  destruct (truthy (enabled_flag c)) eqn:He.
  - rewrite !load_sensor_enabled by done.
    destruct (construct c w) as [[[[sensor_id sensor_type] inst]|e] w1]; done.
  - rewrite !load_sensor_skipped by done. simpl in Hs.
    unfold dict_contains in Hs. by destruct (dict_get c "id").
Qed.

(** The whole loop: it returns the assignments of the successful attempts,
    in order. *)
Lemma load_list_eq (specs : list SensorConfig) (sensors : Registry) (w : World) :
  Forall (fun c => skips_cleanly c = true) specs →
  for_each load_sensor specs sensors w =
  (Returns (assign_all sensors (omap entry_of (attempts specs w))),
   world_after (fun c => load_sensor c []) specs w).
Proof.
  intros Hs. revert sensors w.
  induction Hs as [|c specs Hc Hs IH]; intros sensors w; [done|].
  cbn [for_each attempts world_after]. unfold bind.
  rewrite load_sensor_eq by done. rewrite IH.
  cbn [omap list_omap].
  destruct (entry_of _) as [p|]; done.
Qed.

Lemma attempts_spec (specs : list SensorConfig) (w : World) :
  Forall2 attempt_of specs (attempts specs w).
Proof.
  revert w. induction specs as [|c specs IH]; intros w; simpl.
  - constructor.
  - constructor; [|apply IH].
    destruct (truthy (enabled_flag c)) eqn:He; simpl; [|done].
    destruct (construct c w) as [[[[sensor_id sensor_type] inst]|e] w1] eqn:Hc;
      simpl; [|done].
    apply construct_Returns in Hc as [? ?]. done.
Qed.

(** Assigning entries whose keys are new and distinct appends them. *)
Lemma assign_all_fresh (sensors : Registry) (entries : list (PyVal * DHT22Sensor.t)) :
  NoDup (dict_keys sensors ++ dict_keys entries) →
  assign_all sensors entries = sensors ++ entries.
Proof.
  unfold assign_all. revert sensors.
  induction entries as [|[k v] entries IH]; intros sensors Hnd; simpl.
  - by rewrite app_nil_r.
  - assert (Hk : dict_get sensors k = None).
    { apply dict_get_None. apply NoDup_app in Hnd as (_ & Hdis & _).
      intros Hin. apply (Hdis k Hin). apply elem_of_cons; by left. }
    rewrite dict_set_fresh by done. rewrite IH.
    + by rewrite <- app_assoc.
    + unfold dict_keys in *. rewrite fmap_app. simpl.
      by rewrite <- app_assoc.
Qed.

(** *** When every spec is enabled *)

Section OneFailure.
Implicit Types (specs : list SensorConfig)
  (l : list (option (Result (PyVal * string * DHT22Sensor.t)))).

(** The keys, and the specs, of the entries of attempts that all
    succeeded. *)
Lemma entries_no_failure specs l (start : nat) :
  Forall2 attempt_of specs l →
  Forall (fun c => truthy (enabled_flag c) = true) specs →
  failed_from start l = [] →
  dict_keys (omap entry_of l) = spec_ids specs
  ∧ DHT22Sensor.config <$> dict_values (omap entry_of l) = specs.
Proof.
  unfold dict_keys, dict_values, spec_ids.
  intros Hl. revert start.
  induction Hl as [|c a specs l Hca Hl IH]; intros start Hen Hf; [done|].
  apply Forall_cons in Hen as [Hc Hen]. simpl in Hf.
  destruct a as [[[[sensor_id sensor_type] inst]|e]|]; simpl in Hca, Hf;
    [|done|congruence].
  destruct Hca as (_ & Hid & Hbase).
  destruct (IH (S start) Hen Hf) as [IH1 IH2].
  cbn [omap list_omap entry_of]. rewrite Hid. rewrite !fmap_cons.
  rewrite IH1, IH2. cbn [fst snd].
  unfold DHT22Sensor.config. rewrite Hbase. done.
Qed.

(** With exactly one failure, at [K], they are those of the other
    specs. *)
Lemma entries_one_failure specs l (start K : nat) :
  Forall2 attempt_of specs l →
  Forall (fun c => truthy (enabled_flag c) = true) specs →
  failed_from start l = [K] →
  (start ≤ K)%nat ∧ (K - start < length specs)%nat
  ∧ dict_keys (omap entry_of l) = spec_ids (delete (K - start) specs)
  ∧ DHT22Sensor.config <$> dict_values (omap entry_of l)
    = delete (K - start) specs.
Proof.
  unfold dict_keys, dict_values, spec_ids.
  intros Hl. revert start.
  induction Hl as [|c a specs l Hca Hl IH]; intros start Hen Hf; [done|].
  apply Forall_cons in Hen as [Hc Hen]. simpl in Hf.
  destruct a as [[[[sensor_id sensor_type] inst]|e]|]; simpl in Hca, Hf;
    [| |congruence].
  - destruct Hca as (_ & Hid & Hbase).
    destruct (IH (S start) Hen Hf) as (Hle & Hlt & IH1 & IH2).
    replace (K - start) with (S (K - S start)) by lia.
    cbn [omap list_omap entry_of delete list_delete length].
    rewrite Hid. rewrite !fmap_cons. rewrite IH1, IH2. cbn [fst snd].
    unfold DHT22Sensor.config. rewrite Hbase.
    repeat split; [lia | lia].
  - injection Hf as <- Hf. rewrite Nat.sub_diag.
    cbn [omap list_omap entry_of delete list_delete length].
    destruct (entries_no_failure specs l (S start) Hl Hen Hf) as [H1 H2].
    unfold dict_keys, dict_values, spec_ids in H1, H2.
    repeat split; [lia | lia | done | done].
Qed.
End OneFailure.

Lemma entries_keys_match (specs : list SensorConfig)
    (l : list (option (Result (PyVal * string * DHT22Sensor.t)))) :
  Forall2 attempt_of specs l →
  Forall (fun p : PyVal * DHT22Sensor.t => DHT22Sensor.sensor_id p.2 = p.1)
    (omap entry_of l).
Proof.
  induction 1 as [|c a specs l Hca Hl IH]; [constructor|].
  destruct a as [[[[sensor_id sensor_type] inst]|e]|];
    cbn [omap list_omap entry_of]; [|done|done].
  constructor; [|done]. destruct Hca as (_ & _ & Hbase).
  cbn [fst snd]. unfold DHT22Sensor.sensor_id. by rewrite Hbase.
Qed.

(** C4, as stated, fails: when two of the specs that instantiate share an
    identifier the registry has fewer than N-1 entries (here one for three
    specs of which one fails). *)
Lemma one_failure_with_duplicate_ids_leaves_fewer_entries :
  let specs := [spec_on "a" "DHT22" "D4"; spec_on "a" "DHT22" "D18";
                spec "b" "Nope"] in
  Forall (fun c => truthy (enabled_flag c) = true) specs
  ∧ failed_indices specs (fresh_world hw_fine) = [2]
  ∧ ∃ (sensors : Registry) (w' : World),
      load_sensors (config_of specs) [] (fresh_world hw_fine)
        = (Returns sensors, w')
      ∧ length sensors = 1
      ∧ length sensors ≠ length specs - 1.
Proof.
  split; [repeat constructor|]. split; [reflexivity|].
  eexists _, _. split; [vm_compute; reflexivity|]. simpl. split; [done|lia].
Qed.

(** C4, amended.  Registry construction survives a failing spec: for every
    list of N enabled specs in which exactly one, at position K, fails to
    instantiate, and in which the other specs have pairwise distinct
    identifiers, [load_sensors] returns; the registry is the list of the
    entries the other constructors returned, in order: N-1 entries, keyed by
    the identifiers of the other specs, each instance holding its own spec
    and its own identifier. *)
Theorem load_sensors_survives_one_failure :
  ∀ (config : Config) (K : nat) (w : World),
    let specs := sensor_configs config in
    Forall (fun c => truthy (enabled_flag c) = true) specs →
    failed_indices specs w = [K] →
    NoDup (spec_ids (delete K specs)) →
    ∃ (sensors : Registry) (w' : World),
      load_sensors config [] w = (Returns sensors, w')
      ∧ sensors = omap entry_of (attempts specs w)
      ∧ length sensors = length specs - 1
      ∧ dict_keys sensors = spec_ids (delete K specs)
      ∧ DHT22Sensor.config <$> dict_values sensors = delete K specs
      ∧ Forall (fun p : PyVal * DHT22Sensor.t =>
                  DHT22Sensor.sensor_id p.2 = p.1) sensors.
Proof.
  intros config K w specs Hen Hfail Hnd.
  pose proof (attempts_spec specs w) as Hatt.
  destruct (entries_one_failure specs _ 0 K Hatt Hen Hfail)
    as (_ & Hlt & Hkeys & Hconf).
  rewrite Nat.sub_0_r in Hlt, Hkeys, Hconf.
  unfold load_sensors. fold specs. rewrite load_list_eq.
  2: { eapply Forall_impl; [exact Hen|]. intros c Hc.
       unfold skips_cleanly. by rewrite Hc. }
  rewrite assign_all_fresh by (simpl; by rewrite Hkeys).
  eexists _, _. split; [reflexivity|]. simpl.
  split; [done|]. split.
  { transitivity (length (DHT22Sensor.config <$> dict_values
                            (omap entry_of (attempts specs w)))).
    - unfold dict_values. by rewrite !length_fmap.
    - rewrite Hconf. apply length_delete. by apply lookup_lt_is_Some_2. }
  split; [done|]. split; [done|].
  by apply (entries_keys_match specs).
Qed.

Lemma load_sensors_survives_one_failure_witness :
  let config := config_of [spec "a" "DHT22"; spec "b" "Nope"; spec "c" "DHT22"] in
  let w := fresh_world hw_fine in
  ∃ (sensors : Registry) (w' : World),
    load_sensors config [] w = (Returns sensors, w')
    ∧ sensors = omap entry_of (attempts (sensor_configs config) w)
    ∧ length sensors = length (sensor_configs config) - 1
    ∧ dict_keys sensors = spec_ids (delete 1 (sensor_configs config))
    ∧ DHT22Sensor.config <$> dict_values sensors
      = delete 1 (sensor_configs config)
    ∧ Forall (fun p : PyVal * DHT22Sensor.t =>
                DHT22Sensor.sensor_id p.2 = p.1) sensors.
Proof.
  apply (load_sensors_survives_one_failure
           (config_of [spec "a" "DHT22"; spec "b" "Nope"; spec "c" "DHT22"])
           1 (fresh_world hw_fine)).
  - repeat constructor.
  - vm_compute. reflexivity.
  - refine (bool_decide_unpack _ _). vm_compute. exact I.
Defined.

(** *** Keys and identifiers *)

Lemma for_each_invariant {A St : Type} (P : St -> Prop) (body : A -> St -> M St)
    (l : list A) :
  (∀ x st w st' w', P st → body x st w = (Returns st', w') → P st') →
  ∀ st w st' w', P st → for_each body l st w = (Returns st', w') → P st'.
Proof.
  intros Hbody. induction l as [|x l IH]; intros st w st' w' HP Hrun.
  - unfold for_each, ret in Hrun. by simplify_eq.
  - cbn [for_each] in Hrun. inv_bind Hrun. eauto.
Qed.

Lemma dict_set_Forall {K V : Type} `{EqDecision K} (P : K * V -> Prop)
    (d : PyDict K V) (k : K) (v : V) :
  Forall P d → P (k, v) → Forall P (dict_set d k v).
Proof.
  intros Hd Hkv. induction Hd as [|[k' v'] d Hp Hd IH]; simpl.
  - by constructor.
  - destruct (decide (k' = k)) as [->|Hne]; by constructor.
Qed.

(** Every key of the registry is the identifier of its instance. *)
Lemma load_sensor_keys_match (c : SensorConfig) (sensors sensors' : Registry)
    (w w' : World) :
  Forall (fun p : PyVal * DHT22Sensor.t => DHT22Sensor.sensor_id p.2 = p.1)
    sensors →
  load_sensor c sensors w = (Returns sensors', w') →
  Forall (fun p : PyVal * DHT22Sensor.t => DHT22Sensor.sensor_id p.2 = p.1)
    sensors'.
Proof.
  intros Hs Hrun. destruct (truthy (enabled_flag c)) eqn:He.
  - rewrite load_sensor_enabled in Hrun by done.
    destruct (construct c w) as [[[[sensor_id sensor_type] inst]|e] w1] eqn:Hc;
      simplify_eq; [|done].
    apply construct_Returns in Hc as [_ Hbase].
    apply dict_set_Forall; [done|]. simpl.
    unfold DHT22Sensor.sensor_id. by rewrite Hbase.
  - rewrite load_sensor_skipped in Hrun by done.
    destruct (dict_get c "id"); by simplify_eq.
Qed.

(** C7.  For every identifier registered by [load_sensors], the instance
    found under it answers [get_info()] (in any world, without touching it)
    with a record whose [sensor_id] is that identifier. *)
Theorem registry_get_info_round_trip :
  ∀ (config : Config) (w w' : World) (sensors : Registry)
    (sensor_id : PyVal) (sensor : DHT22Sensor.t),
    load_sensors config [] w = (Returns sensors, w') →
    dict_get sensors sensor_id = Some sensor →
    ∃ info : SensorInfo,
      (∀ w0 : World, get_info sensor w0 = (Returns info, w0))
      ∧ info = DHT22Sensor.get_info sensor
      ∧ info_sensor_id info = sensor_id.
Proof.
  intros config w w' sensors sensor_id sensor Hload Hget.
  exists (DHT22Sensor.get_info sensor). split; [done|]. split; [done|].
  assert (Hall : Forall (fun p : PyVal * DHT22Sensor.t =>
                           DHT22Sensor.sensor_id p.2 = p.1) sensors).
  { unfold load_sensors in Hload.
    eapply (for_each_invariant _ load_sensor); [|constructor|exact Hload].
    intros c st w0 st' w0' Hst Hrun. by eapply load_sensor_keys_match. }
  apply dict_get_Some_elem in Hget.
  rewrite Forall_forall in Hall. by apply (Hall (sensor_id, sensor)).
Qed.

Lemma registry_get_info_round_trip_witness :
  ∃ info : SensorInfo,
    (∀ w0 : World,
       get_info (DHT22Sensor.mk
                   (BaseSensor.mk (VStr "t1") (VStr "t1") (spec "t1" "DHT22")
                      (VBool true)) (Some 1%nat)) w0
       = (Returns info, w0))
    ∧ info = DHT22Sensor.get_info
               (DHT22Sensor.mk
                  (BaseSensor.mk (VStr "t1") (VStr "t1") (spec "t1" "DHT22")
                     (VBool true)) (Some 1%nat))
    ∧ info_sensor_id info = VStr "t1".
Proof.
  eapply (registry_get_info_round_trip (config_of [spec "t1" "DHT22"])
            (fresh_world hw_fine)).
  - vm_compute. reflexivity.
  - vm_compute. reflexivity.
Defined.

(** *** Enabled and skipped specs *)

Lemma assign_all_app (sensors : Registry)
    (entries1 entries2 : list (PyVal * DHT22Sensor.t)) :
  assign_all sensors (entries1 ++ entries2)
  = assign_all (assign_all sensors entries1) entries2.
Proof. unfold assign_all. by rewrite foldl_app. Qed.

(** Whatever is bound in the registry was assigned by some turn, or was
    there before. *)
Lemma assign_all_get_inv (sensors : Registry)
    (entries : list (PyVal * DHT22Sensor.t)) (k : PyVal) (v : DHT22Sensor.t) :
  dict_get (assign_all sensors entries) k = Some v →
  (k, v) ∈ entries ∨ dict_get sensors k = Some v.
Proof.
  revert sensors. induction entries as [|[k' v'] entries IH]; intros sensors;
    [by right|].
  unfold assign_all. simpl. intros Hg. apply IH in Hg as [Hin|Hg].
  - left. apply elem_of_cons. by right.
  - destruct (decide (k' = k)) as [->|Hne].
    + rewrite dict_get_set_eq in Hg. simplify_eq. left. apply elem_of_cons.
      by left.
    + rewrite dict_get_set_ne in Hg by done. by right.
Qed.

(** Assignments to other keys leave a binding as it is. *)
Lemma assign_all_get_other (sensors : Registry)
    (entries : list (PyVal * DHT22Sensor.t)) (k : PyVal) :
  k ∉ dict_keys entries →
  dict_get (assign_all sensors entries) k = dict_get sensors k.
Proof.
  revert sensors. induction entries as [|[k' v'] entries IH]; intros sensors Hk;
    [done|].
  unfold dict_keys in Hk. rewrite fmap_cons in Hk.
  apply not_elem_of_cons in Hk as [Hne Hk].
  unfold assign_all. simpl. fold (assign_all (dict_set sensors k' v') entries).
  rewrite IH by done. by rewrite dict_get_set_ne.
Qed.

Lemma assign_all_NoDup (sensors : Registry)
    (entries : list (PyVal * DHT22Sensor.t)) :
  NoDup (dict_keys sensors) → NoDup (dict_keys (assign_all sensors entries)).
Proof.
  revert sensors. induction entries as [|[k v] entries IH]; intros sensors Hnd;
    [done|].
  unfold assign_all. simpl. apply IH. by apply dict_set_keys_NoDup.
Qed.

(** An entry comes from an enabled spec with its identifier. *)
Lemma entry_from_spec (specs : list SensorConfig)
    (l : list (option (Result (PyVal * string * DHT22Sensor.t))))
    (k : PyVal) (v : DHT22Sensor.t) :
  Forall2 attempt_of specs l →
  (k, v) ∈ omap entry_of l →
  ∃ c : SensorConfig,
    c ∈ specs ∧ truthy (enabled_flag c) = true
    ∧ dict_get c "id" = Some k ∧ DHT22Sensor.config v = c.
Proof.
  intros Hl Hin. apply list_elem_of_omap in Hin as (a & Ha & Hentry).
  apply list_elem_of_lookup in Ha as [i Hi].
  destruct (Forall2_lookup_r _ _ _ _ _ Hl Hi) as (c & Hc & Hca).
  exists c. split; [by eapply list_elem_of_lookup_2|].
  destruct a as [[[[sensor_id sensor_type] inst]|e]|]; simpl in Hentry;
    simplify_eq.
  destruct Hca as (He & Hid & Hbase).
  unfold DHT22Sensor.config. by rewrite Hbase.
Qed.

(** The log of the loop: one record of its own per spec, in order. *)
Lemma load_log (specs : list SensorConfig) (w : World) :
  Forall (fun c => skips_cleanly c = true) specs →
  ∃ new : list LogRecord,
    log (world_after (fun c => load_sensor c []) specs w) = log w ++ new
    ∧ Forall2 turn_matches specs (List.filter is_loop_record new).
Proof.
  intros Hs. revert w.
  induction Hs as [|c specs Hc Hs IH]; intros w; cbn [world_after].
  - exists []. rewrite app_nil_r. split; [done|constructor].
  - destruct (IH (load_sensor c [] w).2) as (new & Hnew & Hturns).
    rewrite Hnew. unfold skips_cleanly in Hc.
    destruct (truthy (enabled_flag c)) eqn:He.
    + rewrite load_sensor_enabled by done.
      destruct (quiet_construct c w) as (ls & Hls & Hquiet).
      destruct (construct c w) as [[[[sensor_id sensor_type] inst]|e] w1] eqn:Hcw;
        simpl in Hls |- *; rewrite Hls.
      * exists (ls ++ [LogLoaded sensor_id sensor_type] ++ new).
        split; [by rewrite <- !app_assoc|].
        rewrite !List.filter_app, Hquiet. simpl. constructor; [|done].
        unfold turn_matches. rewrite He.
        by apply construct_Returns in Hcw as [? _].
      * exists (ls ++ [LogFailedToLoad (dict_get_default c "id" VNone) e] ++ new).
        split; [by rewrite <- !app_assoc|].
        rewrite !List.filter_app, Hquiet. simpl. constructor; [|done].
        unfold turn_matches. by rewrite He.
    + rewrite load_sensor_skipped by done. simpl in Hc.
      unfold dict_contains in Hc.
      destruct (dict_get c "id") as [sensor_id|] eqn:Hid; [|done]. simpl.
      exists ([LogSkipping sensor_id] ++ new).
      split; [by rewrite <- !app_assoc|].
      simpl. constructor; [|done]. unfold turn_matches. by rewrite He.
Qed.

(** C9, as stated, fails twice.  A spec whose flag is [null] is not false,
    yet it is skipped; and an identifier whose spec was disabled is bound all
    the same when an enabled spec carries the same identifier. *)
Lemma disabled_identifier_can_be_registered :
  (let skipped := [("id", VStr "n"); ("type", VStr "DHT22"); ("enabled", VNone)] in
   enabled_flag skipped ≠ VBool false
   ∧ load_sensors (config_of [skipped]) [] (fresh_world hw_fine)
     = (Returns [], mkWorld hw_fine [] [LogSkipping (VStr "n")]))
  ∧ (let specs := [disabled_spec "a" "DHT22"; spec "a" "DHT22"] in
     ∃ (sensors : Registry) (w' : World),
       load_sensors (config_of specs) [] (fresh_world hw_fine)
         = (Returns sensors, w')
       ∧ enabled_flag (disabled_spec "a" "DHT22") = VBool false
       ∧ dict_get (disabled_spec "a" "DHT22") "id" = Some (VStr "a")
       ∧ dict_get sensors (VStr "a") ≠ None).
Proof.
  split.
  - split; [discriminate | reflexivity].
  - eexists _, _. split; [vm_compute; reflexivity|].
    split; [reflexivity|]. split; [reflexivity|]. vm_compute. discriminate.
Qed.

(** The loop of the code is the fold of [spec_turn] over the specs. *)
Lemma load_list_fold (specs : list SensorConfig) (sensors : Registry)
    (w : World) :
  Forall (fun c => skips_cleanly c = true) specs →
  for_each load_sensor specs sensors w
  = (Returns (foldl spec_turn (sensors, w) specs).1,
     (foldl spec_turn (sensors, w) specs).2).
Proof.
  intros Hs. revert sensors w.
  induction Hs as [|c specs Hc Hs IH]; intros sensors w; [done|].
  cbn [for_each foldl]. unfold bind, spec_turn at 2 4. cbn [fst snd].
  unfold skips_cleanly in Hc.
  destruct (truthy (enabled_flag c)) eqn:He.
  - rewrite load_sensor_enabled by done.
    destruct (construct c w) as [[[[sensor_id sensor_type] inst]|e] w1];
      apply IH.
  - rewrite load_sensor_skipped by done. simpl in Hc.
    unfold dict_contains in Hc. unfold dict_get_default.
    destruct (dict_get c "id"); [apply IH | done].
Qed.

(** C9, amended.  For every configuration list in which each spec that is
    skipped carries an [id], [load_sensors] returns, and what it returns and
    the world it leaves are those of [spec_turn] taken over the specs in
    order: a spec whose [enabled] flag is present and falsy ([False], [None],
    the empty string) is skipped, with a log record and no other effect; on
    every other spec (flag missing or truthy) the constructor is run in the
    world the loop has reached, with its driver calls and its log records,
    and its instance is bound or its failure logged.  So the registry is the
    in-order assignment of what the constructors of the enabled specs
    returned, and the log holds, in list order, one record of the loop per
    spec: a skip or the record of an attempt.  Every entry of the registry
    was built from an enabled spec that carries its identifier; so [get(id)]
    finds no instance for an identifier all of whose specs were disabled. *)
Theorem load_sensors_attempts_enabled_specs :
  ∀ (config : Config) (w : World),
    let specs := sensor_configs config in
    Forall (fun c => skips_cleanly c = true) specs →
    ∃ (sensors : Registry) (w' : World) (new : list LogRecord),
      load_sensors config [] w = (Returns sensors, w')
      ∧ (sensors, w') = foldl spec_turn ([], w) specs
      ∧ Forall2 attempt_of specs (attempts specs w)
      ∧ sensors = assign_all [] (omap entry_of (attempts specs w))
      ∧ log w' = log w ++ new
      ∧ Forall2 turn_matches specs (List.filter is_loop_record new)
      ∧ (∀ (sensor_id : PyVal) (sensor : DHT22Sensor.t),
           dict_get sensors sensor_id = Some sensor →
           ∃ c : SensorConfig,
             c ∈ specs ∧ truthy (enabled_flag c) = true
             ∧ dict_get c "id" = Some sensor_id
             ∧ DHT22Sensor.config sensor = c)
      ∧ (∀ sensor_id : PyVal,
           (∀ c : SensorConfig,
              c ∈ specs → dict_get c "id" = Some sensor_id →
              truthy (enabled_flag c) = false) →
           dict_get sensors sensor_id = None).
Proof.
  intros config w specs Hs.
  destruct (load_log specs w Hs) as (new & Hnew & Hturns).
  pose proof (load_list_fold specs [] w Hs) as Hfold.
  unfold load_sensors. fold specs. rewrite load_list_eq in Hfold |- * by done.
  eexists _, _, new. split; [reflexivity|].
  split; [injection Hfold as -> ->; by destruct (foldl _ _ _)|].
  split; [apply attempts_spec|]. split; [done|].
  split; [done|]. split; [done|].
  assert (Hfrom : ∀ (sensor_id : PyVal) (sensor : DHT22Sensor.t),
            dict_get (assign_all [] (omap entry_of (attempts specs w))) sensor_id
              = Some sensor →
            ∃ c : SensorConfig,
              c ∈ specs ∧ truthy (enabled_flag c) = true
              ∧ dict_get c "id" = Some sensor_id
              ∧ DHT22Sensor.config sensor = c).
  { intros sensor_id sensor Hg.
    apply assign_all_get_inv in Hg as [Hin|Hg]; [|done].
    eapply entry_from_spec; [apply attempts_spec | exact Hin]. }
  split; [exact Hfrom|].
  intros sensor_id Hall.
  destruct (dict_get _ sensor_id) as [sensor|] eqn:Hg; [|done].
  destruct (Hfrom _ _ Hg) as (c & Hc & He & Hid & _).
  rewrite (Hall c Hc Hid) in He. done.
Qed.

Lemma load_sensors_attempts_enabled_specs_witness :
  let config := config_of [disabled_spec "x" "DHT22"; spec "t1" "DHT22";
                           spec "bad" "Nope"] in
  let specs := sensor_configs config in
  let w := fresh_world hw_fine in
  ∃ (sensors : Registry) (w' : World) (new : list LogRecord),
    load_sensors config [] w = (Returns sensors, w')
    ∧ (sensors, w') = foldl spec_turn ([], w) specs
    ∧ Forall2 attempt_of specs (attempts specs w)
    ∧ sensors = assign_all [] (omap entry_of (attempts specs w))
    ∧ log w' = log w ++ new
    ∧ Forall2 turn_matches specs (List.filter is_loop_record new)
    ∧ (∀ (sensor_id : PyVal) (sensor : DHT22Sensor.t),
         dict_get sensors sensor_id = Some sensor →
         ∃ c : SensorConfig,
           c ∈ specs ∧ truthy (enabled_flag c) = true
           ∧ dict_get c "id" = Some sensor_id
           ∧ DHT22Sensor.config sensor = c)
    ∧ (∀ sensor_id : PyVal,
         (∀ c : SensorConfig,
            c ∈ specs → dict_get c "id" = Some sensor_id →
            truthy (enabled_flag c) = false) →
         dict_get sensors sensor_id = None).
Proof.
  intros config specs w.
  apply (load_sensors_attempts_enabled_specs config w).
  repeat constructor.
Defined.

(** *** Two specs with one identifier *)

Lemma count_if_NoDup {A : Type} `{EqDecision A} (l : list A) (x : A) :
  NoDup l → x ∈ l → count_if (fun y => bool_decide (y = x)) l = 1.
Proof.
  unfold count_if. induction 1 as [|y l Hy Hnd IH]; intros Hx.
  - by apply elem_of_nil in Hx.
  - simpl. apply elem_of_cons in Hx as [->|Hx].
    + rewrite bool_decide_eq_true_2 by done. simpl. f_equal.
      clear IH. induction l as [|z l IH]; [done|].
      apply not_elem_of_cons in Hy as [Hne Hy]. apply NoDup_cons in Hnd as [_ Hnd].
      simpl. rewrite bool_decide_eq_false_2 by congruence. by apply IH.
    + rewrite bool_decide_eq_false_2; [by apply IH|].
      intros ->. done.
  Qed.

(** C10.  When two enabled specs carry the same identifier and both
    instantiate, and no spec after the later of the two instantiates under
    that identifier (later specs may carry it, disabled or failing),
    [load_sensors] returns (it does not reject the duplicate), the registry
    has exactly one key equal to the identifier, and that key is bound to the
    instance built from the later spec. *)
Theorem load_sensors_last_wins :
  ∀ (config : Config) (w : World) (i j : nat) (sensor_id : PyVal)
    (type1 type2 : string) (inst1 inst2 : DHT22Sensor.t),
    let specs := sensor_configs config in
    Forall (fun c => skips_cleanly c = true) specs →
    (i < j)%nat →
    attempts specs w !! i = Some (Some (Returns (sensor_id, type1, inst1))) →
    attempts specs w !! j = Some (Some (Returns (sensor_id, type2, inst2))) →
    (∀ (k : nat) (type3 : string) (inst3 : DHT22Sensor.t),
       (j < k)%nat →
       attempts specs w !! k ≠ Some (Some (Returns (sensor_id, type3, inst3)))) →
    ∃ (sensors : Registry) (w' : World) (c1 c2 : SensorConfig),
      load_sensors config [] w = (Returns sensors, w')
      ∧ specs !! i = Some c1 ∧ specs !! j = Some c2
      ∧ truthy (enabled_flag c1) = true ∧ truthy (enabled_flag c2) = true
      ∧ dict_get c1 "id" = Some sensor_id ∧ dict_get c2 "id" = Some sensor_id
      ∧ DHT22Sensor.config inst2 = c2
      ∧ dict_get sensors sensor_id = Some inst2
      ∧ count_if (fun k => bool_decide (k = sensor_id)) (dict_keys sensors) = 1.
Proof.
  intros config w i j sensor_id type1 type2 inst1 inst2 specs Hs Hij Hi Hj Hlast.
  pose proof (attempts_spec specs w) as Hatt.
  destruct (Forall2_lookup_r _ _ _ _ _ Hatt Hi) as (c1 & Hc1 & He1 & Hid1 & _).
  destruct (Forall2_lookup_r _ _ _ _ _ Hatt Hj) as (c2 & Hc2 & He2 & Hid2 & Hbase2).
  unfold load_sensors. fold specs. rewrite load_list_eq by done.
  eexists _, _, c1, c2. split; [reflexivity|].
  do 6 (split; [done|]).
  split; [unfold DHT22Sensor.config; by rewrite Hbase2|].
  assert (Hget : dict_get (assign_all [] (omap entry_of (attempts specs w)))
                   sensor_id = Some inst2).
  { rewrite <- (take_drop_middle _ _ _ Hj).
    rewrite omap_app. cbn [omap list_omap entry_of].
    rewrite (assign_all_app _ _ (_ :: _)).
    change ((sensor_id, inst2) :: omap entry_of (drop (S j) (attempts specs w)))
      with ([(sensor_id, inst2)] ++ omap entry_of (drop (S j) (attempts specs w))).
    rewrite assign_all_app. rewrite assign_all_get_other.
    - unfold assign_all at 1. simpl. apply dict_get_set_eq.
    - unfold dict_keys. intros Hin.
      apply list_elem_of_fmap in Hin as ([k v] & Hk & Hin). simpl in Hk. subst k.
      apply list_elem_of_omap in Hin as (a & Ha & Hentry).
      apply list_elem_of_lookup in Ha as [k Hk]. rewrite lookup_drop in Hk.
      destruct a as [[[[id3 type3] inst3]|e]|]; simpl in Hentry; simplify_eq.
      apply (Hlast (S j + k) type3 v); [lia | done]. }
  split; [done|].
  apply count_if_NoDup.
  - apply assign_all_NoDup. constructor.
  - destruct (decide (sensor_id ∈ dict_keys
                (assign_all [] (omap entry_of (attempts specs w))))) as [|Hn];
      [done|].
    apply dict_get_None in Hn. congruence.
Qed.

Lemma load_sensors_last_wins_witness :
  let config := config_of [spec_on "a" "DHT22" "D4"; spec "b" "DHT22";
                           spec_on "a" "DHT22" "D18";
                           disabled_spec "a" "DHT22"; spec "a" "Nope"] in
  let inst2 := DHT22Sensor.mk
                 (BaseSensor.mk (VStr "a") (VStr "a")
                    (spec_on "a" "DHT22" "D18") (VBool true)) (Some 5%nat) in
  ∃ (sensors : Registry) (w' : World) (c1 c2 : SensorConfig),
    load_sensors config [] (fresh_world hw_fine) = (Returns sensors, w')
    ∧ sensor_configs config !! 0%nat = Some c1
    ∧ sensor_configs config !! 2%nat = Some c2
    ∧ truthy (enabled_flag c1) = true ∧ truthy (enabled_flag c2) = true
    ∧ dict_get c1 "id" = Some (VStr "a") ∧ dict_get c2 "id" = Some (VStr "a")
    ∧ DHT22Sensor.config inst2 = c2
    ∧ dict_get sensors (VStr "a") = Some inst2
    ∧ count_if (fun k => bool_decide (k = VStr "a")) (dict_keys sensors) = 1.
Proof.
  eapply (load_sensors_last_wins
            (config_of [spec_on "a" "DHT22" "D4"; spec "b" "DHT22";
                        spec_on "a" "DHT22" "D18";
                        disabled_spec "a" "DHT22"; spec "a" "Nope"])
            (fresh_world hw_fine) 0 2 (VStr "a")).
  - repeat constructor.
  - lia.
  - vm_compute. reflexivity.
  - vm_compute. reflexivity.
  - intros k type3 inst3 Hk.
    destruct k as [|[|[|[|[|k]]]]]; [lia | lia | lia | | |]; vm_compute;
      discriminate.
Defined.

(** * Further properties of the front ends *)

(** ** The status of the health check *)

Lemma count_if_zero {A : Type} (p : A -> bool) (l : list A) :
  count_if (fun x => negb (p x)) l = 0 ↔ Forall (fun x => p x = true) l.
Proof.
  unfold count_if. induction l as [|x l IH]; simpl.
  - split; [constructor | done].
  - rewrite Forall_cons. destruct (p x); simpl.
    + rewrite IH. tauto.
    + split; [done | intros [? _]; done].
Qed.

Lemma count_if_pos {A : Type} (p : A -> bool) (l : list A) :
  count_if (fun x => negb (p x)) l ≠ 0 → Exists (fun x => p x = false) l.
Proof.
  unfold count_if. induction l as [|x l IH]; simpl; [done|].
  destruct (p x) eqn:Hp; simpl.
  - intros Hc. apply Exists_cons_tl. by apply IH.
  - intros _. by apply Exists_cons_hd.
Qed.

(** X1.  The FastAPI health check answers 200 exactly when every read of
    the pass returned a success (so also on the empty registry), with the
    status [healthy], and 503 as soon as one read returned a failure or
    raised.  The Flask health check answers the same, status code and
    overall status, whenever the identifiers filed in the per-sensor dict
    can be sorted, as strings always can; when they cannot it answers 500,
    whatever the reads gave. *)
Theorem health_http_status :
  ∀ (S : Type) (HS : Sensor S) (sensors : PyDict PyVal S) (request : Request)
    (w : World),
    let rs := reads sensors w in
    let flask := (App.check_health sensors request w).1 in
    let fastapi := (Main.health_check sensors request w).1 in
    ((Forall (fun r => read_ok r = true) rs
      ∧ http_status fastapi = 200
      ∧ reported_status fastapi = Some "healthy")
     ∨ (Exists (fun r => read_ok r = false) rs
        ∧ http_status fastapi = 503
        ∧ reported_status fastapi ≠ Some "healthy"))
    ∧ (if sortable (dict_keys (filed [] (dict_keys sensors) rs)) then
         http_status flask = http_status fastapi
         ∧ reported_status flask = reported_status fastapi
       else
         http_status flask = 500 ∧ reported_status flask = None)
    ∧ ((∀ k : PyVal, k ∈ dict_keys sensors → ∃ s : string, k = VStr s) →
       http_status flask = http_status fastapi
       ∧ reported_status flask = reported_status fastapi).
Proof.
  intros S HS sensors request w rs flask fastapi. subst flask fastapi.
  destruct (health_handlers_eq sensors request w) as [Happ Hmain].
  rewrite Happ, Hmain. fold rs.
  match goal with
  | |- context [App.respond ?c (HealthBody ?r) ?w'] =>
      pose proof (respond_health_status c r w') as Hflask
  end.
  cbn [sensor_status status] in Hflask.
  cbn [fst http_status status_code reported_status status].
  split; [|split].
  - destruct (count_if (fun r => negb (read_ok r)) rs) as [|u] eqn:Hu.
    + left. apply count_if_zero in Hu. done.
    + right. split.
      * apply count_if_pos. by rewrite Hu.
      * unfold overall_status. simpl.
        destruct (count_if read_ok rs); simpl; split; [done | discriminate
          | done | discriminate].
  - destruct (sortable _); exact Hflask.
  - intros Hstr. rewrite sortable_strings in Hflask; [exact Hflask|].
    intros k Hk. apply filed_keys in Hk as [Hk|Hk]; [|by apply Hstr].
    by apply elem_of_nil in Hk.
Qed.

(** ** The data and info routes *)

(** X2.  A request with the right key for an identifier that is not a key of the
    registry is answered 404 before any sensor is touched: the world is left
    as it was.  The Flask handlers return the 404 with an error body, the
    FastAPI handlers raise it. *)
Theorem unknown_sensor_is_404 :
  ∀ (S : Type) (HS : Sensor S) (API_KEY : PyVal) (sensors : PyDict PyVal S)
    (sensor_id : string) (request : Request) (w : World),
    header_value (authorization request) = API_KEY →
    dict_get sensors (VStr sensor_id) = None →
    let not_found := "Sensor " +:+ sensor_id +:+ " not found" in
    App.get_sensor_data API_KEY sensors sensor_id request w
      = (Returns (mkResponse 404 (ErrorBody not_found)), w)
    ∧ App.get_sensor_info API_KEY sensors sensor_id request w
      = (Returns (mkResponse 404 (ErrorBody not_found)), w)
    ∧ Main.get_sensor_data API_KEY sensors sensor_id request w
      = (Raises (HTTPException 404 not_found), w)
    ∧ Main.get_sensor_info API_KEY sensors sensor_id request w
      = (Raises (HTTPException 404 not_found), w).
Proof.
  intros S HS API_KEY sensors sensor_id request w Hkey Hget not_found.
  unfold App.get_sensor_data, App.get_sensor_info, Main.get_sensor_data,
    Main.get_sensor_info, App.check_api_key, Main.verify_api_key, bind.
  rewrite !decide_True by done. simpl. rewrite Hget. done.
Qed.

Lemma unknown_sensor_is_404_witness :
  let not_found := "Sensor " +:+ "ghost" +:+ " not found" in
  App.get_sensor_data (VStr "key") stub_registry "ghost"
    (mkRequest (Some "key")) (fresh_world hw_fine)
    = (Returns (mkResponse 404 (ErrorBody not_found)), fresh_world hw_fine)
  ∧ App.get_sensor_info (VStr "key") stub_registry "ghost"
      (mkRequest (Some "key")) (fresh_world hw_fine)
    = (Returns (mkResponse 404 (ErrorBody not_found)), fresh_world hw_fine)
  ∧ Main.get_sensor_data (VStr "key") stub_registry "ghost"
      (mkRequest (Some "key")) (fresh_world hw_fine)
    = (Raises (HTTPException 404 not_found), fresh_world hw_fine)
  ∧ Main.get_sensor_info (VStr "key") stub_registry "ghost"
      (mkRequest (Some "key")) (fresh_world hw_fine)
    = (Raises (HTTPException 404 not_found), fresh_world hw_fine).
Proof.
  apply (unknown_sensor_is_404 StubSensor _ (VStr "key") stub_registry "ghost"
           (mkRequest (Some "key")) (fresh_world hw_fine)).
  - reflexivity.
  - reflexivity.
Defined.

Lemma routes_agree :
  ∀ (S : Type) (HS : Sensor S) (API_KEY : PyVal) (sensors : PyDict PyVal S)
    (endpoint : Endpoint) (request : Request) (w : World),
    (App.route API_KEY sensors endpoint request w).2
      = (Main.route API_KEY sensors endpoint request w).2
    ∧ match (Main.route API_KEY sensors endpoint request w).1 with
      | Returns resp =>
          (App.route API_KEY sensors endpoint request w).1
          = match jsonify (body resp) with
            | Returns sorted => Returns (mkResponse (status_code resp) sorted)
            | Raises e => Raises e
            end
      | Raises e =>
          http_status (App.route API_KEY sensors endpoint request w).1
            = http_status (Raises e)
          ∨ (e = ValueError "Out of range float values are not JSON compliant"
             ∧ ∃ data : PyDict string PyFloat,
                 (App.route API_KEY sensors endpoint request w).1
                   = Returns (mkResponse 200 (DataBody (sort_keys data)))
                 ∧ forallb (fun p : string * PyFloat => isfinite p.2) data
                   = false)
      end.
Proof.
  intros S HS API_KEY sensors endpoint request w.
  destruct endpoint as [| |sensor_id|sensor_id|]; cbn [App.route Main.route].
  - unfold App.check_health, Main.health_check, App.respond, bind, lift, ret.
    rewrite health_eq. cbn [fst snd JSONResponse body status_code].
    by destruct (jsonify _).
  - unfold App.list_sensors, Main.list_sensors, App.check_api_key,
      Main.verify_api_key, App.respond, bind, lift, ret.
    destruct (decide (header_value (authorization request) = API_KEY));
      simpl; [|by split; [|left]].
    destruct (for_each _ sensors [] w) as [[?|?] ?]; simpl; [done|].
    by split; [|left].
  - unfold App.get_sensor_data, Main.get_sensor_data, App.check_api_key,
      Main.verify_api_key, App.respond, bind, lift, ret, raise.
    destruct (decide (header_value (authorization request) = API_KEY));
      simpl; [|by split; [|left]].
    destruct (dict_get sensors (VStr sensor_id)) as [sensor|];
      [|by split; [|left]].
    destruct (read sensor w) as [[[data|error]|?] ?]; simpl;
      [|by split; [|left]|by split; [|left]].
    destruct (forallb _ data) eqn:Hfin; simpl; [done|].
    split; [done|]. right. split; [done|]. by exists data.
  - unfold App.get_sensor_info, Main.get_sensor_info, App.check_api_key,
      Main.verify_api_key, App.respond, bind, lift, ret, raise.
    destruct (decide (header_value (authorization request) = API_KEY));
      simpl; [|by split; [|left]].
    destruct (dict_get sensors (VStr sensor_id)) as [sensor|];
      [|by split; [|left]].
    destruct (get_info sensor w) as [[?|?] ?]; simpl; [done|].
    by split; [|left].
  - unfold App.get_sensor_data_legacy, Main.get_sensor_data_legacy,
      App.check_api_key, Main.verify_api_key, App.respond, bind, lift, ret,
      raise.
    destruct (decide (header_value (authorization request) = API_KEY));
      simpl; [|by split; [|left]].
    destruct (App.find_dht22 sensors w) as [[[sensor|]|?] w1];
      [|by split; [|left]|by split; [|left]].
    destruct (read sensor w1) as [[[data|error]|?] ?]; simpl;
      [|by split; [|left]|by split; [|left]].
    destruct (forallb _ data) eqn:Hfin; simpl; [done|].
    split; [done|]. right. split; [done|]. by exists data.
Qed.

(** X3.  How far the two front ends are interchangeable.  On every route,
    for every request and registry, they leave the same world.  Whenever
    the FastAPI handler returns a response, the Flask handler hands the same
    status code and the same content to [jsonify]: it returns them with the
    keys sorted, or, on the health route only, fails on identifiers that do
    not sort.  Whenever the FastAPI handler raises, the Flask handler shows
    the client the same status, by raising or by returning an error body;
    the one exception is a reading that is infinite or NaN, which FastAPI
    refuses to write (a 500) and Flask returns with a 200. *)
Theorem front_ends_agree :
  ∀ (S : Type) (HS : Sensor S) (API_KEY : PyVal) (sensors : PyDict PyVal S)
    (endpoint : Endpoint) (request : Request) (w : World),
    (App.route API_KEY sensors endpoint request w).2
      = (Main.route API_KEY sensors endpoint request w).2
    ∧ match (Main.route API_KEY sensors endpoint request w).1 with
      | Returns resp =>
          (App.route API_KEY sensors endpoint request w).1
          = match jsonify (body resp) with
            | Returns sorted => Returns (mkResponse (status_code resp) sorted)
            | Raises e => Raises e
            end
          ∧ (endpoint ≠ Health → returned (jsonify (body resp)) = true)
      | Raises e =>
          http_status (App.route API_KEY sensors endpoint request w).1
            = http_status (Raises e)
          ∨ (e = ValueError "Out of range float values are not JSON compliant"
             ∧ ∃ data : PyDict string PyFloat,
                 (App.route API_KEY sensors endpoint request w).1
                   = Returns (mkResponse 200 (DataBody (sort_keys data)))
                 ∧ forallb (fun p : string * PyFloat => isfinite p.2) data
                   = false)
      end.
Proof.
  intros S HS API_KEY sensors endpoint request w.
  destruct (routes_agree S HS API_KEY sensors endpoint request w) as [Hw Hr].
  split; [exact Hw|].
  destruct (Main.route API_KEY sensors endpoint request w) as [[resp|e] w']
    eqn:Hmain; cbn [fst] in *; [|exact Hr].
  split; [exact Hr|]. intros Hep.
  destruct (body resp) as [report| | | |] eqn:Hbody; try done.
  exfalso. revert Hmain. clear Hr Hw.
  destruct endpoint as [| |sensor_id|sensor_id|]; [done| | | |];
    cbn [Main.route];
    unfold Main.list_sensors, Main.get_sensor_data, Main.get_sensor_info,
      Main.get_sensor_data_legacy, Main.verify_api_key, bind, lift, ret, raise;
    destruct (decide (header_value (authorization request) = API_KEY));
    try done.
  - destruct (for_each _ sensors [] w) as [[?|?] ?]; simpl; [|done].
    intros [= <- _]. done.
  - destruct (dict_get sensors (VStr sensor_id)) as [sensor|]; [|done].
    destruct (read sensor w) as [[[data|error]|?] ?]; simpl; [|done|done].
    destruct (forallb _ data); [|done]. intros [= <- _]. done.
  - destruct (dict_get sensors (VStr sensor_id)) as [sensor|]; [|done].
    destruct (get_info sensor w) as [[?|?] ?]; simpl; [|done].
    intros [= <- _]. done.
  - destruct (App.find_dht22 sensors w) as [[[sensor|]|?] w1]; [|done|done].
    destruct (read sensor w1) as [[[data|error]|?] ?]; simpl; [|done|done].
    destruct (forallb _ data); [|done]. intros [= <- _]. done.
Qed.

(** * Further properties of the DHT22 sensor *)

Lemma dht22_read_driver_calls_aux :
  ∀ (self : DHT22Sensor.t) (dev : Device) (w : World),
    DHT22Sensor.sensor self = Some dev →
    hardware (DHT22Sensor.read self w).2 = hardware w
    ∧ calls (DHT22Sensor.read self w).2
      = calls w ++ GetTemperature dev
          :: (if returned (hw_answer (hardware w) (calls w) (GetTemperature dev))
              then [GetHumidity dev] else []).
Proof.
  intros self dev w Hdev.
  unfold DHT22Sensor.read, try_except, bind, DHT22Sensor.get_sensor,
    hw_call, ret, raise, lift, logger.
  rewrite Hdev. simpl.
  destruct (hw_answer (hardware w) (calls w) (GetTemperature dev))
    as [t|e]; simpl.
  - destruct (hw_answer (hardware w) (calls w ++ [GetTemperature dev])
                (GetHumidity dev)) as [hm|e]; simpl.
    + rewrite <- app_assoc. destruct hm, t; done.
    + rewrite <- app_assoc.
      destruct (is_RuntimeError e); simpl; [|done].
      unfold DHT22Sensor.args_0. by destruct (exc_args e).
  - destruct (is_RuntimeError e); simpl; [|done].
    unfold DHT22Sensor.args_0. by destruct (exc_args e).
Qed.

(** X4.  [read] asks the driver for the temperature first, and for the humidity
    only when the temperature came back; it makes no other driver call and
    never changes the hardware. *)
Theorem dht22_read_driver_calls :
  ∀ (self : DHT22Sensor.t) (dev : Device) (w : World),
    DHT22Sensor.sensor self = Some dev →
    hardware (DHT22Sensor.read self w).2 = hardware w
    ∧ calls (DHT22Sensor.read self w).2
      = calls w ++ GetTemperature dev
          :: (if returned (hw_answer (hardware w) (calls w) (GetTemperature dev))
              then [GetHumidity dev] else []).
Proof. exact dht22_read_driver_calls_aux. Qed.

Lemma dht22_read_driver_calls_witness :
  hardware (DHT22Sensor.read dht22_t1 (fresh_world hw_checksum)).2
    = hardware (fresh_world hw_checksum)
  ∧ calls (DHT22Sensor.read dht22_t1 (fresh_world hw_checksum)).2
    = calls (fresh_world hw_checksum) ++ GetTemperature 0
        :: (if returned (hw_answer (hardware (fresh_world hw_checksum))
                           (calls (fresh_world hw_checksum)) (GetTemperature 0))
            then [GetHumidity 0] else []).
Proof.
  apply (dht22_read_driver_calls dht22_t1 0 (fresh_world hw_checksum)).
  reflexivity.
Defined.

(** X5.  When the driver answers both measurements without raising, [read] logs
    nothing and returns: a success with the three values rounded to one
    decimal (the Fahrenheit one computed in floating point from the
    unrounded Celsius one, as [t * (9 / 5) + 32]) when both are present, the
    failure [Failed to retrieve data from sensor] when either is [None]. *)
Theorem dht22_read_without_fault :
  ∀ (self : DHT22Sensor.t) (dev : Device) (w : World),
    DHT22Sensor.sensor self = Some dev →
    first_fault dev w = None →
    ∃ temperature_c humidity : option PyFloat,
      hw_answer (hardware w) (calls w) (GetTemperature dev)
        = Returns temperature_c
      ∧ hw_answer (hardware w) (calls w ++ [GetTemperature dev])
          (GetHumidity dev) = Returns humidity
      ∧ log (DHT22Sensor.read self w).2 = log w
      ∧ (DHT22Sensor.read self w).1
        = Returns
            match humidity, temperature_c with
            | Some h, Some t =>
                Success [("temperature_c", round1 t);
                         ("temperature_f",
                          round1 (float_add (float_mul t (int_truediv 9 5))
                                    (float_of_int 32)));
                         ("humidity", round1 h)]
            | _, _ => Failure "Failed to retrieve data from sensor"
            end.
Proof.
  intros self dev w Hdev Hff. unfold first_fault in Hff.
  unfold DHT22Sensor.read, try_except, bind, DHT22Sensor.get_sensor,
    hw_call, ret, raise, lift, logger.
  rewrite Hdev. cbn beta iota.
  destruct (hw_answer (hardware w) (calls w) (GetTemperature dev))
    as [t|e]; [|done]. cbn beta iota. cbn [hardware calls log].
  destruct (hw_answer (hardware w) (calls w ++ [GetTemperature dev])
              (GetHumidity dev)) as [hm|e]; [|done]. cbn beta iota.
  exists t, hm. destruct hm, t; done.
Qed.

(** On a reading of 0.25 the three values are 0.2, 32.5 and 0.2: the
    product [0.25 * 1.8] is the float 0.45, the sum is 32.45 rounded to the
    float nearest it, which lies above 32.45. *)
Lemma dht22_read_without_fault_witness :
  (∃ temperature_c humidity : option PyFloat,
     hw_answer (hardware (fresh_world hw_quarter))
       (calls (fresh_world hw_quarter)) (GetTemperature 0)
       = Returns temperature_c
     ∧ hw_answer (hardware (fresh_world hw_quarter))
         (calls (fresh_world hw_quarter) ++ [GetTemperature 0])
         (GetHumidity 0) = Returns humidity
     ∧ log (DHT22Sensor.read dht22_t1 (fresh_world hw_quarter)).2
       = log (fresh_world hw_quarter)
     ∧ (DHT22Sensor.read dht22_t1 (fresh_world hw_quarter)).1
       = Returns
           match humidity, temperature_c with
           | Some h, Some t =>
               Success [("temperature_c", round1 t);
                        ("temperature_f",
                         round1 (float_add (float_mul t (int_truediv 9 5))
                                   (float_of_int 32)));
                        ("humidity", round1 h)]
           | _, _ => Failure "Failed to retrieve data from sensor"
           end)
  ∧ (DHT22Sensor.read dht22_t1 (fresh_world hw_quarter)).1
    = Returns (Success [("temperature_c", float_of_tenths 2);
                        ("temperature_f", float_of_tenths 325);
                        ("humidity", float_of_tenths 2)]).
Proof.
  split.
  - apply (dht22_read_without_fault dht22_t1 0 (fresh_world hw_quarter)).
    + reflexivity.
    + reflexivity.
  - vm_compute. reflexivity.
Defined.

(** X6.  How [read] files a fault of the driver.  A [RuntimeError] that carries
    an argument becomes the failure [RuntimeError: <args[0]>] and one WARNING
    record; any exception that is not a [RuntimeError] becomes the failure
    [Exception: <str(e)>] and one ERROR record.  Nothing else is logged. *)
Theorem dht22_read_files_faults :
  ∀ (self : DHT22Sensor.t) (dev : Device) (w : World) (e : PyExc),
    DHT22Sensor.sensor self = Some dev →
    first_fault dev w = Some e →
    (∀ (a : string) (rest : list string),
       is_RuntimeError e = true → exc_args e = a :: rest →
       (DHT22Sensor.read self w).1 = Returns (Failure ("RuntimeError: " +:+ a))
       ∧ log (DHT22Sensor.read self w).2 = log w ++ [LogDHT22ReadError a]
       ∧ log_level (LogDHT22ReadError a) = WARNING)
    ∧ (is_RuntimeError e = false →
       (DHT22Sensor.read self w).1
         = Returns (Failure ("Exception: " +:+ exc_str e))
       ∧ log (DHT22Sensor.read self w).2 = log w ++ [LogDHT22Unexpected e]
       ∧ log_level (LogDHT22Unexpected e) = ERROR).
Proof.
  intros self dev w e Hdev Hff. unfold first_fault in Hff.
  unfold DHT22Sensor.read, try_except, bind, DHT22Sensor.get_sensor,
    hw_call, ret, raise, lift, logger, DHT22Sensor.args_0.
  rewrite Hdev. simpl.
  destruct (hw_answer (hardware w) (calls w) (GetTemperature dev))
    as [t|e1]; simpl.
  - destruct (hw_answer (hardware w) (calls w ++ [GetTemperature dev])
                (GetHumidity dev)) as [hm|e2]; [done|]. simplify_eq. simpl.
    split.
    + intros a rest Hr Ha. rewrite Hr, Ha. done.
    + intros Hr. rewrite Hr. done.
  - simplify_eq. split.
    + intros a rest Hr Ha. rewrite Hr, Ha. done.
    + intros Hr. rewrite Hr. done.
Qed.

Lemma dht22_read_files_faults_witness :
  let e := mkExc RuntimeErrorClass ["Checksum did not validate. Try again."]
             "Checksum did not validate. Try again." in
  let w := fresh_world hw_checksum in
  (∀ (a : string) (rest : list string),
     is_RuntimeError e = true → exc_args e = a :: rest →
     (DHT22Sensor.read dht22_t1 w).1 = Returns (Failure ("RuntimeError: " +:+ a))
     ∧ log (DHT22Sensor.read dht22_t1 w).2 = log w ++ [LogDHT22ReadError a]
     ∧ log_level (LogDHT22ReadError a) = WARNING)
  ∧ (is_RuntimeError e = false →
     (DHT22Sensor.read dht22_t1 w).1
       = Returns (Failure ("Exception: " +:+ exc_str e))
     ∧ log (DHT22Sensor.read dht22_t1 w).2 = log w ++ [LogDHT22Unexpected e]
     ∧ log_level (LogDHT22Unexpected e) = ERROR).
Proof.
  apply (dht22_read_files_faults dht22_t1 0 (fresh_world hw_checksum)).
  - reflexivity.
  - reflexivity.
Defined.

Lemma dht22_read_Raises_inv :
  ∀ (self : DHT22Sensor.t) (w w' : World) (e : PyExc),
    DHT22Sensor.read self w = (Raises e, w') →
    e = IndexError "tuple index out of range"
    ∧ log w' = log w
    ∧ ∃ (dev : Device) (e0 : PyExc),
        DHT22Sensor.sensor self = Some dev
        ∧ first_fault dev w = Some e0
        ∧ is_RuntimeError e0 = true ∧ exc_args e0 = [].
Proof.
  intros self w w' e. unfold first_fault.
  unfold DHT22Sensor.read, try_except, bind, DHT22Sensor.get_sensor,
    hw_call, ret, raise, lift, logger, DHT22Sensor.args_0.
  destruct (DHT22Sensor.sensor self) as [dev|]; simpl; [|done].
  destruct (hw_answer (hardware w) (calls w) (GetTemperature dev))
    as [t|e1] eqn:Ht; simpl.
  - destruct (hw_answer (hardware w) (calls w ++ [GetTemperature dev])
                (GetHumidity dev)) as [hm|e2] eqn:Hh; simpl.
    + destruct hm, t; done.
    + destruct (is_RuntimeError e2) eqn:Hr; simpl; [|done].
      destruct (exc_args e2) eqn:Ha; simpl; [|done].
      intros [= <- <-]. simpl. split; [done|]. split; [done|].
      exists dev, e2. by rewrite Ht, Hh.
  - destruct (is_RuntimeError e1) eqn:Hr; simpl; [|done].
    destruct (exc_args e1) eqn:Ha; simpl; [|done].
    intros [= <- <-]. simpl. split; [done|]. split; [done|].
    exists dev, e1. by rewrite Ht.
Qed.

Lemma dht22_read_Raises_intro :
  ∀ (self : DHT22Sensor.t) (w : World) (dev : Device) (e0 : PyExc),
    DHT22Sensor.sensor self = Some dev →
    first_fault dev w = Some e0 →
    is_RuntimeError e0 = true → exc_args e0 = [] →
    ∃ w' : World,
      DHT22Sensor.read self w
      = (Raises (IndexError "tuple index out of range"), w').
Proof.
  intros self w dev e0 Hdev Hff Hr Ha. unfold first_fault in Hff.
  unfold DHT22Sensor.read, try_except, bind, DHT22Sensor.get_sensor,
    hw_call, ret, raise, lift, logger, DHT22Sensor.args_0.
  rewrite Hdev. cbn beta iota.
  destruct (hw_answer (hardware w) (calls w) (GetTemperature dev))
    as [t|e1]; cbn beta iota; cbn [hardware calls log].
  - destruct (hw_answer (hardware w) (calls w ++ [GetTemperature dev])
                (GetHumidity dev)) as [hm|e2]; [done|]. simplify_eq.
    cbn beta iota. rewrite Hr, Ha. eauto.
  - simplify_eq. rewrite Hr, Ha. eauto.
Qed.

(** X7.  The only exception that can leave [read] is the [IndexError] of the
    [RuntimeError] handler.  [read] raises exactly when the instance has a
    device and the driver, asked for the temperature or else for the
    humidity, raised a [RuntimeError] with an empty [args]; what it raises
    then is that [IndexError], and nothing is logged. *)
Theorem dht22_read_raises_only_IndexError :
  ∀ (self : DHT22Sensor.t) (w : World),
    ((∃ (e : PyExc) (w' : World), DHT22Sensor.read self w = (Raises e, w'))
     ↔ (∃ (dev : Device) (e0 : PyExc),
          DHT22Sensor.sensor self = Some dev
          ∧ first_fault dev w = Some e0
          ∧ is_RuntimeError e0 = true ∧ exc_args e0 = []))
    ∧ match (DHT22Sensor.read self w).1 with
      | Raises e =>
          e = IndexError "tuple index out of range"
          ∧ log (DHT22Sensor.read self w).2 = log w
      | Returns _ => True
      end.
Proof.
  intros self w. split; [split|].
  - intros (e & w' & Hrun).
    by apply dht22_read_Raises_inv in Hrun as (_ & _ & Hdev).
  - intros (dev & e0 & Hdev & Hff & Hr & Ha).
    destruct (dht22_read_Raises_intro self w dev e0 Hdev Hff Hr Ha) as [w' ->].
    eauto.
  - destruct (DHT22Sensor.read self w) as [[result|e] w'] eqn:Hrun; [done|].
    by apply dht22_read_Raises_inv in Hrun as (-> & Hlog & _).
Qed.

(** * Further properties of registry construction *)

Lemma string_app_length (s t : string) :
  String.length (s +:+ t) = String.length s + String.length t.
Proof. induction s as [|a s IH]; simpl; [done | by rewrite IH]. Qed.

Lemma string_app_inv_tail (s1 s2 t : string) :
  s1 +:+ t = s2 +:+ t → s1 = s2.
Proof.
  revert s2. induction s1 as [|a s1 IH]; intros [|b s2] Heq; simpl in Heq.
  - done.
  - apply (f_equal String.length) in Heq.
    rewrite !string_app_length in Heq. simpl in Heq. lia.
  - apply (f_equal String.length) in Heq.
    rewrite !string_app_length in Heq. simpl in Heq. lia.
  - injection Heq as -> Heq. f_equal. by apply IH.
Qed.

(** ** Hardware and driver calls *)

Lemma steady_ret {A : Type} (a : A) : steady (ret a).
Proof. intros w. split; [done|]. exists []. by rewrite app_nil_r. Qed.

Lemma steady_raise {A : Type} (e : PyExc) : steady (raise (A:=A) e).
Proof. intros w. split; [done|]. exists []. by rewrite app_nil_r. Qed.

Lemma steady_lift {A : Type} (r : Result A) : steady (lift r).
Proof. intros w. split; [done|]. exists []. by rewrite app_nil_r. Qed.

Lemma steady_logger (r : LogRecord) : steady (logger r).
Proof. intros w. split; [done|]. exists []. by rewrite app_nil_r. Qed.

Lemma steady_hw_call (c : HwCall) : steady (hw_call c).
Proof. intros w. split; [done|]. by exists [c]. Qed.

Lemma steady_bind {A B : Type} (m : M A) (k : A -> M B) :
  steady m → (∀ a, steady (k a)) → steady (bind m k).
Proof.
  intros Hm Hk w. unfold bind. destruct (Hm w) as (Hh & cs & Hcs).
  destruct (m w) as [[a|e] w1]; simpl in *.
  - destruct (Hk a w1) as (Hh' & cs' & Hcs'). split; [congruence|].
    exists (cs ++ cs'). by rewrite Hcs', Hcs, app_assoc.
  - eauto.
Qed.

Lemma steady_try_except {A : Type} (body : M A) (handler : PyExc -> M A) :
  steady body → (∀ e, steady (handler e)) → steady (try_except body handler).
Proof.
  intros Hm Hk w. unfold try_except. destruct (Hm w) as (Hh & cs & Hcs).
  destruct (body w) as [[a|e] w1]; simpl in *.
  - eauto.
  - destruct (Hk e w1) as (Hh' & cs' & Hcs'). split; [congruence|].
    exists (cs ++ cs'). by rewrite Hcs', Hcs, app_assoc.
Qed.

Lemma steady_for_each {A St : Type} (body : A -> St -> M St) (l : list A) :
  (∀ x st, steady (body x st)) → ∀ st, steady (for_each body l st).
Proof.
  intros Hbody. induction l as [|x l IH]; intros st; simpl.
  - apply steady_ret.
  - apply steady_bind; [apply Hbody | apply IH].
Qed.

Lemma steady_construct (c : SensorConfig) : steady (construct c).
Proof.
  unfold construct.
  repeat (apply steady_bind; [|intros ?]);
    auto using steady_ret, steady_lift.
  - unfold import_module.
    repeat case_match;
      repeat (apply steady_bind; [|intros ?]);
      auto using steady_ret, steady_raise, steady_hw_call.
  - unfold instantiate. case_match; [apply steady_raise|].
    unfold DHT22Sensor.init, BaseSensor.init.
    repeat (apply steady_bind; [|intros ?]);
      auto using steady_ret, steady_logger.
    + intros w. unfold DHT22Sensor.getattr_board.
      split; [|exists []; rewrite app_nil_r];
        repeat case_match; done.
    + intros w. unfold hw_open, hw_call. simpl.
      destruct (hw_answer _ _ _); simpl; split; try done; by eexists [_].
Qed.

Lemma steady_load_sensor (c : SensorConfig) (sensors : Registry) :
  steady (load_sensor c sensors).
Proof.
  unfold load_sensor. case_match.
  - repeat (apply steady_bind; [|intros ?]);
      auto using steady_ret, steady_lift, steady_logger.
  - apply steady_try_except.
    + apply steady_bind; [apply steady_construct|]. intros [[? ?] ?].
      apply steady_bind; [apply steady_logger|]. intros ?. apply steady_ret.
    + intros e. apply steady_bind; [apply steady_logger|]. intros ?.
      apply steady_ret.
Qed.

(** ** What a successful constructor did *)

(** The constructor returns only for the exact type tag [DHT22]; it has then
    loaded the driver module and opened one device on the pin of the spec
    ([D4] when the spec names none), which the [board] module has; the
    instance holds that device. *)
Lemma construct_Returns_calls (c : SensorConfig) (w w' : World)
    (sensor_id : PyVal) (sensor_type : string) (inst : DHT22Sensor.t) :
  construct c w = (Returns (sensor_id, sensor_type, inst), w') →
  ∃ pin : string,
    dict_get c "type" = Some (VStr "DHT22")
    ∧ sensor_type = "DHT22"
    ∧ dict_get_default c "pin" (VStr "D4") = VStr pin
    ∧ hw_pin (hardware w) pin = true
    ∧ calls w' = calls w ++ [ImportDriver; OpenDHT22 pin]
    ∧ DHT22Sensor.sensor inst = Some (S (length (calls w))).
Proof.
  unfold construct. intros Hc.
  apply bind_Returns in Hc as (ty & wa & Htype & Hc).
  apply bind_Returns in Hc as (id & wb & Hid & Hc).
  apply bind_Returns in Hc as (lowered & wc & Hlow & Hc).
  apply bind_Returns in Hc as (module & wd & Himp & Hc).
  apply bind_Returns in Hc as (cls & we & Hcls & Hc).
  apply bind_Returns in Hc as (built & wf & Hinst & Hc).
  apply lift_Returns in Htype as [Htype ->].
  apply lift_Returns in Hid as [Hid ->].
  apply lift_Returns in Hlow as [Hlow ->].
  apply lift_Returns in Hcls as [Hcls ->].
  unfold ret in Hc. simplify_eq.
  unfold getitem in Htype. destruct (dict_get c "type") as [ty'|]; [|done].
  simplify_eq. destruct ty as [| |s]; [done|done|]. simpl in *. simplify_eq.
  unfold instantiate in Hinst. destruct cls; [done|].
  unfold getattr_module in Hcls.
  assert (module = sensors_dht22 ∧ s = "DHT22") as [-> ->].
  { destruct module.
    - destruct (String.eqb (s +:+ "Sensor") "BaseSensor"); done.
    - split; [done|].
      destruct (String.eqb (s +:+ "Sensor") "DHT22Sensor") eqn:Hs.
      + apply String.eqb_eq in Hs.
        by apply (string_app_inv_tail s "DHT22" "Sensor").
      + destruct (String.eqb (s +:+ "Sensor") "BaseSensor"); done. }
  unfold import_module in Himp. simpl in Himp.
  unfold bind, hw_call, ret in Himp.
  destruct (hw_answer (hardware w) (calls w) ImportDriver); [|done].
  simplify_eq.
  unfold DHT22Sensor.init in Hinst.
  apply bind_Returns in Hinst as (self & w1 & Hbase & Hinst).
  apply bind_Returns in Hinst as (pin & w2 & Hpin & Hinst).
  apply bind_Returns in Hinst as (dev & w3 & Hopen & Hinst).
  apply bind_Returns in Hinst as (u & w4 & Hlog & Hinst).
  unfold BaseSensor.init, bind, logger, ret in Hbase. simplify_eq.
  unfold DHT22Sensor.getattr_board in Hpin. simpl in Hpin.
  destruct (dict_get_default c "pin" (VStr "D4")) as [| |pin']; [done|done|].
  cbn [hardware] in Hpin.
  destruct (hw_pin (hardware w) pin') eqn:Hboard; [|done]. simplify_eq.
  unfold hw_open, hw_call in Hopen. simpl in Hopen.
  destruct (hw_answer (hardware w) _ (OpenDHT22 pin)); [|done]. simplify_eq.
  unfold logger in Hlog. unfold ret in Hinst. simplify_eq. simpl.
  exists pin. rewrite <- app_assoc, length_app. simpl.
  repeat split; try done. f_equal. lia.
Qed.

(** ** When the load stops *)

Lemma first_unclean_spec (specs : list SensorConfig) :
  Forall (fun c => skips_cleanly c = true) specs
  ∨ ∃ (l1 : list SensorConfig) (c : SensorConfig) (l2 : list SensorConfig),
      specs = l1 ++ c :: l2
      ∧ Forall (fun c => skips_cleanly c = true) l1
      ∧ skips_cleanly c = false.
Proof.
  induction specs as [|c specs IH].
  - left. constructor.
  - destruct (skips_cleanly c) eqn:Hc.
    + destruct IH as [Hall|(l1 & c' & l2 & -> & Hl1 & Hc')].
      * left. by constructor.
      * right. exists (c :: l1), c', l2. split; [done|]. split; [|done].
        by constructor.
    + right. exists [], c, specs. split; [done|]. split; [constructor | done].
Qed.

Lemma load_list_stops (l1 : list SensorConfig) (c : SensorConfig)
    (l2 : list SensorConfig) (sensors : Registry) (w : World) :
  Forall (fun c => skips_cleanly c = true) l1 →
  skips_cleanly c = false →
  for_each load_sensor (l1 ++ c :: l2) sensors w
  = (Raises (KeyError "id"), world_after (fun c => load_sensor c []) l1 w).
Proof.
  intros Hl1 Hc. rewrite for_each_app, load_list_eq by done.
  cbn [for_each]. unfold bind. unfold skips_cleanly in Hc.
  apply orb_false_iff in Hc as [He Hid].
  rewrite load_sensor_skipped by done. unfold dict_contains in Hid.
  by destruct (dict_get c "id").
Qed.

(** X8.  [load_sensors] either goes through the whole list and returns, or stops
    at the first spec that is skipped (falsy [enabled]) and has no [id]:
    line 41 of app.py then raises [KeyError('id')] outside the [try], the
    specs after it are never looked at, and the start-up of both front ends
    raises the same exception without logging the count of sensors. *)
Theorem load_sensors_returns_or_stops :
  ∀ (config : Config) (w : World),
    (Forall (fun c => skips_cleanly c = true) (sensor_configs config)
     ∧ ∃ (sensors : Registry) (w' : World),
         load_sensors config [] w = (Returns sensors, w')
         ∧ App.startup config w
           = (Returns sensors, logged w' (LogHubInitialized (length sensors)))
         ∧ Main.startup_event config w
           = (Returns sensors, logged w' (LogHubInitialized (length sensors))))
    ∨ (∃ (l1 : list SensorConfig) (c : SensorConfig) (l2 : list SensorConfig),
         sensor_configs config = l1 ++ c :: l2
         ∧ Forall (fun c => skips_cleanly c = true) l1
         ∧ truthy (enabled_flag c) = false
         ∧ dict_get c "id" = None
         ∧ load_sensors config [] w
           = (Raises (KeyError "id"),
              world_after (fun c => load_sensor c []) l1 w)
         ∧ App.startup config w = load_sensors config [] w
         ∧ Main.startup_event config w = load_sensors config [] w).
Proof.
  intros config w. unfold App.startup, Main.startup_event, load_sensors.
  destruct (first_unclean_spec (sensor_configs config))
    as [Hall|(l1 & c & l2 & Hspecs & Hl1 & Hc)].
  - left. split; [done|]. unfold bind. rewrite load_list_eq by done.
    eexists _, _. done.
  - right. exists l1, c, l2. rewrite Hspecs. unfold bind.
    rewrite load_list_stops by done.
    unfold skips_cleanly in Hc. apply orb_false_iff in Hc as [He Hid].
    unfold dict_contains in Hid. destruct (dict_get c "id") eqn:Hg; [done|].
    done.
Qed.

Lemma load_sensors_Returns_clean (config : Config) (w w' : World)
    (sensors : Registry) :
  load_sensors config [] w = (Returns sensors, w') →
  Forall (fun c => skips_cleanly c = true) (sensor_configs config)
  ∧ sensors = assign_all [] (omap entry_of (attempts (sensor_configs config) w))
  ∧ w' = world_after (fun c => load_sensor c []) (sensor_configs config) w.
Proof.
  unfold load_sensors. intros Hload.
  destruct (first_unclean_spec (sensor_configs config))
    as [Hall|(l1 & c & l2 & Hspecs & Hl1 & Hc)].
  - rewrite load_list_eq in Hload by done. by simplify_eq.
  - rewrite Hspecs, load_list_stops in Hload by done. done.
Qed.

(** ** The registry a load returns *)

Lemma dict_set_length {K V : Type} `{EqDecision K} (d : PyDict K V) (k : K)
    (v : V) :
  (length (dict_set d k v) ≤ S (length d))%nat.
Proof.
  induction d as [|[k' v'] d IH]; simpl; [lia|].
  destruct (decide (k' = k)); simpl; lia.
Qed.

Lemma assign_all_length (sensors : Registry)
    (entries : list (PyVal * DHT22Sensor.t)) :
  (length (assign_all sensors entries) ≤ length sensors + length entries)%nat.
Proof.
  revert sensors. induction entries as [|[k v] entries IH]; intros sensors.
  - simpl. lia.
  - unfold assign_all. simpl. fold (assign_all (dict_set sensors k v) entries).
    pose proof (IH (dict_set sensors k v)).
    pose proof (dict_set_length sensors k v). lia.
Qed.

Lemma entries_length (specs : list SensorConfig)
    (l : list (option (Result (PyVal * string * DHT22Sensor.t)))) :
  Forall2 attempt_of specs l →
  (length (omap entry_of l)
   ≤ count_if (fun c => truthy (enabled_flag c)) specs)%nat.
Proof.
  unfold count_if. induction 1 as [|c a specs l Hca Hl IH]; [done|].
  destruct a as [[[[sensor_id sensor_type] inst]|e]|]; simpl in Hca |- *.
  - destruct Hca as (-> & _). cbn [omap list_omap entry_of length].
    fold (omap entry_of l). lia.
  - rewrite Hca. cbn [omap list_omap entry_of length].
    fold (omap entry_of l). lia.
  - rewrite Hca. cbn [omap list_omap entry_of]. fold (omap entry_of l). done.
Qed.

(** X9.  The registry [load_sensors] returns has pairwise distinct keys and at
    most one entry per enabled spec. *)
Theorem loaded_registry_keys_distinct :
  ∀ (config : Config) (w w' : World) (sensors : Registry),
    load_sensors config [] w = (Returns sensors, w') →
    NoDup (dict_keys sensors)
    ∧ (length sensors
       ≤ count_if (fun c => truthy (enabled_flag c)) (sensor_configs config))%nat.
Proof.
  intros config w w' sensors Hload.
  apply load_sensors_Returns_clean in Hload as (_ & -> & _). split.
  - apply assign_all_NoDup. constructor.
  - etrans; [apply assign_all_length|]. simpl.
    apply entries_length, attempts_spec.
Qed.

Lemma loaded_registry_keys_distinct_witness :
  ∃ (sensors : Registry),
    NoDup (dict_keys sensors)
    ∧ (length sensors
       ≤ count_if (fun c => truthy (enabled_flag c))
           (sensor_configs
              (config_of [spec_on "a" "DHT22" "D4"; disabled_spec "x" "DHT22";
                          spec_on "a" "DHT22" "D18"; spec "b" "Nope"])))%nat.
Proof.
  eexists.
  eapply (loaded_registry_keys_distinct
            (config_of [spec_on "a" "DHT22" "D4"; disabled_spec "x" "DHT22";
                        spec_on "a" "DHT22" "D18"; spec "b" "Nope"])
            (fresh_world hw_fine)).
  vm_compute. reflexivity.
Defined.

Lemma world_after_steady {A B : Type} (f : A -> M B) (l : list A) (w : World) :
  (∀ x, steady (f x)) →
  hardware (world_after f l w) = hardware w
  ∧ ∃ cs : list HwCall, calls (world_after f l w) = calls w ++ cs.
Proof.
  intros Hf. revert w. induction l as [|x l IH]; intros w; simpl.
  - split; [done|]. exists []. by rewrite app_nil_r.
  - destruct (IH (f x w).2) as (Hh & cs & Hcs).
    destruct (Hf x w) as (Hh' & cs' & Hcs').
    split; [congruence|]. exists (cs' ++ cs). by rewrite Hcs, Hcs', app_assoc.
Qed.

Lemma dict_set_elem {K V : Type} `{EqDecision K} (d : PyDict K V) (k : K)
    (v : V) (p : K * V) :
  p ∈ dict_set d k v → p ∈ d ∨ p = (k, v).
Proof.
  induction d as [|[k' v'] d IH]; simpl.
  - rewrite list_elem_of_singleton. by right.
  - destruct (decide (k' = k)) as [->|Hne]; rewrite !elem_of_cons.
    + intros [->|Hin]; [by right | left; by right].
    + intros [->|Hin]; [left; by left|].
      destruct (IH Hin) as [?|?]; [left; by right | by right].
Qed.

Lemma assign_all_elem (sensors : Registry)
    (entries : list (PyVal * DHT22Sensor.t)) (p : PyVal * DHT22Sensor.t) :
  p ∈ assign_all sensors entries → p ∈ sensors ∨ p ∈ entries.
Proof.
  revert sensors. induction entries as [|[k v] entries IH]; intros sensors.
  - by left.
  - unfold assign_all. simpl. fold (assign_all (dict_set sensors k v) entries).
    intros Hin. apply IH in Hin as [Hin|Hin].
    + apply dict_set_elem in Hin as [? | ->]; [by left|].
      right. apply elem_of_cons. by left.
    + right. apply elem_of_cons. by right.
Qed.

Lemma opened_in_earlier (w0 w w' : World) (p : PyVal * DHT22Sensor.t) :
  hardware w = hardware w0 →
  (∃ cs : list HwCall, calls w = calls w0 ++ cs) →
  opened_in w w' p → opened_in w0 w' p.
Proof.
  intros Hh (cs & Hcs) (dev & pin & Hdev & Hcall & Hlt & Hpin & Hboard & He & Hty).
  exists dev, pin. rewrite Hcs, length_app in Hlt. rewrite Hh in Hboard.
  repeat split; try done. lia.
Qed.

(** Every entry the loop assigns holds a device of its own, opened on the
    pin of its spec. *)
Lemma attempts_opened (specs : list SensorConfig) (w : World) :
  Forall (opened_in w (world_after (fun c => load_sensor c []) specs w))
    (omap entry_of (attempts specs w)).
Proof.
  revert w. induction specs as [|c specs IH]; intros w; [constructor|].
  cbn [attempts world_after omap list_omap].
  fold (omap entry_of (attempts specs (load_sensor c [] w).2)).
  set (wb := (load_sensor c [] w).2).
  set (wf := world_after (fun c => load_sensor c []) specs wb).
  assert (Hrest : Forall (opened_in w wf) (omap entry_of (attempts specs wb))).
  { eapply Forall_impl; [apply IH|]. intros p. apply opened_in_earlier.
    - apply (steady_load_sensor c [] w).
    - apply (steady_load_sensor c [] w). }
  destruct (truthy (enabled_flag c)) eqn:He; [|done].
  destruct (construct c w) as [[[[sensor_id sensor_type] inst]|e] w1] eqn:Hc;
    cbn [fst entry_of]; [|done].
  constructor; [|done].
  destruct (construct_Returns_calls _ _ _ _ _ _ Hc)
    as (pin & Hty & _ & Hpin & Hboard & Hcalls & Hdev).
  destruct (construct_Returns _ _ _ _ _ _ Hc) as [_ Hbase].
  assert (Hwb : calls wb = calls w1).
  { unfold wb. rewrite load_sensor_enabled, Hc by done. done. }
  destruct (world_after_steady (fun c => load_sensor c []) specs wb)
    as (_ & cs & Hcs); [intros x; apply steady_load_sensor|].
  exists (S (length (calls w))), pin. cbn [snd].
  split; [done|]. split.
  { unfold wf. rewrite Hcs, Hwb, Hcalls. rewrite <- app_assoc.
    rewrite lookup_app_r by lia.
    replace (S (length (calls w)) - length (calls w)) with 1 by lia. done. }
  split; [lia|].
  unfold DHT22Sensor.get_info, DHT22Sensor.config, DHT22Sensor.enabled.
  cbn [info_pin info_enabled]. rewrite Hbase. cbn.
  repeat split; done.
Qed.

(** X10.  Every instance of the registry [load_sensors] returns holds a device
    that was opened during the load, by an [OpenDHT22] call on the pin the
    instance reports ([D4] when its spec names none), a pin the [board]
    module has; the spec of the instance has the exact type tag [DHT22] and a
    truthy [enabled] flag. *)
Theorem loaded_instances_are_opened :
  ∀ (config : Config) (w w' : World) (sensors : Registry),
    load_sensors config [] w = (Returns sensors, w') →
    Forall (opened_in w w') sensors.
Proof.
  intros config w w' sensors Hload.
  apply load_sensors_Returns_clean in Hload as (_ & -> & ->).
  apply Forall_forall. intros p Hin.
  apply assign_all_elem in Hin as [Hin|Hin]; [by apply elem_of_nil in Hin|].
  pose proof (attempts_opened (sensor_configs config) w) as Hall.
  rewrite Forall_forall in Hall. by apply Hall.
Qed.

Lemma loaded_instances_are_opened_witness :
  ∃ (sensors : Registry) (w' : World),
    load_sensors (config_of [spec "bad" "dht22"; spec_on "t1" "DHT22" "D18"])
      [] (fresh_world hw_fine) = (Returns sensors, w')
    ∧ length sensors = 1
    ∧ Forall (opened_in (fresh_world hw_fine) w') sensors.
Proof.
  eexists _, _. split; [vm_compute; reflexivity|]. split; [reflexivity|].
  eapply (loaded_instances_are_opened
            (config_of [spec "bad" "dht22"; spec_on "t1" "DHT22" "D18"])
            (fresh_world hw_fine)).
  vm_compute. reflexivity.
Defined.

(** * Further properties of the routes over a registry of DHT22 sensors *)

(** ** Shutdown *)

Lemma dht22_cleanup_eq (self : DHT22Sensor.t) (w : World) :
  ∃ r : LogRecord,
    DHT22Sensor.cleanup self w
    = (Returns tt,
       mkWorld (hardware w)
         (calls w ++ match DHT22Sensor.sensor self with
                     | Some dev => [ExitDevice dev]
                     | None => []
                     end)
         (log w ++ [r])).
Proof.
  unfold DHT22Sensor.cleanup, try_except, bind, DHT22Sensor.get_sensor.
  destruct (DHT22Sensor.sensor self) as [dev|]; simpl.
  - destruct (hw_answer (hardware w) (calls w) (ExitDevice dev)); simpl; eauto.
  - rewrite app_nil_r. eauto.
Qed.

Lemma cleanup_loop (sensors : Registry) (w : World) :
  ∃ w' : World,
    for_each (fun (item : PyVal * DHT22Sensor.t) (_ : unit) => cleanup item.2)
      sensors tt w = (Returns tt, w')
    ∧ hardware w' = hardware w
    ∧ calls w' = calls w ++ (ExitDevice <$> omap DHT22Sensor.sensor
                                              (dict_values sensors))
    ∧ length (log w') = length (log w) + length sensors.
Proof.
  revert w. induction sensors as [|[k self] sensors IH]; intros w.
  - exists w. simpl. rewrite app_nil_r. repeat split; lia.
  - cbn [for_each]. unfold bind. cbn [cleanup DHT22Sensor_Sensor snd].
    destruct (dht22_cleanup_eq self w) as [r ->]. cbn beta iota.
    destruct (IH (mkWorld (hardware w)
                    (calls w ++ match DHT22Sensor.sensor self with
                                | Some dev => [ExitDevice dev]
                                | None => []
                                end) (log w ++ [r])))
      as (w' & Hrun & Hh & Hc & Hl).
    exists w'. split; [exact Hrun|]. split; [done|]. split.
    + rewrite Hc. cbn [calls dict_values fmap list_fmap snd omap list_omap].
      rewrite <- app_assoc. f_equal.
      by destruct (DHT22Sensor.sensor self).
    + rewrite Hl. cbn [log length]. rewrite length_app. simpl. lia.
Qed.

(** X11.  Shutting down a registry of DHT22 sensors never raises, whatever the
    devices answer: every instance is cleaned up once, in registration order,
    so the driver gets exactly one [exit()] per registered device, in that
    order, and the log one record per sensor; the FastAPI front end then logs
    that the shutdown is complete. *)
Theorem shutdown_exits_every_device :
  ∀ (sensors : Registry) (w : World),
    ∃ w' : World,
      App.shutdown sensors w = (Returns tt, w')
      ∧ Main.shutdown_event sensors w
        = (Returns tt, logged w' LogShutdownComplete)
      ∧ hardware w' = hardware w
      ∧ calls w' = calls w ++ (ExitDevice <$> omap DHT22Sensor.sensor
                                                (dict_values sensors))
      ∧ length (log w') = length (log w) + length sensors.
Proof.
  intros sensors w. destruct (cleanup_loop sensors w) as (w' & Hrun & Hrest).
  exists w'. unfold App.shutdown, Main.shutdown_event, bind. rewrite Hrun.
  done.
Qed.

(** ** The info routes *)

Lemma info_loop (sensors : Registry) (acc : list SensorInfo) (w : World) :
  for_each
    (fun (item : PyVal * DHT22Sensor.t) (sensor_list : list SensorInfo) =>
       info <- get_info item.2 ;; ret (sensor_list ++ [info]))
    sensors acc w
  = (Returns (acc ++ (DHT22Sensor.get_info <$> dict_values sensors)), w).
Proof.
  revert acc. induction sensors as [|[k self] sensors IH]; intros acc.
  - simpl. by rewrite app_nil_r.
  - cbn [for_each]. unfold bind at 1. cbn [get_info DHT22Sensor_Sensor snd].
    unfold bind, ret. rewrite IH. cbn [dict_values fmap list_fmap snd].
    by rewrite <- app_assoc.
Qed.

(** X12.  Over a registry of DHT22 sensors the list and info routes never touch
    the world, whatever the request: no driver call, no log record.  With the
    right key the list route answers 200 with the [get_info()] of every
    sensor in registration order and their count, and the info route answers
    200 with the [get_info()] of the sensor found under the identifier or 404
    when there is none.  FastAPI writes each info as [get_info] built it;
    Flask writes it with its keys sorted, the measurements as [humidity],
    [temperature_c], [temperature_f], each with [description] before
    [unit]. *)
Theorem info_routes_leave_the_world :
  ∀ (API_KEY : PyVal) (sensors : Registry) (sensor_id : string)
    (request : Request) (w : World),
    App.list_sensors API_KEY sensors request w
      = (if decide (header_value (authorization request) = API_KEY)
         then Returns (mkResponse 200
                         (SensorListBody
                            (sort_info <$>
                               (DHT22Sensor.get_info <$> dict_values sensors))
                            (length sensors)))
         else Raises (HTTPException 401 "Unauthorized"), w)
    ∧ Main.list_sensors API_KEY sensors request w
      = (if decide (header_value (authorization request) = API_KEY)
         then Returns (mkResponse 200
                         (SensorListBody
                            (DHT22Sensor.get_info <$> dict_values sensors)
                            (length sensors)))
         else Raises (HTTPException 401 "Invalid or missing API key"), w)
    ∧ App.get_sensor_info API_KEY sensors sensor_id request w
      = (if decide (header_value (authorization request) = API_KEY)
         then match dict_get sensors (VStr sensor_id) with
              | Some sensor =>
                  Returns (mkResponse 200
                             (InfoBody
                                (sort_info (DHT22Sensor.get_info sensor))))
              | None =>
                  Returns (mkResponse 404
                             (ErrorBody
                                ("Sensor " +:+ sensor_id +:+ " not found")))
              end
         else Raises (HTTPException 401 "Unauthorized"), w)
    ∧ Main.get_sensor_info API_KEY sensors sensor_id request w
      = (if decide (header_value (authorization request) = API_KEY)
         then match dict_get sensors (VStr sensor_id) with
              | Some sensor =>
                  Returns (mkResponse 200
                             (InfoBody (DHT22Sensor.get_info sensor)))
              | None =>
                  Raises (HTTPException 404
                            ("Sensor " +:+ sensor_id +:+ " not found"))
              end
         else Raises (HTTPException 401 "Invalid or missing API key"), w)
    ∧ (∀ sensor : DHT22Sensor.t,
         sort_info (DHT22Sensor.get_info sensor)
         = {| info_sensor_id := DHT22Sensor.sensor_id sensor;
              info_name := DHT22Sensor.name sensor;
              info_type := "DHT22";
              info_description := "Temperature and humidity sensor";
              info_measurements :=
                [("humidity", [("description", "Relative humidity");
                               ("unit", "%")]);
                 ("temperature_c", [("description", "Temperature in Celsius");
                                    ("unit", "°C")]);
                 ("temperature_f", [("description", "Temperature in Fahrenheit");
                                    ("unit", "°F")])];
              info_pin := dict_get_default (DHT22Sensor.config sensor) "pin"
                            (VStr "D4");
              info_enabled := DHT22Sensor.enabled sensor |}).
Proof.
  intros API_KEY sensors sensor_id request w.
  unfold App.list_sensors, Main.list_sensors, App.get_sensor_info,
    Main.get_sensor_info, App.check_api_key, Main.verify_api_key,
    App.respond, bind, lift, ret, raise.
  destruct (decide (header_value (authorization request) = API_KEY))
    as [Hkey|Hkey]; cbn beta iota.
  - rewrite info_loop. cbn [app jsonify JSONResponse fst snd].
    unfold dict_values. rewrite !length_fmap.
    destruct (dict_get sensors (VStr sensor_id)) as [sensor|];
      cbn [get_info DHT22Sensor_Sensor ret jsonify JSONResponse];
      unfold ret; done.
  - done.
Qed.

(** ** The legacy route *)

(** X13.  Over a registry of DHT22 sensors the legacy route is the data route of
    the first registered sensor: same result, same world, in both front
    ends.  On the empty registry it answers 404 to a request with the right
    key without touching the world. *)
Theorem legacy_route_reads_the_first_sensor :
  ∀ (API_KEY : PyVal) (sensor_id : string) (sensor : DHT22Sensor.t)
    (rest : Registry) (request : Request) (w : World),
    App.get_sensor_data_legacy API_KEY ((VStr sensor_id, sensor) :: rest)
      request w
    = App.get_sensor_data API_KEY ((VStr sensor_id, sensor) :: rest)
        sensor_id request w
    ∧ Main.get_sensor_data_legacy API_KEY ((VStr sensor_id, sensor) :: rest)
        request w
      = Main.get_sensor_data API_KEY ((VStr sensor_id, sensor) :: rest)
          sensor_id request w
    ∧ App.get_sensor_data_legacy API_KEY ([] : Registry) request w
      = (if decide (header_value (authorization request) = API_KEY)
         then Returns (mkResponse 404 (ErrorBody "No DHT22 sensor configured"))
         else Raises (HTTPException 401 "Unauthorized"), w)
    ∧ Main.get_sensor_data_legacy API_KEY ([] : Registry) request w
      = (if decide (header_value (authorization request) = API_KEY)
         then Raises (HTTPException 404 "No DHT22 sensor configured")
         else Raises (HTTPException 401 "Invalid or missing API key"), w).
Proof.
  intros API_KEY sensor_id sensor rest request w.
  unfold App.get_sensor_data_legacy, App.get_sensor_data,
    Main.get_sensor_data_legacy, Main.get_sensor_data,
    App.check_api_key, Main.verify_api_key, bind.
  destruct (decide (header_value (authorization request) = API_KEY));
    simpl; [|done].
  rewrite decide_True by done. done.
Qed.

(** ** Who gets a 401 *)

Lemma dht22_routes_with_key (API_KEY : PyVal) (sensors : Registry)
    (endpoint : Endpoint) (request : Request) (w : World) :
  endpoint ≠ Health →
  header_value (authorization request) = API_KEY →
  (http_status (App.route API_KEY sensors endpoint request w).1 = 200
   ∨ http_status (App.route API_KEY sensors endpoint request w).1 = 404
   ∨ http_status (App.route API_KEY sensors endpoint request w).1 = 500)
  ∧ (http_status (Main.route API_KEY sensors endpoint request w).1 = 200
     ∨ http_status (Main.route API_KEY sensors endpoint request w).1 = 404
     ∨ http_status (Main.route API_KEY sensors endpoint request w).1 = 500).
Proof.
  intros Hep Hkey.
  assert (Hread : ∀ (sensor : DHT22Sensor.t) (w0 : World),
            let flask :=
              (result <- DHT22Sensor.read sensor ;;
               match result with
               | Success data => App.respond 200 (DataBody data)
               | Failure error => App.respond 500 (ErrorBody error)
               end) w0 in
            let fastapi :=
              (result <- DHT22Sensor.read sensor ;;
               match result with
               | Success data => lift (JSONResponse 200 (DataBody data))
               | Failure error => raise (HTTPException 500 error)
               end) w0 in
            (http_status flask.1 = 200 ∨ http_status flask.1 = 500)
            ∧ (http_status fastapi.1 = 200 ∨ http_status fastapi.1 = 500)).
  { intros sensor w0. unfold bind.
    destruct (DHT22Sensor.read sensor w0) as [[[data|error]|e] w'] eqn:Hr;
      simpl.
    - split; [by left|]. unfold lift. simpl.
      destruct (forallb _ data); [by left | by right].
    - split; by right.
    - apply dht22_read_Raises_inv in Hr as (-> & _). split; by right. }
  destruct endpoint as [| |sensor_id|sensor_id|]; [done| | | |];
    cbn [App.route Main.route].
  - unfold App.list_sensors, Main.list_sensors, App.check_api_key,
      Main.verify_api_key, bind.
    rewrite !decide_True by done. simpl. rewrite !info_loop. split; by left.
  - unfold App.get_sensor_data, Main.get_sensor_data, App.check_api_key,
      Main.verify_api_key.
    unfold bind at 1 3. rewrite !decide_True by done. unfold ret at 1 2.
    cbn beta iota.
    destruct (dict_get sensors (VStr sensor_id)) as [sensor|];
      [|split; right; by left].
    destruct (Hread sensor w) as [[Hs|Hs] [Hm|Hm]]; split;
      ((left; exact Hs) || (right; right; exact Hs)
       || (left; exact Hm) || (right; right; exact Hm)).
  - unfold App.get_sensor_info, Main.get_sensor_info, App.check_api_key,
      Main.verify_api_key, bind.
    rewrite !decide_True by done. simpl.
    destruct (dict_get sensors (VStr sensor_id)) as [sensor|];
      [split; by left | split; right; by left].
  - unfold App.get_sensor_data_legacy, Main.get_sensor_data_legacy,
      App.check_api_key, Main.verify_api_key.
    unfold bind at 1 4. rewrite !decide_True by done. unfold ret at 1 2.
    cbn beta iota.
    destruct sensors as [|[k sensor] sensors];
      [split; right; by left|].
    unfold bind at 1 3. cbn [App.find_dht22].
    unfold bind at 1 3. cbn [get_info DHT22Sensor_Sensor ret].
    unfold ret at 1 3. cbn beta iota.
    cbn [DHT22Sensor.get_info info_type String.eqb Ascii.eqb Bool.eqb].
    unfold ret at 1 2. cbn beta iota.
    destruct (Hread sensor w) as [[Hs|Hs] [Hm|Hm]]; split;
      ((left; exact Hs) || (right; right; exact Hs)
       || (left; exact Hm) || (right; right; exact Hm)).
Qed.

Lemma routes_without_key {S : Type} `{Sensor S} (API_KEY : PyVal)
    (sensors : PyDict PyVal S) (endpoint : Endpoint) (request : Request)
    (w : World) :
  endpoint ≠ Health →
  header_value (authorization request) ≠ API_KEY →
  http_status (App.route API_KEY sensors endpoint request w).1 = 401
  ∧ http_status (Main.route API_KEY sensors endpoint request w).1 = 401.
Proof.
  intros Hep Hkey.
  destruct endpoint; [done| | | |]; simpl;
    unfold App.list_sensors, App.get_sensor_data, App.get_sensor_info,
      App.get_sensor_data_legacy, App.check_api_key,
      Main.list_sensors, Main.get_sensor_data, Main.get_sensor_info,
      Main.get_sensor_data_legacy, Main.verify_api_key, bind;
    by rewrite !decide_False.
Qed.

(** The health check of either front end never answers 401. *)
Lemma health_routes_status {S : Type} `{Sensor S} (API_KEY : PyVal)
    (sensors : PyDict PyVal S) (request : Request) (w : World) :
  http_status (App.route API_KEY sensors Health request w).1 ≠ 401
  ∧ http_status (Main.route API_KEY sensors Health request w).1 ≠ 401.
Proof.
  cbn [App.route Main.route].
  destruct (health_handlers_eq sensors request w) as [-> ->].
  match goal with
  | |- context [App.respond ?c (HealthBody ?r) ?w'] =>
      destruct (respond_health c r w') as [_ Hr]
  end.
  split.
  - destruct (sortable _).
    + rewrite Hr. simpl. by destruct (String.eqb _ "healthy").
    + destruct Hr as [msg ->]. done.
  - simpl. by destruct (String.eqb _ "healthy").
Qed.

(** X14.  Over a registry of DHT22 sensors, in both front ends, a request is
    answered 401 exactly when it is for a route other than the health check
    and its [Authorization] header is not the configured key: with the right
    key no route answers 401, whatever the sensors do, and the health check
    never does. *)
Theorem status_401_iff_key_mismatch :
  ∀ (API_KEY : PyVal) (sensors : Registry) (endpoint : Endpoint)
    (request : Request) (w : World),
    (http_status (App.route API_KEY sensors endpoint request w).1 = 401
     ↔ endpoint ≠ Health ∧ header_value (authorization request) ≠ API_KEY)
    ∧ (http_status (Main.route API_KEY sensors endpoint request w).1 = 401
       ↔ endpoint ≠ Health ∧ header_value (authorization request) ≠ API_KEY).
Proof.
  intros API_KEY sensors endpoint request w.
  assert (endpoint = Health ∨ endpoint ≠ Health) as [->|Hep]
    by (destruct endpoint; (by left) || (by right)).
  { destruct (health_routes_status API_KEY sensors request w) as [Ha Hm].
    split; (split; [done | by intros [? _]]). }
  destruct (decide (header_value (authorization request) = API_KEY))
    as [Hkey|Hkey].
  - destruct (dht22_routes_with_key API_KEY sensors endpoint request w
                Hep Hkey) as [Ha Hm].
    split; (split; [|by intros [_ ?]]).
    + intros H401. destruct Ha as [?|[?|?]]; congruence.
    + intros H401. destruct Hm as [?|[?|?]]; congruence.
  - destruct (routes_without_key API_KEY sensors endpoint request w
                Hep Hkey) as [Ha Hm].
    split; (split; [done|]); intros _; done.
Qed.

(** ** When a device is opened *)

Lemma partition_dot_None (s head : string) :
  partition_dot s = (head, None) → s = head.
Proof.
  revert head. induction s as [|a s IH]; intros head; simpl.
  - by intros [= <-].
  - destruct (Ascii.eqb a "."); [done|].
    destruct (partition_dot s) as [h t]. intros [= <- ->]. by rewrite (IH h).
Qed.

(** What an import gives: one of the two modules of the package, the
    second after the driver import, or a failure before or after that
    import. *)
Lemma import_module_cases (lowered : string) (w : World) :
  let after := mkWorld (hardware w) (calls w ++ [ImportDriver]) (log w) in
  (lowered = "base"
   ∧ import_module ("sensors." +:+ lowered) w = (Returns sensors_base, w))
  ∨ (lowered = "dht22"
     ∧ import_module ("sensors." +:+ lowered) w
       = (match hw_answer (hardware w) (calls w) ImportDriver with
          | Returns _ => Returns sensors_dht22
          | Raises e => Raises e
          end, after))
  ∨ (∃ e : PyExc,
       import_module ("sensors." +:+ lowered) w = (Raises e, w)
       ∨ import_module ("sensors." +:+ lowered) w = (Raises e, after)).
Proof.
  intros after. unfold import_module.
  change (strip_prefix "sensors." ("sensors." +:+ lowered)) with (Some lowered).
  cbn beta iota.
  destruct (partition_dot lowered) as [head [tail|]] eqn:Hpart.
  - right. right.
    destruct (String.eqb head "base"); [eexists; by left|].
    destruct (String.eqb head "dht22"); [|eexists; by left].
    unfold bind, hw_call, raise.
    destruct (hw_answer (hardware w) (calls w) ImportDriver);
      eexists; by right.
  - apply partition_dot_None in Hpart as ->.
    destruct (String.eqb head "base") eqn:Hb.
    { apply String.eqb_eq in Hb as ->. by left. }
    destruct (String.eqb head "dht22") eqn:Hd.
    { apply String.eqb_eq in Hd as ->. right. left. split; [done|].
      unfold bind, hw_call, ret.
      by destruct (hw_answer (hardware w) (calls w) ImportDriver). }
    right. right. eexists. by left.
Qed.

(** X15.  The driver calls of one constructor run: none, the import of the driver
    module alone, or the import followed by the opening of one device; and a
    device is opened only for the exact type tag [DHT22] (not [dht22], not
    [Base]), with an identifier present, on a pin that is a string naming an
    attribute of [board].  The hardware itself is left as it is. *)
Theorem construct_opens_at_most_one_device :
  ∀ (c : SensorConfig) (w : World),
    hardware (construct c w).2 = hardware w
    ∧ (calls (construct c w).2 = calls w
       ∨ calls (construct c w).2 = calls w ++ [ImportDriver]
       ∨ ∃ pin : string,
           calls (construct c w).2 = calls w ++ [ImportDriver; OpenDHT22 pin]
           ∧ dict_get c "type" = Some (VStr "DHT22")
           ∧ is_Some (dict_get c "id")
           ∧ dict_get_default c "pin" (VStr "D4") = VStr pin
           ∧ hw_pin (hardware w) pin = true).
Proof.
  intros c w. split; [apply steady_construct|].
  remember (construct c w) as r eqn:Hr.
  unfold construct, getitem, str_lower in Hr. unfold bind at 1, lift at 1 in Hr.
  destruct (dict_get c "type") as [ty|] eqn:Hty; cbn beta iota in Hr;
    [|subst r; by left].
  unfold bind at 1, lift at 1 in Hr.
  destruct (dict_get c "id") as [sensor_id|] eqn:Hid; cbn beta iota in Hr;
    [|subst r; by left].
  unfold bind at 1, lift at 1 in Hr.
  destruct ty as [| |s]; cbn beta iota in Hr;
    [subst r; by left | subst r; by left |].
  cbn [py_str] in Hr. unfold bind at 1 in Hr.
  destruct (import_module_cases (lower s) w)
    as [[_ Himp]|[[_ Himp]|[e [Himp | Himp]]]]; rewrite Himp in Hr;
    cbn beta iota in Hr; [| |subst r; by left|subst r; right; by left].
  - unfold bind at 1, lift at 1, getattr_module in Hr.
    destruct (String.eqb (s +:+ "Sensor") "BaseSensor");
      cbn beta iota in Hr; subst r; by left.
  - destruct (hw_answer (hardware w) (calls w) ImportDriver);
      cbn beta iota in Hr; [|subst r; right; by left].
    unfold bind at 1, lift at 1, getattr_module in Hr.
    destruct (String.eqb (s +:+ "Sensor") "DHT22Sensor") eqn:Hcls;
      cbn beta iota in Hr.
    + apply String.eqb_eq in Hcls.
      apply (string_app_inv_tail s "DHT22" "Sensor") in Hcls. subst s.
      unfold instantiate, DHT22Sensor.init, BaseSensor.init,
        DHT22Sensor.getattr_board, hw_open, hw_call, logger, ret, raise, bind
        in Hr.
      cbn beta iota in Hr. cbn [hardware calls log] in Hr.
      destruct (dict_get_default c "pin" (VStr "D4")) as [| |pin] eqn:Hpin;
        cbn beta iota in Hr;
        [subst r; right; by left | subst r; right; by left |].
      cbn [hardware calls log] in Hr.
      destruct (hw_pin (hardware w) pin) eqn:Hboard; cbn beta iota in Hr;
        [|subst r; right; by left].
      right. right. exists pin. cbn [hardware calls log] in Hr.
      destruct (hw_answer (hardware w) _ (OpenDHT22 pin));
        cbn beta iota in Hr; subst r;
        cbn [calls snd]; rewrite <- app_assoc; done.
    + destruct (String.eqb (s +:+ "Sensor") "BaseSensor");
        cbn beta iota in Hr; subst r; right; by left.
Qed.

(** ** The device of an overwritten instance *)

Lemma elem_NoDup_dict_get {K V : Type} `{EqDecision K} (d : PyDict K V)
    (k : K) (v : V) :
  NoDup (dict_keys d) → (k, v) ∈ d → dict_get d k = Some v.
Proof.
  unfold dict_keys. induction d as [|[k' v'] d IH]; simpl; intros Hnd Hin.
  - by apply elem_of_nil in Hin.
  - apply NoDup_cons in Hnd as [Hk' Hnd].
    apply elem_of_cons in Hin as [[= -> ->]|Hin].
    + by rewrite decide_True.
    + rewrite decide_False; [by apply IH|].
      intros ->. apply Hk'. apply list_elem_of_fmap. by exists (k, v).
Qed.

(** A binding of the registry is the last assignment to its key. *)
Lemma assign_all_get_last (sensors : Registry)
    (entries : list (PyVal * DHT22Sensor.t)) (k : PyVal) (v : DHT22Sensor.t) :
  dict_get (assign_all sensors entries) k = Some v →
  (dict_get sensors k = Some v ∧ k ∉ dict_keys entries)
  ∨ ∃ e1 e2 : list (PyVal * DHT22Sensor.t),
      entries = e1 ++ (k, v) :: e2 ∧ k ∉ dict_keys e2.
Proof.
  revert sensors. induction entries as [|[k' v'] entries IH]; intros sensors Hg.
  - left. split; [done|]. apply not_elem_of_nil.
  - unfold assign_all in Hg. simpl in Hg.
    fold (assign_all (dict_set sensors k' v') entries) in Hg.
    apply IH in Hg as [[Hg Hk]|(e1 & e2 & -> & Hk)].
    + destruct (decide (k' = k)) as [->|Hne].
      * rewrite dict_get_set_eq in Hg. simplify_eq.
        right. by exists [], entries.
      * rewrite dict_get_set_ne in Hg by done. left. split; [done|].
        unfold dict_keys. rewrite fmap_cons. apply not_elem_of_cons.
        split; [by intros -> | done].
    + right. by exists ((k', v') :: e1), e2.
Qed.

(** The devices of the entries grow with their position: each constructor
    opens a new one. *)
Lemma entries_devices_increase (specs : list SensorConfig) (w : World)
    (i j : nat) (p q : PyVal * DHT22Sensor.t) :
  (i < j)%nat →
  omap entry_of (attempts specs w) !! i = Some p →
  omap entry_of (attempts specs w) !! j = Some q →
  ∃ d1 d2 : Device,
    DHT22Sensor.sensor p.2 = Some d1 ∧ DHT22Sensor.sensor q.2 = Some d2
    ∧ (d1 < d2)%nat.
Proof.
  revert w i j. induction specs as [|c specs IH]; intros w i j Hij Hi Hj;
    [done|].
  cbn [attempts omap list_omap] in Hi, Hj.
  fold (omap entry_of (attempts specs (load_sensor c [] w).2)) in Hi, Hj.
  pose proof (attempts_opened specs (load_sensor c [] w).2) as Hopened.
  destruct (truthy (enabled_flag c)) eqn:He;
    [|cbn [entry_of] in Hi, Hj; by eapply IH].
  destruct (construct c w) as [[[[sensor_id sensor_type] inst]|e] w1] eqn:Hc;
    cbn [fst entry_of] in Hi, Hj; [|by eapply IH].
  destruct j as [|j]; [lia|]. cbn [lookup list_lookup] in Hj.
  destruct i as [|i]; cbn [lookup list_lookup] in Hi.
  - simplify_eq. cbn [snd].
    destruct (construct_Returns_calls _ _ _ _ _ _ Hc)
      as (pin & _ & _ & _ & _ & Hcalls & Hdev).
    rewrite Forall_forall in Hopened.
    destruct (Hopened q) as (d2 & pin2 & Hd2 & _ & Hlt & _).
    { by eapply list_elem_of_lookup_2. }
    exists (S (length (calls w))), d2. split; [done|]. split; [done|].
    rewrite load_sensor_enabled, Hc in Hlt by done. cbn [snd logged calls] in Hlt.
    rewrite Hcalls, length_app in Hlt. simpl in Hlt. lia.
  - apply (IH (load_sensor c [] w).2 i j); [lia | done | done].
Qed.

Lemma lookup_two_split {A : Type} (l : list A) (i j : nat) (a b : A) :
  (i < j)%nat → l !! i = Some a → l !! j = Some b →
  ∃ l1 l2 l3 : list A, l = l1 ++ a :: l2 ++ b :: l3.
Proof.
  intros Hij Hi Hj.
  exists (take i l), (take (j - S i) (drop (S i) l)), (drop (S j) l).
  rewrite <- (take_drop_middle l i a Hi) at 1. f_equal. f_equal.
  assert (Hj' : drop (S i) l !! (j - S i) = Some b).
  { rewrite lookup_drop. by replace (S i + (j - S i)) with j by lia. }
  rewrite <- (take_drop_middle _ _ _ Hj') at 1. f_equal. f_equal.
  rewrite drop_drop. f_equal. lia.
Qed.

(** X16.  When two specs with one identifier both instantiate, the device the
    earlier one opened is lost: it was opened during the load, its instance
    is not in the registry, and the shutdown of either front end, which
    exits the devices of the registry, never calls its [exit()]. *)
Theorem overwritten_device_is_never_exited :
  ∀ (config : Config) (w : World) (i j : nat) (sensor_id : PyVal)
    (type1 type2 : string) (inst1 inst2 : DHT22Sensor.t),
    let specs := sensor_configs config in
    Forall (fun c => skips_cleanly c = true) specs →
    (i < j)%nat →
    attempts specs w !! i = Some (Some (Returns (sensor_id, type1, inst1))) →
    attempts specs w !! j = Some (Some (Returns (sensor_id, type2, inst2))) →
    ∃ (sensors : Registry) (w' : World) (dev : Device) (pin : string),
      load_sensors config [] w = (Returns sensors, w')
      ∧ DHT22Sensor.sensor inst1 = Some dev
      ∧ calls w' !! dev = Some (OpenDHT22 pin)
      ∧ (dev ∉ omap DHT22Sensor.sensor (dict_values sensors))
      ∧ ∀ w0 : World,
          ∃ exits : list HwCall,
            calls (App.shutdown sensors w0).2 = calls w0 ++ exits
            ∧ calls (Main.shutdown_event sensors w0).2 = calls w0 ++ exits
            ∧ ExitDevice dev ∉ exits.
Proof.
  intros config w i j sensor_id type1 type2 inst1 inst2 specs Hs Hij Hi Hj.
  unfold load_sensors. fold specs. rewrite load_list_eq by done.
  set (E := omap entry_of (attempts specs w)).
  destruct (lookup_two_split _ _ _ _ _ Hij Hi Hj) as (l1 & l2 & l3 & Hl).
  assert (HE : E = omap entry_of l1 ++ (sensor_id, inst1)
                 :: omap entry_of l2 ++ (sensor_id, inst2) :: omap entry_of l3).
  { unfold E. rewrite Hl. rewrite omap_app. cbn [omap list_omap entry_of].
    fold (omap entry_of (l2 ++ Some (Returns (sensor_id, type2, inst2)) :: l3)).
    by rewrite omap_app. }
  set (m := length (omap entry_of l1)).
  assert (Hm : E !! m = Some (sensor_id, inst1)).
  { rewrite HE. by apply list_lookup_middle. }
  assert (Hm2 : E !! (m + S (length (omap entry_of l2)))
                = Some (sensor_id, inst2)).
  { rewrite HE. rewrite lookup_app_r by (unfold m; lia).
    replace (m + S (length (omap entry_of l2)) - length (omap entry_of l1))
      with (S (length (omap entry_of l2))) by (unfold m; lia).
    cbn [lookup list_lookup]. by apply list_lookup_middle. }
  pose proof (attempts_opened specs w) as Hopened. fold E in Hopened.
  rewrite Forall_forall in Hopened.
  destruct (Hopened (sensor_id, inst1)) as (dev & pin & Hdev & Hcall & _).
  { by eapply list_elem_of_lookup_2. }
  cbn [snd] in Hdev.
  assert (Hnot : dev ∉ omap DHT22Sensor.sensor (dict_values (assign_all [] E))).
  { intros Hin. apply list_elem_of_omap in Hin as (v & Hv & Hvdev).
    unfold dict_values in Hv. apply list_elem_of_fmap in Hv as ([k v'] & -> & Hin).
    cbn [snd] in Hvdev.
    apply elem_NoDup_dict_get in Hin; [|apply assign_all_NoDup; constructor].
    apply assign_all_get_last in Hin as [[Hin _]|(e1 & e2 & HE' & Hk)];
      [done|].
    assert (Hn : E !! length e1 = Some (k, v'))
      by (rewrite HE'; by apply list_lookup_middle).
    assert (length e1 = m) as Hlen.
    { destruct (Nat.lt_total (length e1) m) as [Hlt|[Heq|Hgt]]; [|done|].
      - destruct (entries_devices_increase specs w _ _ _ _ Hlt Hn Hm)
          as (d1 & d2 & Hd1 & Hd2 & Hd). cbn [snd] in Hd1, Hd2.
        rewrite Hvdev in Hd1. rewrite Hdev in Hd2.
        injection Hd1 as <-. injection Hd2 as <-. lia.
      - destruct (entries_devices_increase specs w _ _ _ _ Hgt Hm Hn)
          as (d1 & d2 & Hd1 & Hd2 & Hd). cbn [snd] in Hd1, Hd2.
        rewrite Hvdev in Hd2. rewrite Hdev in Hd1.
        injection Hd1 as <-. injection Hd2 as <-. lia. }
    rewrite Hlen, Hm in Hn. injection Hn as <- <-.
    apply Hk. unfold dict_keys. apply list_elem_of_fmap.
    exists (sensor_id, inst2). split; [done|].
    apply list_elem_of_lookup. exists (length (omap entry_of l2)).
    assert (He2 : e2 = drop (S (length e1)) E).
    { rewrite HE'. rewrite (cons_middle _ e1 e2), app_assoc.
      rewrite drop_app_length'; [done|]. rewrite length_app. simpl. lia. }
    rewrite He2, lookup_drop, Hlen.
    replace (S m + length (omap entry_of l2))
      with (m + S (length (omap entry_of l2))) by lia. done. }
  eexists _, _, dev, pin. split; [reflexivity|]. split; [done|].
  split; [done|]. split; [done|].
  intros w0. destruct (cleanup_loop (assign_all [] E) w0)
    as (w1 & Hrun & _ & Hcalls & _).
  exists (ExitDevice <$> omap DHT22Sensor.sensor (dict_values (assign_all [] E))).
  unfold App.shutdown, Main.shutdown_event, bind. rewrite Hrun. simpl.
  split; [done|]. split; [done|].
  intros Hin. apply list_elem_of_fmap in Hin as (d & [= <-] & Hin). done.
Qed.

Lemma overwritten_device_is_never_exited_witness :
  let config := config_of [spec_on "a" "DHT22" "D4"; spec "b" "DHT22";
                           spec_on "a" "DHT22" "D18"] in
  ∃ (sensors : Registry) (w' : World) (dev : Device) (pin : string),
    load_sensors config [] (fresh_world hw_fine) = (Returns sensors, w')
    ∧ DHT22Sensor.sensor
        (DHT22Sensor.mk
           (BaseSensor.mk (VStr "a") (VStr "a") (spec_on "a" "DHT22" "D4")
              (VBool true)) (Some 1%nat)) = Some dev
    ∧ calls w' !! dev = Some (OpenDHT22 pin)
    ∧ (dev ∉ omap DHT22Sensor.sensor (dict_values sensors))
    ∧ ∀ w0 : World,
        ∃ exits : list HwCall,
          calls (App.shutdown sensors w0).2 = calls w0 ++ exits
          ∧ calls (Main.shutdown_event sensors w0).2 = calls w0 ++ exits
          ∧ ExitDevice dev ∉ exits.
Proof.
  eapply (overwritten_device_is_never_exited
            (config_of [spec_on "a" "DHT22" "D4"; spec "b" "DHT22";
                        spec_on "a" "DHT22" "D18"])
            (fresh_world hw_fine) 0 2 (VStr "a")).
  - repeat constructor.
  - lia.
  - vm_compute. reflexivity.
  - vm_compute. reflexivity.
Defined.

(** ** The driver calls of the reading routes *)

Lemma dht22_read_calls_any (self : DHT22Sensor.t) (w : World) :
  hardware (DHT22Sensor.read self w).2 = hardware w
  ∧ ∃ cs : list HwCall,
      calls (DHT22Sensor.read self w).2 = calls w ++ cs
      ∧ (length cs ≤ 2)%nat
      ∧ Forall (fun c => ∃ dev : Device,
                  DHT22Sensor.sensor self = Some dev
                  ∧ (c = GetTemperature dev ∨ c = GetHumidity dev)) cs.
Proof.
  destruct (DHT22Sensor.sensor self) as [dev|] eqn:Hdev.
  - destruct (dht22_read_driver_calls_aux self dev w Hdev) as [Hh Hc].
    split; [done|]. eexists. split; [exact Hc|].
    destruct (returned _); simpl; (split; [lia|]); repeat constructor; eauto.
  - unfold DHT22Sensor.read, try_except, bind, DHT22Sensor.get_sensor, raise,
      logger, ret. rewrite Hdev. simpl. split; [done|].
    exists []. rewrite app_nil_r. simpl. repeat split; [lia | constructor].
Qed.

(** X17.  A health pass over a registry of DHT22 sensors only measures: it leaves
    the hardware as it is, and the driver calls it adds are at most two per
    sensor, each a temperature or humidity read of the device of a registered
    sensor; it never opens, exits or imports anything. *)
Theorem health_pass_only_measures :
  ∀ (sensors : Registry) (request : Request) (w : World),
    (Main.health_check sensors request w).2
      = (App.check_health sensors request w).2
    ∧ hardware (App.check_health sensors request w).2 = hardware w
    ∧ ∃ cs : list HwCall,
        calls (App.check_health sensors request w).2 = calls w ++ cs
        ∧ (length cs ≤ 2 * length sensors)%nat
        ∧ Forall (fun c => ∃ dev : Device,
                    dev ∈ omap DHT22Sensor.sensor (dict_values sensors)
                    ∧ (c = GetTemperature dev ∨ c = GetHumidity dev)) cs.
Proof.
  intros sensors request w.
  destruct (health_handlers_eq sensors request w) as [-> ->].
  match goal with
  | |- context [App.respond ?c (HealthBody ?r) ?w'] =>
      destruct (respond_health c r w') as [-> _]
  end.
  split; [done|].
  revert w. induction sensors as [|[k self] sensors IH]; intros w.
  - simpl. split; [done|]. exists []. rewrite app_nil_r. simpl.
    repeat split; [lia | constructor].
  - cbn [world_after].
    change (read (k, self).2 w) with (DHT22Sensor.read self w).
    destruct (dht22_read_calls_any self w) as (Hh & cs1 & Hc1 & Hl1 & Hall1).
    destruct (IH (DHT22Sensor.read self w).2) as (Hh2 & cs2 & Hc2 & Hl2 & Hall2).
    split; [congruence|]. exists (cs1 ++ cs2).
    split; [by rewrite Hc2, Hc1, app_assoc|]. split.
    { rewrite length_app. simpl. lia. }
    apply Forall_app. split.
    + eapply Forall_impl; [exact Hall1|]. intros c (dev & Hdev & Hc).
      exists dev. split; [|done]. cbn [dict_values fmap list_fmap snd omap list_omap].
      rewrite Hdev. apply elem_of_cons. by left.
    + eapply Forall_impl; [exact Hall2|]. intros c (dev & Hdev & Hc).
      exists dev. split; [|done]. cbn [dict_values fmap list_fmap snd omap list_omap].
      destruct (DHT22Sensor.sensor self); [apply elem_of_cons; by right | done].
Qed.

(** X18.  A data request for a registered DHT22 sensor, with the right key, makes
    at most two driver calls, both measurements on the device of that
    sensor: the devices of the other sensors are not touched. *)
Theorem data_route_reads_only_its_sensor :
  ∀ (API_KEY : PyVal) (sensors : Registry) (sensor_id : string)
    (sensor : DHT22Sensor.t) (request : Request) (w : World),
    header_value (authorization request) = API_KEY →
    dict_get sensors (VStr sensor_id) = Some sensor →
    (Main.get_sensor_data API_KEY sensors sensor_id request w).2
      = (App.get_sensor_data API_KEY sensors sensor_id request w).2
    ∧ ∃ cs : list HwCall,
        calls (App.get_sensor_data API_KEY sensors sensor_id request w).2
          = calls w ++ cs
        ∧ (length cs ≤ 2)%nat
        ∧ Forall (fun c => ∃ dev : Device,
                    DHT22Sensor.sensor sensor = Some dev
                    ∧ (c = GetTemperature dev ∨ c = GetHumidity dev)) cs.
Proof.
  intros API_KEY sensors sensor_id sensor request w Hkey Hget.
  unfold App.get_sensor_data, Main.get_sensor_data, App.check_api_key,
    Main.verify_api_key, App.respond, bind, lift.
  rewrite !decide_True by done. simpl. rewrite Hget.
  cbn [read DHT22Sensor_Sensor].
  destruct (dht22_read_calls_any sensor w) as (_ & cs & Hc & Hl & Hall).
  split.
  - by destruct (DHT22Sensor.read sensor w) as [[[data|?]|?] ?].
  - exists cs. split; [|done]. rewrite <- Hc.
    by destruct (DHT22Sensor.read sensor w) as [[[?|?]|?] ?].
Qed.

Lemma data_route_reads_only_its_sensor_witness :
  let sensors : Registry := [(VStr "t1", dht22_t1)] in
  let w := fresh_world hw_checksum in
  (Main.get_sensor_data (VStr "key") sensors "t1" (mkRequest (Some "key")) w).2
    = (App.get_sensor_data (VStr "key") sensors "t1" (mkRequest (Some "key")) w).2
  ∧ ∃ cs : list HwCall,
      calls (App.get_sensor_data (VStr "key") sensors "t1"
               (mkRequest (Some "key")) w).2 = calls w ++ cs
      ∧ (length cs ≤ 2)%nat
      ∧ Forall (fun c => ∃ dev : Device,
                  DHT22Sensor.sensor dht22_t1 = Some dev
                  ∧ (c = GetTemperature dev ∨ c = GetHumidity dev)) cs.
Proof.
  apply (data_route_reads_only_its_sensor (VStr "key") [(VStr "t1", dht22_t1)]
           "t1" dht22_t1 (mkRequest (Some "key")) (fresh_world hw_checksum)).
  - reflexivity.
  - reflexivity.
Defined.

(** ** What [get_info] echoes *)

(** X19.  For every instance registered by [load_sensors], [get_info()] echoes the
    spec the instance was built from: the name is the [name] of the spec, or
    the identifier when the spec has none; the pin is the [pin] of the spec,
    or [D4]; the enabled flag is the one of the spec, or [True]; the type is
    [DHT22]. *)
Theorem loaded_info_echoes_the_spec :
  ∀ (config : Config) (w w' : World) (sensors : Registry)
    (sensor_id : PyVal) (sensor : DHT22Sensor.t),
    load_sensors config [] w = (Returns sensors, w') →
    dict_get sensors sensor_id = Some sensor →
    ∃ c : SensorConfig,
      c ∈ sensor_configs config
      ∧ DHT22Sensor.config sensor = c
      ∧ info_name (DHT22Sensor.get_info sensor)
        = dict_get_default c "name" sensor_id
      ∧ info_pin (DHT22Sensor.get_info sensor)
        = dict_get_default c "pin" (VStr "D4")
      ∧ info_enabled (DHT22Sensor.get_info sensor)
        = dict_get_default c "enabled" (VBool true)
      ∧ info_type (DHT22Sensor.get_info sensor) = "DHT22".
Proof.
  intros config w w' sensors sensor_id sensor Hload Hget.
  apply load_sensors_Returns_clean in Hload as (_ & -> & _).
  apply assign_all_get_inv in Hget as [Hin|Hget]; [|done].
  apply list_elem_of_omap in Hin as (a & Ha & Hentry).
  apply list_elem_of_lookup in Ha as [i Hi].
  destruct (Forall2_lookup_r _ _ _ _ _
              (attempts_spec (sensor_configs config) w) Hi)
    as (c & Hc & Hca).
  destruct a as [[[[id ty] inst]|e]|]; simpl in Hentry; simplify_eq.
  destruct Hca as (_ & _ & Hbase).
  exists c. split; [by eapply list_elem_of_lookup_2|].
  unfold DHT22Sensor.get_info, DHT22Sensor.config, DHT22Sensor.name,
    DHT22Sensor.enabled. simpl. rewrite Hbase. done.
Qed.

Lemma loaded_info_echoes_the_spec_witness :
  let sensor := DHT22Sensor.mk
                  (BaseSensor.mk (VStr "t1") (VStr "t1")
                     (spec_on "t1" "DHT22" "D18") (VBool true)) (Some 1%nat) in
  ∃ c : SensorConfig,
    c ∈ sensor_configs (config_of [spec_on "t1" "DHT22" "D18"])
    ∧ DHT22Sensor.config sensor = c
    ∧ info_name (DHT22Sensor.get_info sensor)
      = dict_get_default c "name" (VStr "t1")
    ∧ info_pin (DHT22Sensor.get_info sensor)
      = dict_get_default c "pin" (VStr "D4")
    ∧ info_enabled (DHT22Sensor.get_info sensor)
      = dict_get_default c "enabled" (VBool true)
    ∧ info_type (DHT22Sensor.get_info sensor) = "DHT22".
Proof.
  eapply (loaded_info_echoes_the_spec (config_of [spec_on "t1" "DHT22" "D18"])
            (fresh_world hw_fine)).
  - vm_compute. reflexivity.
  - vm_compute. reflexivity.
Defined.
